(** * SentinelAI: the abuse-detection and escalation engine

    A shallow embedding of
      - [src/security/antinuke.js]   (class [AntiNukeSystem]),
      - [src/database/supabase.js]   (anti-nuke settings and security events),
      - [src/commands/handlers.js]   ([handleAntiNuke]),
      - [src/bot/actions.js]         (the kick / mute / delete handlers),
      - [src/moderation/groq-engine.js] ([analyzeMessageWithGroq]),
      - [src/bot/discord-bot.js]     ([handleMessage]).

    Asynchronous functions are embedded as computations in a state and
    exception monad: the state is the process memory (the two module-level
    maps), the durable store and the platform state of the guild; a JavaScript
    [throw] is the outcome [Thrown]; [try]/[catch] is [try_catch].  One event
    handler runs from start to end; interleavings of handlers are outside the
    model. *)

From Stdlib Require Import ZArith Lia Bool List.
From stdpp Require Import base option list strings gmap.

Local Open Scope string_scope.
Local Open Scope Z_scope.

(** ** JavaScript values of the settings object

    A property of a settings object that the code reads as a number is an
    [option Z]: [None] is an absent property ([undefined]).  Properties that
    the code only tests for truthiness are kept as their truthiness. *)

Module JS.

(** [a || d] on numbers: [undefined] and [0] are falsy. *)
Definition or_num (a d : option Z) : option Z :=
  match a with
  | Some n => if n =? 0 then d else Some n
  | None => d
  end.

(** [a || d] on strings: [undefined] and the empty string are falsy. *)
Definition or_str (a : option string) (d : string) : string :=
  match a with
  | Some s => if String.eqb s "" then d else s
  | None => d
  end.

(** Relational operators with a possibly [undefined] operand:
    [undefined] converts to [NaN] and every comparison with it is false. *)
Definition lt (a b : option Z) : bool :=
  match a, b with Some x, Some y => x <? y | _, _ => false end.
Definition ge (a b : option Z) : bool :=
  match a, b with Some x, Some y => x >=? y | _, _ => false end.
Definition gt (a b : option Z) : bool :=
  match a, b with Some x, Some y => x >? y | _, _ => false end.

End JS.

(** ** Data model *)

Record Settings := mkSettings {
  enabled : bool;
  channelDeleteLimit : option Z;
  channelCreateLimit : option Z;
  roleDeleteLimit : option Z;
  roleCreateLimit : option Z;
  banLimit : option Z;
  kickLimit : option Z;
  webhookCreateLimit : option Z;
  memberPruneLimit : option Z;
  timeWindow : option Z;
  punishmentType : option string;
  notifyOwner : bool;
  lockdownOnTrigger : bool;
  whitelist : option (list string);
  nightmodeEnabled : bool;
  nightmodeStartHour : option Z;
  nightmodeEndHour : option Z;
  nightmodeTimezone : option string;
  nightmodeStricterLimits : bool;
  nightmodeAutoLock : bool;
  nightmodeChannelDeleteLimit : option Z;
  nightmodeChannelCreateLimit : option Z;
  nightmodeRoleDeleteLimit : option Z;
  nightmodeRoleCreateLimit : option Z;
  nightmodeBanLimit : option Z;
  nightmodeKickLimit : option Z;
  nightmodeWebhookCreateLimit : option Z
}.

Definition DEFAULT_SETTINGS : Settings := {|
  enabled := true;
  channelDeleteLimit := Some 3;
  channelCreateLimit := Some 5;
  roleDeleteLimit := Some 3;
  roleCreateLimit := Some 5;
  banLimit := Some 3;
  kickLimit := Some 5;
  webhookCreateLimit := Some 3;
  memberPruneLimit := Some 10;
  timeWindow := Some 10000;
  punishmentType := Some "BAN";
  notifyOwner := true;
  lockdownOnTrigger := true;
  whitelist := Some [];
  nightmodeEnabled := false;
  nightmodeStartHour := Some 23;
  nightmodeEndHour := Some 7;
  nightmodeTimezone := Some "UTC";
  nightmodeStricterLimits := true;
  nightmodeAutoLock := true;
  nightmodeChannelDeleteLimit := Some 1;
  nightmodeChannelCreateLimit := Some 2;
  nightmodeRoleDeleteLimit := Some 1;
  nightmodeRoleCreateLimit := Some 2;
  nightmodeBanLimit := Some 1;
  nightmodeKickLimit := Some 2;
  nightmodeWebhookCreateLimit := Some 1
|}.

(** A row of the [antinuke_settings] table, with the columns that
    [createDefaultAntiNukeSettings] inserts. *)
Record Row := mkRow {
  row_enabled : bool;
  channel_delete_limit : Z;
  channel_create_limit : Z;
  role_delete_limit : Z;
  role_create_limit : Z;
  ban_limit : Z;
  kick_limit : Z;
  webhook_create_limit : Z;
  member_prune_limit : Z;
  time_window : Z;
  punishment_type : string;
  notify_owner : bool;
  lockdown_on_trigger : bool;
  row_whitelist : list string
}.

Definition DEFAULT_ROW : Row := {|
  row_enabled := true;
  channel_delete_limit := 3;
  channel_create_limit := 5;
  role_delete_limit := 3;
  role_create_limit := 5;
  ban_limit := 3;
  kick_limit := 5;
  webhook_create_limit := 3;
  member_prune_limit := 10;
  time_window := 10000;
  punishment_type := "BAN";
  notify_owner := true;
  lockdown_on_trigger := true;
  row_whitelist := []
|}.

(** What [AntiNukeSystem] reads when the object it holds is a row: the
    properties [enabled] and [whitelist] exist under the names the class
    uses; every camel-case property is absent. *)
Definition row_view (r : Row) : Settings := {|
  enabled := row_enabled r;
  channelDeleteLimit := None;
  channelCreateLimit := None;
  roleDeleteLimit := None;
  roleCreateLimit := None;
  banLimit := None;
  kickLimit := None;
  webhookCreateLimit := None;
  memberPruneLimit := None;
  timeWindow := None;
  punishmentType := None;
  notifyOwner := false;
  lockdownOnTrigger := false;
  whitelist := Some (row_whitelist r);
  nightmodeEnabled := false;
  nightmodeStartHour := None;
  nightmodeEndHour := None;
  nightmodeTimezone := None;
  nightmodeStricterLimits := false;
  nightmodeAutoLock := false;
  nightmodeChannelDeleteLimit := None;
  nightmodeChannelCreateLimit := None;
  nightmodeRoleDeleteLimit := None;
  nightmodeRoleCreateLimit := None;
  nightmodeBanLimit := None;
  nightmodeKickLimit := None;
  nightmodeWebhookCreateLimit := None
|}.

(** The update objects that [handleAntiNuke] builds. *)
Inductive RowUpdate :=
| SetEnabled (b : bool)
| SetChannelDeleteLimit (n : Z)
| SetRoleDeleteLimit (n : Z)
| SetBanLimit (n : Z)
| SetPunishmentType (s : string).

Definition apply_update (r : Row) (u : RowUpdate) : Row :=
  match u with
  | SetEnabled b =>
      mkRow b (channel_delete_limit r) (channel_create_limit r) (role_delete_limit r)
        (role_create_limit r) (ban_limit r) (kick_limit r) (webhook_create_limit r)
        (member_prune_limit r) (time_window r) (punishment_type r) (notify_owner r)
        (lockdown_on_trigger r) (row_whitelist r)
  | SetChannelDeleteLimit n =>
      mkRow (row_enabled r) n (channel_create_limit r) (role_delete_limit r)
        (role_create_limit r) (ban_limit r) (kick_limit r) (webhook_create_limit r)
        (member_prune_limit r) (time_window r) (punishment_type r) (notify_owner r)
        (lockdown_on_trigger r) (row_whitelist r)
  | SetRoleDeleteLimit n =>
      mkRow (row_enabled r) (channel_delete_limit r) (channel_create_limit r) n
        (role_create_limit r) (ban_limit r) (kick_limit r) (webhook_create_limit r)
        (member_prune_limit r) (time_window r) (punishment_type r) (notify_owner r)
        (lockdown_on_trigger r) (row_whitelist r)
  | SetBanLimit n =>
      mkRow (row_enabled r) (channel_delete_limit r) (channel_create_limit r)
        (role_delete_limit r) (role_create_limit r) n (kick_limit r)
        (webhook_create_limit r) (member_prune_limit r) (time_window r)
        (punishment_type r) (notify_owner r) (lockdown_on_trigger r) (row_whitelist r)
  | SetPunishmentType s =>
      mkRow (row_enabled r) (channel_delete_limit r) (channel_create_limit r)
        (role_delete_limit r) (role_create_limit r) (ban_limit r) (kick_limit r)
        (webhook_create_limit r) (member_prune_limit r) (time_window r) s
        (notify_owner r) (lockdown_on_trigger r) (row_whitelist r)
  end.

Record Role := mkRole { role_id : string; role_permissions : Z }.
Record Member := mkMember { member_id : string; member_roles : list Role }.
Record User := mkUser { user_id : string; user_tag : string }.
Record Guild := mkGuild { guild_id : string; ownerId : string }.

(** A channel of the guild; [ch_send] is the [SendMessages] entry of the
    permission overwrite for the default role: [Some true] allow,
    [Some false] deny, [None] neutral. *)
Record Channel := mkChannel {
  ch_id : nat;
  ch_name : string;
  ch_textBased : bool;
  ch_send : option bool
}.

(** A row of [trusted_users] as [getTrustedUsers] selects it
    (['*, discord_users(username, discord_user_id)']): the columns that
    [addTrustedUser] writes, with the internal identifier of the user, and
    the joined [discord_users] record, under which the Discord identifier is
    nested. *)
Record DiscordUser := mkDiscordUser {
  du_username : string;
  du_discord_user_id : string
}.

Record TrustedRow := mkTrustedRow {
  trusted_user_id : string;       (* [user_id]: the internal identifier *)
  trusted_added_by : string;
  discord_users : option DiscordUser
}.

(** [u.discord_user_id]: the row has no property of this name, so the
    expression is [undefined]. *)
Definition discord_user_id (u : TrustedRow) : option string := None.

(** The enforcement handlers of [src/bot/actions.js]; each sends its own
    direct message and channel notice. *)
Inductive Tier := TCaptcha | TWarn | TDelete | TMute | TKick.

(** Calls that change the platform or the durable audit trail, and the call
    to the external classifier. *)
Inductive Effect :=
| RoleRemove (member role : string)
| MemberBan (member : string)
| MemberKick (member : string)
| RolesSet (member : string)
| OwnerDM (attacker reason : string)
| PermEdit (channel : nat) (send : option bool)
| ChannelCreate (name : string)
| ChannelSend (channel : nat)
| ChannelDelete (channel : nat)
| ChannelRestore (name : string)
| RoleRestore (role : string)
| RoleDelete (role : string)
| MemberUnban (user : string)
| WebhookDelete (webhook : string)
| SecurityLog (eventType userId severity : string)
    (actionCount : Z) (limit : option Z) (nightMode : bool)
| AuthorDM (tier : Tier)
| MessageDelete
| MemberTimeout (duration : Z)
| ModerationKick
| ChannelNotice (tier : Tier)
| ModLogSend (action : string)
| GroqCompletion
| InteractionDefer
| InteractionReply (content : string).

(** The embeds that the moderation handlers build from their arguments:
    the direct message of a handler and the entry of the moderation log. *)
Inductive EmbedKind :=
| DmEmbed (tier : Tier)
| ModLogEmbed (action : string).

(** The process memory, the store and the platform. [trace] lists the calls
    attempted so far, oldest first, each with whether it succeeded. *)
Record World := mkWorld {
  actionTracker : gmap string (list Z);
  settingsCache : gmap string Settings;
  db : gmap string Row;
  channels : list Channel;
  trace : list (Effect * bool)
}.

Inductive DbStatus := DbUp | DbError | DbThrows.

Inductive AuditReply :=
| AuditThrows
| AuditEmpty
| AuditEntry (executor : option User) (target : option string).

(** What the surroundings answer during one event. *)
Record Env := mkEnv {
  now : Z;
  localHour : string -> option Z;
  dbStatus : DbStatus;
  platform_ok : list (Effect * bool) -> Effect -> bool;
  fetchMember : string -> option Member;
  auditLog : AuditReply;
  fetchWebhooks : option (list string);
  trustedUsers : string -> list TrustedRow;
  (* the check that discord.js makes when an embed is built (a field value
     has to be a string of 1 to 1024 characters): whether the embed of this
     kind, built from this [reasoning] and these [categories], passes *)
  embedValid : EmbedKind -> option string -> option (list string) -> bool
}.

(** ** The monad *)

Inductive outcome (A : Type) : Type :=
| Done (a : A)
| Thrown.
Arguments Done {A} a.
Arguments Thrown {A}.

Definition M (A : Type) : Type := World -> outcome A * World.

Definition ret {A} (a : A) : M A := fun w => (Done a, w).
Definition throw {A} : M A := fun w => (Thrown, w).
Definition bind {A B} (m : M A) (k : A -> M B) : M B :=
  fun w => match m w with
           | (Done a, w') => k a w'
           | (Thrown, w') => (Thrown, w')
           end.
Definition try_catch {A} (m : M A) (handler : M A) : M A :=
  fun w => match m w with
           | (Done a, w') => (Done a, w')
           | (Thrown, w') => handler w'
           end.

Notation "'do' x <- m ; k" := (bind m (fun x => k))
  (at level 10, x name, m at level 100, k at level 200, only parsing).
Notation "'run' m ; k" := (bind m (fun _ => k))
  (at level 10, m at level 100, k at level 200, only parsing).

Definition get_world : M World := fun w => (Done w, w).
Definition put_world (w : World) : M unit := fun _ => (Done tt, w).

Definition set_tracker (t : gmap string (list Z)) (w : World) : World :=
  mkWorld t (settingsCache w) (db w) (channels w) (trace w).
Definition set_cache (c : gmap string Settings) (w : World) : World :=
  mkWorld (actionTracker w) c (db w) (channels w) (trace w).
Definition set_db (d : gmap string Row) (w : World) : World :=
  mkWorld (actionTracker w) (settingsCache w) d (channels w) (trace w).
Definition set_channels (c : list Channel) (w : World) : World :=
  mkWorld (actionTracker w) (settingsCache w) (db w) c (trace w).
Definition set_trace (t : list (Effect * bool)) (w : World) : World :=
  mkWorld (actionTracker w) (settingsCache w) (db w) (channels w) t.

(** The effect of a successful call on the channels of the guild. *)
Definition set_send (v : option bool) (c : Channel) : Channel :=
  mkChannel (ch_id c) (ch_name c) (ch_textBased c) v.

Definition edit_send (id : nat) (v : option bool) (chs : list Channel) : list Channel :=
  map (fun c => if Nat.eqb (ch_id c) id then set_send v c else c) chs.

Definition delete_channel (id : nat) (chs : list Channel) : list Channel :=
  List.filter (fun c => negb (Nat.eqb (ch_id c) id)) chs.

Definition fresh_id (chs : list Channel) : nat :=
  S (foldr Nat.max 0%nat (map ch_id chs)).

Definition apply_effect (e : Effect) (w : World) : World :=
  match e with
  | PermEdit id v => set_channels (edit_send id v (channels w)) w
  | ChannelDelete id => set_channels (delete_channel id (channels w)) w
  | ChannelCreate name =>
      set_channels (channels w ++ [mkChannel (fresh_id (channels w)) name true None])%list w
  | _ => w
  end.

(** Attempt a call on the platform or the store: the surroundings decide
    whether it succeeds; the attempt is recorded, a successful one takes
    effect, a failed one throws. *)
Definition perform (env : Env) (e : Effect) : M unit := fun w =>
  if platform_ok env (trace w) e
  then (Done tt, set_trace (trace w ++ [(e, true)])%list (apply_effect e w))
  else (Thrown, set_trace (trace w ++ [(e, false)])%list w).

(** ** [src/database/supabase.js] *)

Definition createDefaultAntiNukeSettings (env : Env) (guildId : string) : M (option Row) :=
  fun w => match dbStatus env with
           | DbUp => (Done (Some DEFAULT_ROW), set_db (<[guildId := DEFAULT_ROW]> (db w)) w)
           | DbError => (Done None, w)
           | DbThrows => (Thrown, w)
           end.

Definition getAntiNukeSettings (env : Env) (guildId : string) : M (option Row) :=
  fun w => match dbStatus env with
           | DbUp => match db w !! guildId with
                     | Some r => (Done (Some r), w)
                     | None => createDefaultAntiNukeSettings env guildId w
                     end
           | DbError => (Done None, w)
           | DbThrows => (Thrown, w)
           end.

Definition updateAntiNukeSettings (env : Env) (guildId : string)
    (settings : list RowUpdate) : M Row :=
  run getAntiNukeSettings env guildId ;
  (fun w => match dbStatus env, db w !! guildId with
            | DbUp, Some r =>
                let r' := foldl apply_update r settings in
                (Done r', set_db (<[guildId := r']> (db w)) w)
            | _, _ => (Thrown, w)
            end).

Definition logSecurityEvent (env : Env) (eventType userId severity : string)
    (actionCount : Z) (limit : option Z) (nightMode : bool) : M unit :=
  perform env (SecurityLog eventType userId severity actionCount limit nightMode).

(** ** [src/security/antinuke.js] *)

Module AntiNuke.

Definition getSettings (env : Env) (guildId : string) : M Settings :=
  fun w => match settingsCache w !! guildId with
           | Some s => (Done s, w)
           | None =>
               try_catch
                 (do dbSettings <- getAntiNukeSettings env guildId ;
                  let settings := match dbSettings with
                                  | Some r => row_view r
                                  | None => DEFAULT_SETTINGS
                                  end in
                  (fun w1 => (Done settings,
                              set_cache (<[guildId := settings]> (settingsCache w1)) w1)))
                 (ret DEFAULT_SETTINGS) w
           end.

Definition isNightMode (env : Env) (settings : Settings) : bool :=
  if negb (nightmodeEnabled settings) then false
  else
    let timezone := JS.or_str (nightmodeTimezone settings) "UTC" in
    match localHour env timezone with
    | None => false
    | Some currentHour =>
        let startHour := JS.or_num (nightmodeStartHour settings) (Some 23) in
        let endHour := JS.or_num (nightmodeEndHour settings) (Some 7) in
        if JS.gt startHour endHour
        then JS.ge (Some currentHour) startHour || JS.lt (Some currentHour) endHour
        else JS.ge (Some currentHour) startHour && JS.lt (Some currentHour) endHour
    end.

(** The property names that the handlers pass as [limitType]. *)
Inductive LimitType :=
| LChannelDelete | LChannelCreate | LRoleDelete | LRoleCreate
| LBan | LKick | LWebhookCreate | LMemberPrune.

(** [settings[limitType]] *)
Definition limit_of (settings : Settings) (limitType : LimitType) : option Z :=
  match limitType with
  | LChannelDelete => channelDeleteLimit settings
  | LChannelCreate => channelCreateLimit settings
  | LRoleDelete => roleDeleteLimit settings
  | LRoleCreate => roleCreateLimit settings
  | LBan => banLimit settings
  | LKick => kickLimit settings
  | LWebhookCreate => webhookCreateLimit settings
  | LMemberPrune => memberPruneLimit settings
  end.

(** [settings['nightmode' + capitalised limitType]] *)
Definition night_limit_of (settings : Settings) (limitType : LimitType) : option Z :=
  match limitType with
  | LChannelDelete => nightmodeChannelDeleteLimit settings
  | LChannelCreate => nightmodeChannelCreateLimit settings
  | LRoleDelete => nightmodeRoleDeleteLimit settings
  | LRoleCreate => nightmodeRoleCreateLimit settings
  | LBan => nightmodeBanLimit settings
  | LKick => nightmodeKickLimit settings
  | LWebhookCreate => nightmodeWebhookCreateLimit settings
  | LMemberPrune => None
  end.

Definition getEffectiveLimit (env : Env) (settings : Settings)
    (limitType : LimitType) : option Z :=
  let isNight := isNightMode env settings in
  if negb isNight || negb (nightmodeStricterLimits settings)
  then limit_of settings limitType
  else JS.or_num (night_limit_of settings limitType) (limit_of settings limitType).

Definition isWhitelisted (env : Env) (guildId userId : string) : M bool :=
  try_catch
    (do settings <- getSettings env guildId ;
     let trusted := trustedUsers env guildId in
     match whitelist settings with
     | None => throw
     | Some wl =>
         ret (existsb (String.eqb userId) wl
              || existsb (fun u => match discord_user_id u with
                                   | Some i => String.eqb i userId
                                   | None => false
                                   end) trusted)
     end)
    (ret false).

Definition tracker_key (guildId userId actionType : string) : string :=
  guildId ++ "-" ++ userId ++ "-" ++ actionType.

Definition trackAction (env : Env) (guildId userId actionType : string) : M Z :=
  let key := tracker_key guildId userId actionType in
  let now := now env in
  run (fun w => match actionTracker w !! key with
                | Some _ => (Done tt, w)
                | None => (Done tt, set_tracker (<[key := []]> (actionTracker w)) w)
                end) ;
  do w <- get_world ;
  let actions := default [] (actionTracker w !! key) in
  do settings <- getSettings env guildId ;
  let validActions :=
    List.filter (fun time => JS.lt (Some (now - time)) (timeWindow settings)) actions in
  let validActions := (validActions ++ [now])%list in
  run (fun w => (Done tt, set_tracker (<[key := validActions]> (actionTracker w)) w)) ;
  ret (Z.of_nat (length validActions)).

(** [PermissionFlagsBits] of discord.js: [Administrator] is bit 3,
    [ManageGuild] bit 5, [ManageRoles] bit 28.  [permissions.has(p)] also
    holds when the [Administrator] bit is set. *)
Definition Administrator : Z := Z.shiftl 1 3.
Definition ManageGuild : Z := Z.shiftl 1 5.
Definition ManageRoles : Z := Z.shiftl 1 28.

Definition has (permissions flag : Z) : bool :=
  (Z.land permissions Administrator =? Administrator)
  || (Z.land permissions flag =? flag).

Definition is_dangerous_role (role : Role) : bool :=
  has (role_permissions role) Administrator
  || has (role_permissions role) ManageGuild
  || has (role_permissions role) ManageRoles.

(** The names of the announcement channel, as the source file spells them. *)
Definition NIGHT_LOCKDOWN_NAME : string := "ğŸŒ™-night-lockdown".
Definition SERVER_LOCKDOWN_NAME : string := "ğŸ”’-server-lockdown".

Definition is_lockdown_name (name : string) : bool :=
  String.eqb name SERVER_LOCKDOWN_NAME || String.eqb name NIGHT_LOCKDOWN_NAME.

(** The method [notifyOwner]; the settings property has that name here. *)
Definition notifyOwner_method (env : Env) (guild : Guild) (attacker : User)
    (reason : string) (actionCount : Z) (isNightMode : bool) : M unit :=
  try_catch (perform env (OwnerDM (user_id attacker) reason)) (ret tt).

(** [for (const channel of channels.values()) await
    channel.permissionOverwrites.edit(guild.id, { SendMessages: v })] *)
Fixpoint edit_each (env : Env) (v : option bool) (chans : list Channel) : M unit :=
  match chans with
  | [] => ret tt
  | channel :: rest =>
      run perform env (PermEdit (ch_id channel) v) ;
      edit_each env v rest
  end.

Definition initiateServerLockdown (env : Env) (guild : Guild) (reason : string) : M unit :=
  try_catch
    (do settings <- getSettings env (guild_id guild) ;
     let isNight := isNightMode env settings in
     do w <- get_world ;
     let chans := List.filter ch_textBased (channels w) in
     run edit_each env (Some false) chans ;
     do w <- get_world ;
     let lockdownChannel := fresh_id (channels w) in
     run perform env (ChannelCreate
                        (if isNight then NIGHT_LOCKDOWN_NAME else SERVER_LOCKDOWN_NAME)) ;
     perform env (ChannelSend lockdownChannel))
    (ret tt).

Fixpoint unlock_each (env : Env) (chans : list Channel) : M unit :=
  match chans with
  | [] => ret tt
  | channel :: rest =>
      run (if is_lockdown_name (ch_name channel)
           then perform env (ChannelDelete (ch_id channel))
           else perform env (PermEdit (ch_id channel) None)) ;
      unlock_each env rest
  end.

Definition unlockServer (env : Env) (guild : Guild) : M bool :=
  try_catch
    (do w <- get_world ;
     let chans := List.filter ch_textBased (channels w) in
     run unlock_each env chans ;
     ret true)
    (ret false).

Fixpoint remove_each (env : Env) (member : Member) (roles : list Role) : M unit :=
  match roles with
  | [] => ret tt
  | role :: rest =>
      run perform env (RoleRemove (member_id member) (role_id role)) ;
      remove_each env member rest
  end.

Definition punishUser (env : Env) (guild : Guild) (user : User)
    (reason : string) (actionCount : Z) : M unit :=
  do settings <- getSettings env (guild_id guild) ;
  try_catch
    (match fetchMember env (user_id user) with
     | None => ret tt
     | Some member =>
         if String.eqb (member_id member) (ownerId guild) then ret tt
         else
           let isNight := isNightMode env settings in
           let dangerousRoles := List.filter is_dangerous_role (member_roles member) in
           run remove_each env member dangerousRoles ;
           run match punishmentType settings with
               | Some "BAN" => perform env (MemberBan (member_id member))
               | Some "KICK" => perform env (MemberKick (member_id member))
               | Some "STRIP_ROLES" => perform env (RolesSet (member_id member))
               | _ => ret tt
               end ;
           run (if notifyOwner settings
                then notifyOwner_method env guild user reason actionCount isNight
                else ret tt) ;
           if lockdownOnTrigger settings || (isNight && nightmodeAutoLock settings)
           then initiateServerLockdown env guild reason
           else ret tt
     end)
    (ret tt).

(** The channel that a [channelDelete], [channelCreate] or [webhookUpdate]
    event carries. *)
Record GuildChannel := mkGuildChannel {
  gc_guild : option Guild;
  gc_channel : Channel
}.

Record GuildRole := mkGuildRole { gr_guild : Guild; gr_role : Role }.
Record GuildBan := mkGuildBan { gb_guild : Guild; gb_user : User }.
Record GuildMemberRemove := mkGuildMemberRemove { gm_guild : Guild; gm_member : Member }.

Definition restoreChannel (env : Env) (channel : GuildChannel) : M unit :=
  try_catch
    (run perform env (ChannelRestore (ch_name (gc_channel channel))) ;
     fun w => (Done tt,
               set_channels
                 (channels w ++ [mkChannel (fresh_id (channels w))
                                   (ch_name (gc_channel channel))
                                   (ch_textBased (gc_channel channel))
                                   (ch_send (gc_channel channel))])%list w))
    (ret tt).

Definition restoreRole (env : Env) (role : GuildRole) : M unit :=
  try_catch (perform env (RoleRestore (role_id (gr_role role)))) (ret tt).

(** The body that the seven rate-limited handlers share, from the load of
    the settings on.  The handlers differ in the limit they read
    ([limitType]), the counter they feed ([actionType]), the reason they
    give to [punishUser], the event type and severity they log, the check
    of the audit entry's target ([target_matches], only
    [handleMemberRemove] has one) and the reversal they attempt after the
    punishment ([undo]). *)
Definition handleCountedAction (env : Env) (guild : Guild) (limitType : LimitType)
    (actionType reason eventType : string) (severity : bool -> string)
    (target_matches : option string -> bool) (undo : M unit) : M unit :=
  do settings <- getSettings env (guild_id guild) ;
  if negb (enabled settings) then ret tt
  else
    let isNight := isNightMode env settings in
    let limit := getEffectiveLimit env settings limitType in
    try_catch
      (match auditLog env with
       | AuditThrows => throw
       | AuditEmpty => ret tt
       | AuditEntry executor target =>
           if negb (target_matches target) then ret tt
           else
             match executor with
             | None => ret tt
             | Some executor =>
                 do wl <- isWhitelisted env (guild_id guild) (user_id executor) ;
                 if wl then ret tt
                 else
                   do count <- trackAction env (guild_id guild) (user_id executor)
                                 actionType ;
                   run (if JS.ge (Some count) limit
                        then run punishUser env guild executor reason count ;
                             undo
                        else ret tt) ;
                   try_catch
                     (logSecurityEvent env eventType (user_id executor)
                        (severity (JS.ge (Some count) limit)) count limit isNight)
                     (ret tt)
             end
       end)
      (ret tt).

Definition any_target : option string -> bool := fun _ => true.

Definition handleChannelDelete (env : Env) (channel : GuildChannel) : M unit :=
  match gc_guild channel with
  | None => ret tt
  | Some guild =>
      handleCountedAction env guild LChannelDelete
        "CHANNEL_DELETE" "CHANNEL_DELETE" "CHANNEL_DELETE"
        (fun reached => if reached then "CRITICAL" else "HIGH")
        any_target (restoreChannel env channel)
  end.

Definition handleChannelCreate (env : Env) (channel : GuildChannel) : M unit :=
  match gc_guild channel with
  | None => ret tt
  | Some guild =>
      handleCountedAction env guild LChannelCreate
        "CHANNEL_CREATE" "CHANNEL_CREATE" "CHANNEL_CREATE"
        (fun reached => if reached then "CRITICAL" else "MEDIUM")
        any_target (perform env (ChannelDelete (ch_id (gc_channel channel))))
  end.

Definition handleRoleDelete (env : Env) (role : GuildRole) : M unit :=
  handleCountedAction env (gr_guild role) LRoleDelete
    "ROLE_DELETE" "ROLE_DELETE" "ROLE_DELETE" (fun _ => "CRITICAL")
    any_target (restoreRole env role).

Definition handleRoleCreate (env : Env) (role : GuildRole) : M unit :=
  handleCountedAction env (gr_guild role) LRoleCreate
    "ROLE_CREATE" "ROLE_CREATE" "ROLE_CREATE"
    (fun reached => if reached then "HIGH" else "MEDIUM")
    any_target (perform env (RoleDelete (role_id (gr_role role)))).

Definition handleBan (env : Env) (ban : GuildBan) : M unit :=
  handleCountedAction env (gb_guild ban) LBan
    "BAN" "MASS_BAN" "MASS_BAN" (fun _ => "CRITICAL")
    any_target (perform env (MemberUnban (user_id (gb_user ban)))).

Definition handleMemberRemove (env : Env) (member : GuildMemberRemove) : M unit :=
  handleCountedAction env (gm_guild member) LKick
    "KICK" "MASS_KICK" "MASS_KICK" (fun _ => "HIGH")
    (fun target => match target with
                   | Some id => String.eqb id (member_id (gm_member member))
                   | None => false
                   end)
    (ret tt).

(** [for (const webhook of webhooks.values()) await webhook.delete(...)] *)
Fixpoint delete_each_webhook (env : Env) (webhooks : list string) : M unit :=
  match webhooks with
  | [] => ret tt
  | webhook :: rest =>
      run perform env (WebhookDelete webhook) ;
      delete_each_webhook env rest
  end.

Definition handleWebhookUpdate (env : Env) (channel : GuildChannel) : M unit :=
  match gc_guild channel with
  | None => ret tt
  | Some guild =>
      handleCountedAction env guild LWebhookCreate
        "WEBHOOK_CREATE" "WEBHOOK_SPAM" "WEBHOOK_SPAM" (fun _ => "HIGH")
        any_target
        (match fetchWebhooks env with
         | None => throw
         | Some webhooks => delete_each_webhook env webhooks
         end)
  end.

End AntiNuke.

(** ** [handleAntiNuke] of [src/commands/handlers.js]: the subcommands that
    write the policy or lift a lockdown.  The command defers its reply
    before the [try]; every branch ends with its reply (given here by the
    description of its embed), and the [catch] replies with the error text:
    a reply that the platform refuses in the [catch], or a refused deferral,
    rejects the command. *)

Inductive Subcommand :=
| SubEnable
| SubDisable
| SubConfig (updates : list RowUpdate)
| SubUnlock.

Definition handleAntiNuke (env : Env) (guild : Guild) (subcommand : Subcommand) : M unit :=
  run perform env InteractionDefer ;
  try_catch
    (do settings <- getAntiNukeSettings env (guild_id guild) ;
     match subcommand with
     | SubEnable =>
         run updateAntiNukeSettings env (guild_id guild) [SetEnabled true] ;
         perform env (InteractionReply "Server protection is now active.")
     | SubDisable =>
         run updateAntiNukeSettings env (guild_id guild) [SetEnabled false] ;
         perform env (InteractionReply "Warning: Protection is now inactive.")
     | SubConfig updates =>
         run updateAntiNukeSettings env (guild_id guild) updates ;
         perform env (InteractionReply "Settings updated successfully.")
     | SubUnlock =>
         do success <- AntiNuke.unlockServer env guild ;
         perform env (InteractionReply (if success : bool
                                        then "All channels are now accessible."
                                        else "Failed to unlock server."))
     end)
    (perform env (InteractionReply "Anti-Nuke error.")).

(** ** [src/bot/actions.js] *)

Module Actions.

Record Message := mkMessage {
  deletable : bool;
  hasModLogChannel : bool   (* [findModLogChannel(message.guild)] finds one *)
}.

(** [member] of the message; [None] when the author has left the guild. *)
Record GuildMember := mkGuildMember {
  moderatable : bool;
  kickable : bool
}.

(** Whether [categories.join(...)] and [categories.slice(...)] can be
    evaluated: they throw when [categories] is [undefined]. *)
Definition given (categories : option (list string)) : bool :=
  match categories with Some _ => true | None => false end.

(** [try { const dmEmbed = new EmbedBuilder()...; await message.author.send(...) }
     catch (dmError) { ... }]: the embed is built inside the [try], so an
    embed that cannot be built means that no message is sent. *)
Definition dm (env : Env) (tier : Tier) (reasoning : option string)
    (categories : option (list string)) : M unit :=
  try_catch
    (if given categories && embedValid env (DmEmbed tier) reasoning categories
     then perform env (AuthorDM tier)
     else throw)
    (ret tt).

(** The direct message of [handleCaptchaRequired], whose embed does not
    use [categories]. *)
Definition dm_captcha (env : Env) (reasoning : option string) : M unit :=
  try_catch
    (if embedValid env (DmEmbed TCaptcha) reasoning None
     then perform env (AuthorDM TCaptcha)
     else throw)
    (ret tt).

Definition delete_if_deletable (env : Env) (message : Message) : M unit :=
  if deletable message then perform env MessageDelete else ret tt.

(** [await message.channel.send(`... ${categories.slice(0, 3).join(', ')} ...`)]:
    the text is built before the call. *)
Definition notice (env : Env) (tier : Tier) (categories : option (list string)) : M unit :=
  if given categories then perform env (ChannelNotice tier) else throw.

(** The embed is built before the [try] that surrounds the send. *)
Definition notifyModLog (env : Env) (message : Message) (action : string)
    (reasoning : option string) (categories : option (list string)) : M unit :=
  if hasModLogChannel message
  then
    if embedValid env (ModLogEmbed action) reasoning categories
    then try_catch (perform env (ModLogSend action)) (ret tt)
    else throw
  else ret tt.

Definition handleCaptchaRequired (env : Env) (message : Message)
    (member : option GuildMember) (reasoning : option string) : M unit :=
  try_catch
    (run delete_if_deletable env message ;
     run dm_captcha env reasoning ;
     run perform env (ChannelNotice TCaptcha) ;
     run match member with
         | Some m => if moderatable m
                     then perform env (MemberTimeout (5 * 60 * 1000))
                     else ret tt
         | None => ret tt
         end ;
     notifyModLog env message "CAPTCHA_REQUIRED" reasoning None)
    (ret tt).

Definition handleWarn (env : Env) (message : Message) (reasoning : option string)
    (categories : option (list string)) : M unit :=
  try_catch
    (run dm env TWarn reasoning categories ;
     run notice env TWarn categories ;
     notifyModLog env message "WARNING" reasoning categories)
    (ret tt).

Definition handleDelete (env : Env) (message : Message) (reasoning : option string)
    (categories : option (list string)) : M unit :=
  try_catch
    (run dm env TDelete reasoning categories ;
     run delete_if_deletable env message ;
     run notice env TDelete categories ;
     notifyModLog env message "MESSAGE_DELETED" reasoning categories)
    (ret tt).

Definition can_mute (member : option GuildMember) : bool :=
  match member with Some m => moderatable m | None => false end.

Definition can_kick (member : option GuildMember) : bool :=
  match member with Some m => kickable m | None => false end.

Definition handleMute (env : Env) (message : Message) (member : option GuildMember)
    (reasoning : option string) (categories : option (list string)) : M unit :=
  try_catch
    (run dm env TMute reasoning categories ;
     run delete_if_deletable env message ;
     if negb (can_mute member) then handleDelete env message reasoning categories
     else
       let muteDuration := 10 * 60 * 1000 in
       run perform env (MemberTimeout muteDuration) ;
       run notice env TMute categories ;
       notifyModLog env message "USER_MUTED" reasoning categories)
    (handleDelete env message reasoning categories).

Definition handleKick (env : Env) (message : Message) (member : option GuildMember)
    (reasoning : option string) (categories : option (list string)) : M unit :=
  try_catch
    (run dm env TKick reasoning categories ;
     run delete_if_deletable env message ;
     if negb (can_kick member) then handleMute env message member reasoning categories
     else
       run perform env ModerationKick ;
       run notice env TKick categories ;
       notifyModLog env message "USER_KICKED" reasoning categories)
    (handleMute env message member reasoning categories).

(** [executeAction(message, member, moderationResult)], with the three
    properties of [moderationResult] that it reads.  It returns the name of
    the action taken, ['ALLOW'] for an unknown action and ['ERROR'] when a
    handler throws. *)
Definition executeAction (env : Env) (message : Message)
    (member : option GuildMember) (recommended_action reasoning : option string)
    (detected_categories : option (list string)) : M string :=
  try_catch
    (match recommended_action with
     | Some "ALLOW" => ret "ALLOW"
     | Some "CAPTCHA" =>
         run handleCaptchaRequired env message member reasoning ; ret "CAPTCHA"
     | Some "WARN" =>
         run handleWarn env message reasoning detected_categories ; ret "WARN"
     | Some "DELETE" =>
         run handleDelete env message reasoning detected_categories ; ret "DELETE"
     | Some "MUTE" =>
         run handleMute env message member reasoning detected_categories ; ret "MUTE"
     | Some "KICK" =>
         run handleKick env message member reasoning detected_categories ; ret "KICK"
     | _ => ret "ALLOW"
     end)
    (ret "ERROR").

End Actions.

(** ** [src/moderation/groq-engine.js] *)

Module Groq.

Record ModerationInput := mkInput {
  message_content : string;
  message_history : list string;
  user_account_age_days : Z;
  server_join_age_minutes : Z;
  attachments_present : bool;
  links_present : bool;
  image_uploaded : bool;
  previous_warnings_count : Z;
  captcha_verified : bool;
  input_user_id : string
}.

(** A decision object. A property that the classifier may leave out is an
    option; a [risk_score] of [None] is [undefined] or [NaN]. *)
Record Decision := mkDecision {
  risk_score : option Z;
  risk_level : option string;
  detected_categories : option (list string);
  recommended_action : option string;
  reasoning : option string
}.

Definition OWNER_BYPASS : Decision := {|
  risk_score := Some 0;
  risk_level := Some "SAFE";
  detected_categories := Some [];
  recommended_action := Some "ALLOW";
  reasoning := Some "Bot owner - moderation bypassed"
|}.

Definition CAPTCHA_DECISION : Decision := {|
  risk_score := Some 50;
  risk_level := Some "SUSPICIOUS";
  detected_categories := Some ["NEW_USER_UNVERIFIED"];
  recommended_action := Some "CAPTCHA";
  reasoning := Some "New or flagged user has not completed CAPTCHA verification."
|}.

(** [risk_score <= 30 ? 'SAFE' : risk_score <= 65 ? 'SUSPICIOUS' : 'DANGEROUS'] *)
Definition level_of (score : option Z) : string :=
  match score with
  | Some n => if n <=? 30 then "SAFE" else if n <=? 65 then "SUSPICIOUS" else "DANGEROUS"
  | None => "DANGEROUS"
  end.

Definition is_action (a : option string) (name : string) : bool :=
  match a with Some s => String.eqb s name | None => false end.

Definition adjustForUserHistory (aiResponse : Decision) (input : ModerationInput) : Decision :=
  let pwc := previous_warnings_count input in
  let risk_score :=
    if pwc >? 0
    then match risk_score aiResponse with
         | Some n => Some (Z.min (n + pwc * 10) 100)
         | None => None
         end
    else risk_score aiResponse in
  let recommended_action :=
    if pwc >? 0
    then if (pwc >=? 3) && is_action (recommended_action aiResponse) "WARN" then Some "MUTE"
         else if (pwc >=? 2) && is_action (recommended_action aiResponse) "DELETE" then Some "MUTE"
         else if (pwc >=? 4) && is_action (recommended_action aiResponse) "MUTE" then Some "KICK"
         else recommended_action aiResponse
    else recommended_action aiResponse in
  {| risk_score := risk_score;
     risk_level := Some (level_of risk_score);
     detected_categories := detected_categories aiResponse;
     recommended_action := recommended_action;
     reasoning := reasoning aiResponse |}.

Definition shouldRequireCaptcha (input : ModerationInput) : bool :=
  if captcha_verified input then false
  else (user_account_age_days input <? 7)
       || (server_join_age_minutes input <? 10)
       || (previous_warnings_count input >? 0).

Definition determineAction (score : Z) (riskLevel : string) (warningCount : Z) : string :=
  if String.eqb riskLevel "SAFE" then "ALLOW"
  else if String.eqb riskLevel "SUSPICIOUS" then
    if warningCount =? 0 then "WARN"
    else if warningCount =? 1 then "DELETE"
    else "MUTE"
  else if String.eqb riskLevel "DANGEROUS" then
    if (score >=? 85) && (warningCount >=? 2) then "KICK"
    else if score >=? 70 then "MUTE"
    else "DELETE"
  else "WARN".

(** [[...new Set(categories)]]: the first occurrence of each entry. *)
Fixpoint dedupe (seen categories : list string) : list string :=
  match categories with
  | [] => []
  | c :: rest =>
      if existsb (String.eqb c) seen then dedupe seen rest
      else c :: dedupe (c :: seen) rest
  end.

Fixpoint join (sep : string) (l : list string) : string :=
  match l with
  | [] => ""
  | [x] => x
  | x :: rest => (x ++ sep ++ join sep rest)%string
  end.

Section Engine.

(** [process.env.DISCORD_OWNER_ID] *)
Variable DISCORD_OWNER_ID : option string.

(** The regular expressions of [fallbackAnalysis], as the tests they
    perform on the message content. *)
Variables spamPatterns scamPatterns harassmentPatterns : list (string -> bool).

(** The object that [JSON.parse] makes of the classifier's reply; [None]
    when the reply does not parse. *)
Variable completion : ModerationInput -> option Decision.

Definition is_owner (user_id : string) : bool :=
  match DISCORD_OWNER_ID with
  | Some owner => String.eqb user_id owner
  | None => false
  end.

(** [patterns.forEach(p => { if (p.test(content)) { push(label); score += w } })] *)
Definition scan (patterns : list (string -> bool)) (label : string) (weight : Z)
    (content : string) (acc : list string * Z) : list string * Z :=
  foldl (fun (a : list string * Z) (pattern : string -> bool) =>
           if pattern content then ((fst a ++ [label])%list, snd a + weight) else a)
        acc patterns.

Definition flag (cond : bool) (label : string) (weight : Z)
    (acc : list string * Z) : list string * Z :=
  if cond then ((fst acc ++ [label])%list, snd acc + weight) else acc.

Definition fallbackAnalysis (input : ModerationInput) : Decision :=
  if is_owner (input_user_id input) then OWNER_BYPASS
  else
    let content := message_content input in
    let acc : list string * Z := ([], 0) in
    let acc := scan spamPatterns "SPAM" 20 content acc in
    let acc := scan scamPatterns "SCAM" 30 content acc in
    let acc := scan harassmentPatterns "HARASSMENT" 25 content acc in
    let acc := flag (user_account_age_days input <? 7) "NEW_ACCOUNT" 10 acc in
    let acc := flag (server_join_age_minutes input <? 5) "IMMEDIATE_POST_JOIN" 15 acc in
    let acc := flag (links_present input) "CONTAINS_LINKS" 10 acc in
    let acc := flag (previous_warnings_count input >? 0) "REPEAT_OFFENDER"
                 (previous_warnings_count input * 10) acc in
    let detectedCategories := fst acc in
    let riskScore := Z.min (snd acc) 100 in
    let risk_level := level_of (Some riskScore) in
    let recommended_action :=
      determineAction riskScore risk_level (previous_warnings_count input) in
    {| risk_score := Some riskScore;
       risk_level := Some risk_level;
       detected_categories := Some (dedupe [] detectedCategories);
       recommended_action := Some recommended_action;
       reasoning :=
         Some ("Fallback analysis: "
               ++ (if String.eqb (join ", " detectedCategories) ""
                   then "No violations detected"
                   else join ", " detectedCategories))%string |}.

Definition analyzeMessageWithGroq (env : Env) (input : ModerationInput) : M Decision :=
  if is_owner (input_user_id input) then ret OWNER_BYPASS
  else if shouldRequireCaptcha input then ret CAPTCHA_DECISION
  else
    try_catch
      (run perform env GroqCompletion ;
       match completion input with
       | None => throw
       | Some aiResponse => ret (adjustForUserHistory aiResponse input)
       end)
      (ret (fallbackAnalysis input)).

(** [handleMessage] of [src/bot/discord-bot.js]: [moderate] stands for
    the body below the owner check (verification gate, persistence,
    the call of [analyzeMessageWithGroq] and [executeAction]). *)
Definition handleMessage (moderate : string -> M unit) (author_id : string) : M unit :=
  if is_owner author_id then ret tt
  else moderate author_id.

End Engine.

End Groq.

(** ** The night-mode interval in the words of the specification

    "If the configured start hour is numerically greater than the end hour,
    the interval wraps midnight (hour >= start OR hour < end); otherwise it
    is a same-day interval (hour >= start AND hour < end)." *)
Definition spec_night_interval (startHour endHour hour : Z) : bool :=
  if startHour >? endHour
  then (hour >=? startHour) || (hour <? endHour)
  else (hour >=? startHour) && (hour <? endHour).

(** Settings objects that differ from a given one in the night-mode
    properties. *)
Definition set_nightmode (on : bool) (startHour endHour : option Z) (s : Settings) : Settings :=
  mkSettings (enabled s) (channelDeleteLimit s) (channelCreateLimit s) (roleDeleteLimit s)
    (roleCreateLimit s) (banLimit s) (kickLimit s) (webhookCreateLimit s)
    (memberPruneLimit s) (timeWindow s) (punishmentType s) (notifyOwner s)
    (lockdownOnTrigger s) (whitelist s) on startHour endHour (nightmodeTimezone s)
    (nightmodeStricterLimits s) (nightmodeAutoLock s) (nightmodeChannelDeleteLimit s)
    (nightmodeChannelCreateLimit s) (nightmodeRoleDeleteLimit s)
    (nightmodeRoleCreateLimit s) (nightmodeBanLimit s) (nightmodeKickLimit s)
    (nightmodeWebhookCreateLimit s).


(** A remaining channel [c'] is the former channel [c], with its send
    permission as it was or neutral. *)
Definition stems_from (c' c : Channel) : Prop :=
  ch_id c = ch_id c' /\ ch_name c = ch_name c' /\ ch_textBased c = ch_textBased c'
  /\ (ch_send c' = ch_send c \/ ch_send c' = None).

(** "Restores each channel's prior permission state": every channel that is
    left has the send permission it had before. *)
Definition prior_send_restored (before after : list Channel) : Prop :=
  forall c c', In c before -> In c' after -> ch_id c' = ch_id c -> ch_send c' = ch_send c.

(** "Prune all stored timestamps older than [now - window], append [now],
    and return the resulting length": the count that the contract of the
    specification gives for the stored timestamps [stored]. *)
Definition spec_record (now window : Z) (stored : list Z) : Z :=
  Z.of_nat (length (List.filter (fun t => negb (t <? now - window)) stored ++ [now])).

(** ** Sample surroundings and states *)

Module Samples.

(** The clock reads [t] milliseconds and local hour [hour]; the store and
    the platform answer every call; the audit log has no entry. *)
Definition env_at (t hour : Z) : Env :=
  mkEnv t (fun _ => Some hour) DbUp (fun _ _ => true) (fun _ => None)
    AuditEmpty (Some []) (fun _ => []) (fun _ _ _ => true).

Definition guild1 : Guild := mkGuild "guild-1" "owner-1".

Definition owner_member : Member :=
  mkMember "owner-1" [mkRole "role-admin" AntiNuke.Administrator].

Definition raider : User := mkUser "user-7" "raider#0007".

Definition raider_member : Member :=
  mkMember "user-7" [mkRole "role-admin" AntiNuke.Administrator; mkRole "role-plain" 0].

(** The clock reads 1000 ms and hour 12, the store answers and every
    embed can be built; [ok] decides the platform calls, [member] is what
    the member fetch resolves to and [audit] what the audit log holds. *)
Definition env_with (ok : list (Effect * bool) -> Effect -> bool)
    (member : option Member) (audit : AuditReply) : Env :=
  mkEnv 1000 (fun _ => Some 12) DbUp ok (fun _ => member) audit (Some [])
    (fun _ => []) (fun _ _ _ => true).

Definition all_ok : list (Effect * bool) -> Effect -> bool := fun _ _ => true.

(** Every call succeeds but the write of the security event. *)
Definition audit_write_fails : list (Effect * bool) -> Effect -> bool :=
  fun _ e => match e with SecurityLog _ _ _ _ _ _ => false | _ => true end.

(** Every call succeeds but the kick of the moderation handlers. *)
Definition kick_fails : list (Effect * bool) -> Effect -> bool :=
  fun _ e => match e with ModerationKick => false | _ => true end.

Definition flagged_message : Actions.Message := Actions.mkMessage true true.
Definition kickable_member : Actions.GuildMember := Actions.mkGuildMember true true.

Definition general : Channel := mkChannel 1 "general" true (Some true).
Definition voice : Channel := mkChannel 2 "voice" false None.
Definition rules : Channel := mkChannel 3 "rules" true (Some false).
Definition lounge : Channel := mkChannel 4 "lounge" true None.

Definition deleted_general : AntiNuke.GuildChannel :=
  AntiNuke.mkGuildChannel (Some guild1) general.

(** A process that holds the default policy for [guild1]. *)
Definition world_defaults : World :=
  mkWorld ∅ {[ "guild-1" := DEFAULT_SETTINGS ]} ∅ [] [].

(** A fresh process; the store holds the default row of [guild1]. *)
Definition world_booted : World :=
  mkWorld ∅ ∅ {[ "guild-1" := DEFAULT_ROW ]} [] [].

(** A guild with four channels and the default policy loaded. *)
Definition world_channels : World :=
  mkWorld ∅ {[ "guild-1" := DEFAULT_SETTINGS ]} ∅ [general; voice; rules; lounge] [].

(** [world_channels] after a lockdown in which every call succeeded. *)
Definition world_locked : World :=
  snd (AntiNuke.initiateServerLockdown (env_with all_ok None AuditEmpty) guild1
         "CHANNEL_DELETE" world_channels).


(** The default policy, two channel deletions by ["user-7"] already
    counted, and three channels left in the guild. *)
Definition world_burst : World :=
  mkWorld {[ "guild-1-user-7-CHANNEL_DELETE" := [400; 700] ]}
    {[ "guild-1" := DEFAULT_SETTINGS ]} ∅ [voice; rules; lounge] [].

End Samples.

(** ** Drivers used in the statements *)

(** The security events that were written successfully. *)
Definition audit_records (w : World) : list (Effect * bool) :=
  List.filter (fun e => match fst e with
                        | SecurityLog _ _ _ _ _ _ => snd e
                        | _ => false
                        end) (trace w).


(** Successive calls of [trackAction] for one key, one per event; every
    event has its own clock reading. *)
Fixpoint trackActions (envs : list Env) (guildId userId actionType : string) : M (list Z) :=
  match envs with
  | [] => ret []
  | env :: rest =>
      do count <- AntiNuke.trackAction env guildId userId actionType ;
      do counts <- trackActions rest guildId userId actionType ;
      ret (count :: counts)
  end.


(** ** Further drivers and predicates used in the statements *)

(** The character of the separator ["-"]. *)
Definition dash : Ascii.ascii :=
  Eval cbv in match "-" with String c _ => c | EmptyString => Ascii.zero end.

(** The string holds no ["-"]. *)
Fixpoint no_dash (s : string) : bool :=
  match s with
  | EmptyString => true
  | String c rest => negb (Ascii.eqb c dash) && no_dash rest
  end.

(** The platform and the store carry out every call. *)
Definition cooperative (env : Env) : Prop :=
  forall history e, platform_ok env history e = true.

(** Every call that [m] attempts, from every state and whatever its
    outcome, satisfies [P]. *)
Definition emits {A} (m : M A) (P : Effect -> Prop) : Prop :=
  forall w, exists new,
    trace (snd (m w)) = (trace w ++ new)%list /\ Forall (fun x => P (fst x)) new.

(** The channel [c] after a permission edit [v] addressed to the
    identifiers [ids]. *)
Definition mark (v : option bool) (ids : list nat) (c : Channel) : Channel :=
  if existsb (Nat.eqb (ch_id c)) ids then set_send v c else c.

(** The calls of a lockdown: a deny of the send permission, the creation
    of a channel with a lockdown name, a message to a channel. *)
Definition lockdown_call (e : Effect) : bool :=
  match e with
  | PermEdit _ (Some false) => true
  | ChannelCreate name => AntiNuke.is_lockdown_name name
  | ChannelSend _ => true
  | _ => false
  end.

(** The calls that [punishUser] may attempt on [member] under [settings]:
    the removal of one of the member's dangerous roles, the punishment that
    the policy names, the notice to the owner when the policy asks for it,
    and the calls of a lockdown when the policy has a lockdown flag. *)
Definition punish_call (settings : Settings) (member : Member) (e : Effect) : bool :=
  match e with
  | RoleRemove m r =>
      String.eqb m (member_id member)
      && existsb (fun role => String.eqb (role_id role) r && AntiNuke.is_dangerous_role role)
           (member_roles member)
  | MemberBan m =>
      String.eqb m (member_id member)
      && match punishmentType settings with Some "BAN" => true | _ => false end
  | MemberKick m =>
      String.eqb m (member_id member)
      && match punishmentType settings with Some "KICK" => true | _ => false end
  | RolesSet m =>
      String.eqb m (member_id member)
      && match punishmentType settings with Some "STRIP_ROLES" => true | _ => false end
  | OwnerDM _ _ => notifyOwner settings
  | other =>
      lockdown_call other && (lockdownOnTrigger settings || nightmodeAutoLock settings)
  end.

(** The punishment call that the policy names, carried out. *)
Definition punishment_of (settings : Settings) (member : Member) : list (Effect * bool) :=
  match punishmentType settings with
  | Some "BAN" => [(MemberBan (member_id member), true)]
  | Some "KICK" => [(MemberKick (member_id member), true)]
  | Some "STRIP_ROLES" => [(RolesSet (member_id member), true)]
  | _ => []
  end.

(** What [punishUser] does after the removal of the dangerous roles: the
    punishment, the owner notice, the lockdown. *)
Definition after_role_removal (env : Env) (guild : Guild) (user : User) (reason : string)
    (actionCount : Z) (settings : Settings) (member : Member) : M unit :=
  run match punishmentType settings with
      | Some "BAN" => perform env (MemberBan (member_id member))
      | Some "KICK" => perform env (MemberKick (member_id member))
      | Some "STRIP_ROLES" => perform env (RolesSet (member_id member))
      | _ => ret tt
      end ;
  run (if notifyOwner settings
       then AntiNuke.notifyOwner_method env guild user reason actionCount
              (AntiNuke.isNightMode env settings)
       else ret tt) ;
  if lockdownOnTrigger settings
     || (AntiNuke.isNightMode env settings && nightmodeAutoLock settings)
  then AntiNuke.initiateServerLockdown env guild reason
  else ret tt.

Definition is_role_removal (e : Effect) : bool :=
  match e with RoleRemove _ _ => true | _ => false end.

(** A run of [m] stops at the first call that is refused: when [m]
    completes every call it attempted succeeded, and when it throws the last
    call it attempted was refused and the calls before it succeeded. *)
Definition stops_at_failure {A} (m : M A) : Prop :=
  forall w, exists new,
    trace (snd (m w)) = (trace w ++ new)%list
    /\ match fst (m w) with
       | Done _ => Forall (fun x => snd x = true) new
       | Thrown => exists done e,
                     new = (done ++ [(e, false)])%list
                     /\ Forall (fun x => snd x = true) done
       end.

Definition is_perm_edit (e : Effect) : bool :=
  match e with PermEdit _ _ => true | _ => false end.

Definition is_channel_create (e : Effect) : bool :=
  match e with ChannelCreate _ => true | _ => false end.

(** The channel has none of the identifiers [ids]. *)
Definition not_among (ids : list nat) (c : Channel) : bool :=
  negb (existsb (Nat.eqb (ch_id c)) ids).

(** The channel after a lockdown, and after an unlock. *)
Definition locked (c : Channel) : Channel :=
  if ch_textBased c then set_send (Some false) c else c.
Definition unlocked (c : Channel) : Channel :=
  if ch_textBased c then set_send None c else c.


(** ** Predicates on the calls of [src/bot/actions.js] *)

Definition action_names : list string :=
  ["ALLOW"; "CAPTCHA"; "WARN"; "DELETE"; "MUTE"; "KICK"].

(** The action that [executeAction] carries out for a recommended action:
    the action itself when it is one of the six names, ["ALLOW"] otherwise. *)
Definition executed_action (recommended_action : option string) : string :=
  match recommended_action with
  | Some a => if existsb (String.eqb a) action_names then a else "ALLOW"
  | None => "ALLOW"
  end.

Definition tier_eqb (a b : Tier) : bool :=
  match a, b with
  | TCaptcha, TCaptcha | TWarn, TWarn | TDelete, TDelete
  | TMute, TMute | TKick, TKick => true
  | _, _ => false
  end.

(** The messages of one handler: to the author and to the channel in the
    wording of [tier], to the moderation log (when the guild has one) under
    the heading [log]. *)
Definition notice_call (message : Actions.Message) (tier : Tier) (log : string)
    (e : Effect) : bool :=
  match e with
  | AuthorDM t | ChannelNotice t => tier_eqb t tier
  | ModLogSend a => String.eqb a log && Actions.hasModLogChannel message
  | _ => false
  end.

Definition warn_call (message : Actions.Message) (e : Effect) : bool :=
  notice_call message TWarn "WARNING" e.

Definition delete_call (message : Actions.Message) (e : Effect) : bool :=
  notice_call message TDelete "MESSAGE_DELETED" e
  || match e with MessageDelete => Actions.deletable message | _ => false end.

Definition mute_call (message : Actions.Message) (member : option Actions.GuildMember)
    (e : Effect) : bool :=
  delete_call message e
  || notice_call message TMute "USER_MUTED" e
  || match e with
     | MemberTimeout d => (d =? 10 * 60 * 1000) && Actions.can_mute member
     | _ => false
     end.

Definition kick_call (message : Actions.Message) (member : option Actions.GuildMember)
    (e : Effect) : bool :=
  mute_call message member e
  || notice_call message TKick "USER_KICKED" e
  || match e with ModerationKick => Actions.can_kick member | _ => false end.

Definition captcha_call (message : Actions.Message) (member : option Actions.GuildMember)
    (e : Effect) : bool :=
  notice_call message TCaptcha "CAPTCHA_REQUIRED" e
  || match e with
     | MessageDelete => Actions.deletable message
     | MemberTimeout d => (d =? 5 * 60 * 1000) && Actions.can_mute member
     | _ => false
     end.

(** The calls that the handler of [action] may attempt. *)
Definition action_call (message : Actions.Message) (member : option Actions.GuildMember)
    (action : string) (e : Effect) : bool :=
  if String.eqb action "CAPTCHA" then captcha_call message member e
  else if String.eqb action "WARN" then warn_call message e
  else if String.eqb action "DELETE" then delete_call message e
  else if String.eqb action "MUTE" then mute_call message member e
  else if String.eqb action "KICK" then kick_call message member e
  else false.

(** A successful deletion of the message. *)
Definition is_deleted (x : Effect * bool) : bool :=
  match x with (MessageDelete, true) => true | _ => false end.

Definition is_timeout (e : Effect) : bool :=
  match e with MemberTimeout _ => true | _ => false end.

(** A platform on which the message can be deleted once: the deletion
    succeeds when the message is still there and is refused afterwards. *)
Definition delete_once (env : Env) : Prop :=
  forall history,
    platform_ok env history MessageDelete = negb (existsb is_deleted history).

(** Once the message has been deleted, a run of [m] attempts no timeout. *)
Definition no_timeout_after_deletion {A} (m : M A) : Prop :=
  forall w,
    existsb is_deleted (trace w) = true ->
    exists new,
      trace (snd (m w)) = (trace w ++ new)%list
      /\ Forall (fun x => is_timeout (fst x) = false) new.

(** Answers of a platform that deletes the message once and refuses the
    kick; every other call succeeds. *)
Definition once_deletable_kick_refused : list (Effect * bool) -> Effect -> bool :=
  fun history e =>
    match e with
    | MessageDelete => negb (existsb is_deleted history)
    | ModerationKick => false
    | _ => true
    end.

(** ** Orderings and inputs for [src/moderation/groq-engine.js] *)

(** The enforcement actions by severity; anything else counts as none. *)
Definition action_rank (action : option string) : Z :=
  match action with
  | Some "WARN" => 1
  | Some "DELETE" => 2
  | Some "MUTE" => 3
  | Some "KICK" => 4
  | _ => 0
  end.

(** The input with [previous_warnings_count] replaced. *)
Definition set_warnings (n : Z) (input : Groq.ModerationInput) : Groq.ModerationInput :=
  Groq.mkInput (Groq.message_content input) (Groq.message_history input)
    (Groq.user_account_age_days input) (Groq.server_join_age_minutes input)
    (Groq.attachments_present input) (Groq.links_present input)
    (Groq.image_uploaded input) n (Groq.captcha_verified input)
    (Groq.input_user_id input).

(** ** [src/bot/actions.js]: the search of the moderation log channel *)

Definition possibleNames : list string :=
  ["mod-log"; "modlog"; "mod-logs"; "audit-log"; "logs"; "moderation-log"].

(** [for (const name of names) { const channel = cache.find(...); if (channel) return channel }] *)
Fixpoint find_by_names (names : list string) (cache : list Channel) : option Channel :=
  match names with
  | [] => None
  | name :: rest =>
      match List.find (fun ch => String.eqb (ch_name ch) name && ch_textBased ch) cache with
      | Some channel => Some channel
      | None => find_by_names rest cache
      end
  end.

Definition findModLogChannel (cache : list Channel) : option Channel :=
  find_by_names possibleNames cache.

(** ** [src/utils/helpers.js] *)

Module Helpers.

Record RateLimit := mkRateLimit {
  allowed : bool;
  remaining : Z;
  resetAt : option Z   (* [None] is [NaN] *)
}.

(** [checkRateLimit(userId, action, limit, windowMs)] at the time [now],
    on the module's [rateLimitMap]. *)
Definition checkRateLimit (now : Z) (userId action : string) (limit windowMs : Z)
    (rateLimitMap : gmap string (list Z)) : RateLimit * gmap string (list Z) :=
  let key := (userId ++ ":" ++ action)%string in
  let rateLimitMap :=
    match rateLimitMap !! key with
    | Some _ => rateLimitMap
    | None => <[key := []]> rateLimitMap
    end in
  let timestamps := default [] (rateLimitMap !! key) in
  let validTimestamps := List.filter (fun t => now - t <? windowMs) timestamps in
  if Z.of_nat (length validTimestamps) >=? limit
  then ({| allowed := false;
           remaining := 0;
           resetAt := option_map (fun t => t + windowMs) (head validTimestamps) |},
        rateLimitMap)
  else
    let validTimestamps := (validTimestamps ++ [now])%list in
    ({| allowed := true;
        remaining := limit - Z.of_nat (length validTimestamps);
        resetAt := Some (now + windowMs) |},
     <[key := validTimestamps]> rateLimitMap).

(** Calls for one key at the times [times], in this order: each time with
    whether the call was allowed. *)
Fixpoint checkRateLimits (userId action : string) (limit windowMs : Z)
    (times : list Z) (rateLimitMap : gmap string (list Z)) : list (Z * bool) :=
  match times with
  | [] => []
  | now :: rest =>
      let r := checkRateLimit now userId action limit windowMs rateLimitMap in
      (now, allowed (fst r)) :: checkRateLimits userId action limit windowMs rest (snd r)
  end.

(** The times of the allowed calls of [history] that lie within the
    window at the time [now]. *)
Definition allowed_within (windowMs now : Z) (history : list (Z * bool)) : list Z :=
  List.filter (fun t => now - t <? windowMs)
    (map fst (List.filter (fun x : Z * bool => snd x) history)).

(** The times do not decrease. *)
Fixpoint ascending (last : Z) (times : list Z) : Prop :=
  match times with
  | [] => True
  | t :: rest => last <= t /\ ascending t rest
  end.

(** [Math.floor((now - created) / (1000 * 60 * 60 * 24))] *)
Definition calculateAccountAge (now createdAt : Z) : Z :=
  (now - createdAt) / (1000 * 60 * 60 * 24).

(** [joinedAt] is [None] when the member has no join date. *)
Definition calculateJoinAge (now : Z) (joinedAt : option Z) : Z :=
  match joinedAt with
  | None => 999
  | Some joined => (now - joined) / (1000 * 60)
  end.

End Helpers.

(** A run of [m] leaves the memory of the engine (the cache of policies
    and the counters) as it is. *)
Definition keeps_memory {A} (m : M A) : Prop :=
  forall w,
    settingsCache (snd (m w)) = settingsCache w
    /\ actionTracker (snd (m w)) = actionTracker w.

(** The part of the moderation input that [handleMessage] computes from
    the clock: the age of the account in days and the time since the join in
    minutes, [999] for an author who is not a member. *)
Definition input_ages (now createdAt : Z) (member : option (option Z)) : Z * Z :=
  (Helpers.calculateAccountAge now createdAt,
   match member with
   | Some joinedAt => Helpers.calculateJoinAge now joinedAt
   | None => 999
   end).
(** * Properties *)

Ltac unfold_monad := unfold bind, ret, throw, try_catch, get_world, put_world in *.

Section SlidingWindow.

Import AntiNuke.

Lemma getSettings_cached env g s w :
  settingsCache w !! g = Some s -> getSettings env g w = (Done s, w).
Proof. intros H. unfold getSettings. now rewrite H. Qed.

Lemma trackAction_cached env g u a s w :
  settingsCache w !! g = Some s ->
  let key := tracker_key g u a in
  let kept := List.filter (fun time => JS.lt (Some (now env - time)) (timeWindow s))
                (default [] (actionTracker w !! key)) in
  trackAction env g u a w =
    (Done (Z.of_nat (length (kept ++ [now env]))),
     set_tracker (<[key := (kept ++ [now env])%list]> (actionTracker w)) w).
Proof.
  intros Hc key kept. unfold trackAction. fold key. unfold_monad.
  destruct (actionTracker w !! key) as [l|] eqn:Hk.
  - rewrite (getSettings_cached env g s w Hc). subst kept. rewrite Hk. reflexivity.
  - rewrite (getSettings_cached env g s (set_tracker (<[key:=[]]> (actionTracker w)) w) Hc). cbn.
    rewrite lookup_insert_eq. cbn. subst kept.
    unfold set_tracker. cbn. now rewrite insert_insert_eq.
Qed.

Lemma filter_all {A} (f : A -> bool) (l : list A) :
  Forall (fun x => f x = true) l -> List.filter f l = l.
Proof.
  induction 1 as [|x l Hx _ IH]; cbn; [reflexivity|]. now rewrite Hx, IH.
Qed.

Lemma filter_none {A} (f : A -> bool) (l : list A) :
  Forall (fun x => f x = false) l -> List.filter f l = [].
Proof.
  induction 1 as [|x l Hx _ IH]; cbn; [reflexivity|]. now rewrite Hx.
Qed.

(** A burst: while every stored timestamp and every new event lie in one
    window, each call returns one more than the call before. *)
Lemma trackActions_in_window g u a s win lo :
  timeWindow s = Some win ->
  forall envs w l,
    settingsCache w !! g = Some s ->
    actionTracker w !! tracker_key g u a = Some l ->
    Forall (fun t => lo <= t < lo + win) l ->
    Forall (fun e => lo <= now e < lo + win) envs ->
    exists w',
      trackActions envs g u a w =
        (Done ((fun i => Z.of_nat (length l + i)) <$> seq 1 (length envs)), w').
Proof.
  intros Hwin. induction envs as [|e envs IH]; intros w l Hc Hk Hl He.
  - exists w. reflexivity.
  - inversion He as [|? ? He1 He2]; subst.
    cbn [trackActions]. unfold bind at 1.
    rewrite (trackAction_cached e g u a s w Hc). cbv zeta.
    rewrite Hk, Hwin. change (default [] (Some l)) with l.
    rewrite filter_all.
    2:{ eapply Forall_impl; [exact Hl|]. intros t Ht. cbn in *. apply Z.ltb_lt. lia. }
    destruct (IH (set_tracker (<[tracker_key g u a := (l ++ [now e])%list]> (actionTracker w)) w)
                (l ++ [now e])%list) as [w' Hw'].
    + exact Hc.
    + cbn. apply lookup_insert_eq.
    + apply Forall_app. split; [exact Hl|]. repeat constructor; cbn in He1; lia.
    + exact He2.
    + exists w'. unfold bind. rewrite Hw'. unfold ret. f_equal. f_equal.
      cbn [length seq fmap list_fmap]. f_equal.
      * rewrite length_app. cbn. lia.
      * rewrite <- (fmap_S_seq 1), <- list_fmap_compose.
        apply list_fmap_ext. intros _ i _. cbn. rewrite length_app. cbn. lia.
Qed.

Lemma trackActions_fresh g u a s win lo envs w :
  settingsCache w !! g = Some s ->
  timeWindow s = Some win ->
  Forall (fun t => t + win <= lo) (default [] (actionTracker w !! tracker_key g u a)) ->
  Forall (fun e => lo <= now e < lo + win) envs ->
  exists w', trackActions envs g u a w = (Done (Z.of_nat <$> seq 1 (length envs)), w').
Proof.
  intros Hc Hwin Hold He. destruct envs as [|e envs].
  - exists w. reflexivity.
  - inversion He as [|? ? He1 He2]; subst.
    cbn [trackActions]. unfold bind at 1.
    rewrite (trackAction_cached e g u a s w Hc). cbv zeta. rewrite Hwin.
    rewrite filter_none.
    2:{ eapply Forall_impl; [exact Hold|]. intros t Ht. cbn in *. apply Z.ltb_ge. lia. }
    destruct (trackActions_in_window g u a s win lo Hwin envs
                (set_tracker (<[tracker_key g u a := [now e]]> (actionTracker w)) w)
                [now e]) as [w' Hw'].
    + exact Hc.
    + cbn. apply lookup_insert_eq.
    + repeat constructor; cbn in He1; lia.
    + exact He2.
    + exists w'. cbn [app]. unfold bind. rewrite Hw'. unfold ret. f_equal.
      cbn [length seq fmap list_fmap]. f_equal.
      rewrite <- (fmap_S_seq 1), <- list_fmap_compose. reflexivity.
Qed.

(** C1 (amended). Under a cached policy whose [timeWindow] is a
    number, each call of [trackAction] keeps exactly the stored timestamps
    [t] with [now - t < window], appends [now] and returns the new length;
    so a timestamp that is a window or more old is not counted.  From a
    counter whose entries are all out of date, [limit] events inside one
    window return 1, 2, ..., [limit]: the first [limit - 1] counts stay
    below [limit] and the next one is exactly [limit]. *)
Theorem trackAction_sliding_window (g u a : string) (s : Settings) (win : Z) (w : World) :
  settingsCache w !! g = Some s ->
  timeWindow s = Some win ->
  let key := tracker_key g u a in
  let stored := default [] (actionTracker w !! key) in
  (forall env,
     let kept := List.filter (fun t => now env - t <? win) stored in
     trackAction env g u a w =
       (Done (Z.of_nat (length kept) + 1),
        set_tracker (<[key := (kept ++ [now env])%list]> (actionTracker w)) w)
     /\ (forall t, In t stored -> win <= now env - t -> ~ In t kept)
     /\ (forall t, In t stored -> now env - t < win -> In t kept))
  /\
  (forall envs lo (limit : nat),
     Forall (fun t => t + win <= lo) stored ->
     Forall (fun e => lo <= now e < lo + win) envs ->
     length envs = limit ->
     exists counts w',
       trackActions envs g u a w = (Done counts, w')
       /\ length counts = limit
       /\ (forall i c, counts !! i = Some c -> c = Z.of_nat i + 1)
       /\ (forall i c, (S i < limit)%nat -> counts !! i = Some c -> c < Z.of_nat limit)
       /\ ((0 < limit)%nat -> counts !! (limit - 1)%nat = Some (Z.of_nat limit))).
Proof.
  intros Hc Hwin key stored. split.
  - intros env kept. split; [|split].
    + rewrite (trackAction_cached env g u a s w Hc). cbv zeta. rewrite Hwin.
      fold key. fold stored. change (fun time => JS.lt (Some (now env - time)) (Some win))
        with (fun t => now env - t <? win). fold kept.
      rewrite length_app. cbn [length]. f_equal. f_equal. lia.
    + intros t _ Hold Hin. apply filter_In in Hin as [_ Hlt].
      apply Z.ltb_lt in Hlt. lia.
    + intros t Hin Hlt. apply filter_In. split; [exact Hin|]. now apply Z.ltb_lt.
  - intros envs lo limit Hold He Hlen.
    destruct (trackActions_fresh g u a s win lo envs w Hc Hwin Hold He) as [w' Hw'].
    exists (Z.of_nat <$> seq 1 (length envs)), w'.
    assert (Hlook : forall i c, (Z.of_nat <$> seq 1 (length envs)) !! i = Some c ->
                                c = Z.of_nat i + 1 /\ (i < limit)%nat).
    { intros i c Hi. rewrite list_lookup_fmap in Hi.
      destruct (seq 1 (length envs) !! i) as [j|] eqn:Hj; [|discriminate].
      apply lookup_seq in Hj as [-> Hlt]. cbn in Hi. inversion Hi; subst. split; lia. }
    split; [exact Hw'|]. split; [now rewrite length_fmap, length_seq|].
    split; [intros i c Hi; now apply Hlook|].
    split.
    + intros i c Hlt Hi. apply Hlook in Hi as [-> _]. lia.
    + intros Hpos. rewrite list_lookup_fmap, lookup_seq_lt by lia. cbn. f_equal. lia.
Qed.

Lemma trackAction_sliding_window_witness :
  settingsCache Samples.world_defaults !! "guild-1" = Some DEFAULT_SETTINGS
  /\ timeWindow DEFAULT_SETTINGS = Some 10000
  /\ exists counts w',
       trackActions [Samples.env_at 1000 12; Samples.env_at 4000 12; Samples.env_at 9000 12]
         "guild-1" "user-7" "CHANNEL_DELETE" Samples.world_defaults = (Done counts, w')
       /\ counts !! 2%nat = Some 3.
Proof.
  split; [reflexivity|]. split; [reflexivity|].
  destruct (trackAction_sliding_window "guild-1" "user-7" "CHANNEL_DELETE"
              DEFAULT_SETTINGS 10000 Samples.world_defaults eq_refl eq_refl) as [_ H].
  destruct (H [Samples.env_at 1000 12; Samples.env_at 4000 12; Samples.env_at 9000 12]
              0 3%nat) as (counts & w' & H1 & _ & _ & _ & H5).
  - constructor.
  - repeat constructor; cbn; lia.
  - reflexivity.
  - exists counts, w'. split; [exact H1|]. apply H5. lia.
Defined.

(** C1, as stated, fails.  A stored timestamp that is exactly one window
    old is not older than [now - window], so the contract keeps it and
    counts 2; [trackAction] prunes it and returns 1.  And with the policy
    that a first load takes from the store, whose row has a [time_window]
    of 10000, three events within 8 seconds are counted 1, 1, 1. *)
Lemma trackAction_contract_fails :
  let env := Samples.env_at 10000 12 in
  let w := mkWorld {[ tracker_key "guild-1" "user-7" "BAN" := [0] ]}
             {[ "guild-1" := DEFAULT_SETTINGS ]} ∅ [] [] in
  timeWindow DEFAULT_SETTINGS = Some 10000
  /\ spec_record (now env) 10000 [0] = 2
  /\ fst (trackAction env "guild-1" "user-7" "BAN" w) = Done 1
  /\ fst (trackAction env "guild-1" "user-7" "BAN" w)
     <> Done (spec_record (now env) 10000 [0])
  /\ time_window DEFAULT_ROW = 10000
  /\ fst (trackActions
            [Samples.env_at 1000 12; Samples.env_at 4000 12; Samples.env_at 9000 12]
            "guild-1" "user-7" "BAN" Samples.world_booted)
     = Done [1; 1; 1].
Proof.
  cbv zeta. split; [reflexivity|]. split; [reflexivity|].
  split; [vm_compute; reflexivity|]. split; [vm_compute; discriminate|].
  split; [reflexivity|]. vm_compute. reflexivity.
Qed.

End SlidingWindow.

Section NightMode.

Import AntiNuke.

(** With truthy configured hours the code applies the interval test of the
    specification to the hour that the clock reports. *)
Lemma isNightMode_configured env s startHour endHour hour :
  nightmodeEnabled s = true ->
  nightmodeStartHour s = Some startHour ->
  nightmodeEndHour s = Some endHour ->
  startHour <> 0 -> endHour <> 0 ->
  localHour env (JS.or_str (nightmodeTimezone s) "UTC") = Some hour ->
  isNightMode env s = spec_night_interval startHour endHour hour.
Proof.
  intros Hon Hs He Hs0 He0 Hh. unfold isNightMode, spec_night_interval.
  rewrite Hon, Hs, He, Hh. cbn.
  destruct (startHour =? 0) eqn:E1; [apply Z.eqb_eq in E1; contradiction|].
  destruct (endHour =? 0) eqn:E2; [apply Z.eqb_eq in E2; contradiction|].
  reflexivity.
Qed.

Lemma isNightMode_disabled env s :
  nightmodeEnabled s = false -> isNightMode env s = false.
Proof. intros H. unfold isNightMode. now rewrite H. Qed.

(** The four classifications that the specification lists. *)
Lemma isNightMode_examples :
  isNightMode (Samples.env_at 0 2) (set_nightmode true (Some 23) (Some 7) DEFAULT_SETTINGS) = true
  /\ isNightMode (Samples.env_at 0 12) (set_nightmode true (Some 23) (Some 7) DEFAULT_SETTINGS) = false
  /\ isNightMode (Samples.env_at 0 3) (set_nightmode true (Some 1) (Some 5) DEFAULT_SETTINGS) = true
  /\ isNightMode (Samples.env_at 0 12) (set_nightmode true (Some 1) (Some 5) DEFAULT_SETTINGS) = false.
Proof. repeat split. Qed.

(** C2. With night mode enabled, start hour 0 and end hour 5, at local
    hour 23 the configured same-day interval [0, 5) says day, and
    [isNightMode] says night. *)
Theorem isNightMode_start_zero_diverges :
  let s := set_nightmode true (Some 0) (Some 5) DEFAULT_SETTINGS in
  nightmodeEnabled s = true
  /\ nightmodeStartHour s = Some 0
  /\ nightmodeEndHour s = Some 5
  /\ spec_night_interval 0 5 23 = false
  /\ isNightMode (Samples.env_at 0 23) s = true.
Proof. repeat split. Qed.

(** C10. A configured start hour of 0 is read as 23 and a configured end
    hour of 0 as 7, whatever the other settings and the clock; with night
    mode enabled, start 0 and end 5 the interval that is evaluated is not
    the configured one: hour 23 is classified as night. *)
Theorem isNightMode_zero_hour_replaced :
  (forall env s on endHour,
     isNightMode env (set_nightmode on (Some 0) endHour s)
     = isNightMode env (set_nightmode on (Some 23) endHour s))
  /\ (forall env s on startHour,
       isNightMode env (set_nightmode on startHour (Some 0) s)
       = isNightMode env (set_nightmode on startHour (Some 7) s))
  /\ (exists env hour,
       let s := set_nightmode true (Some 0) (Some 5) DEFAULT_SETTINGS in
       localHour env "UTC" = Some hour
       /\ 0 <= hour < 24
       /\ isNightMode env s <> spec_night_interval 0 5 hour
       /\ isNightMode env s = spec_night_interval 23 5 hour).
Proof.
  split; [|split].
  - intros env s on endHour. reflexivity.
  - intros env s on startHour. reflexivity.
  - exists (Samples.env_at 0 23), 23. cbn. repeat split; try lia; try discriminate.
Qed.

End NightMode.

Section Punishment.

Import AntiNuke.

(** Loading the policy always returns one and touches neither the
    platform, nor the counters, nor the trace. *)
Lemma getSettings_total env g w :
  exists s w',
    getSettings env g w = (Done s, w')
    /\ trace w' = trace w
    /\ channels w' = channels w
    /\ actionTracker w' = actionTracker w.
Proof.
  unfold getSettings.
  destruct (settingsCache w !! g) as [s|]; [now exists s, w|].
  unfold try_catch, bind, ret, getAntiNukeSettings, createDefaultAntiNukeSettings.
  destruct (dbStatus env); [destruct (db w !! g)| |];
    eexists; eexists; (split; [reflexivity|]); cbn; auto.
Qed.

(** A second load right after a load returns the same policy and changes
    nothing. *)
Lemma getSettings_again env g w s w' :
  getSettings env g w = (Done s, w') -> getSettings env g w' = (Done s, w').
Proof.
  unfold getSettings.
  destruct (settingsCache w !! g) as [s0|] eqn:Hc.
  - intros H. inversion H; subst. now rewrite Hc.
  - unfold try_catch, bind, ret, getAntiNukeSettings, createDefaultAntiNukeSettings.
    destruct (dbStatus env) eqn:Hd; [destruct (db w !! g)| |];
      intros H; inversion H; subst; cbn;
      rewrite ?lookup_insert_eq, ?Hc, ?Hd; reflexivity.
Qed.

(** C3. When the member that [punishUser] resolves is the guild owner,
    the call returns without attempting any platform call: no role is
    removed, no ban, kick or role strip is applied, the owner is not
    notified and no lockdown starts; the channels are as before. *)
Theorem punishUser_owner_aborts env guild user reason actionCount member w :
  fetchMember env (user_id user) = Some member ->
  member_id member = ownerId guild ->
  exists w',
    punishUser env guild user reason actionCount w = (Done tt, w')
    /\ trace w' = trace w
    /\ channels w' = channels w
    /\ actionTracker w' = actionTracker w.
Proof.
  intros Hf Hid. unfold punishUser, bind.
  destruct (getSettings_total env (guild_id guild) w) as (s & w' & Hs & Ht & Hch & Hk).
  rewrite Hs. unfold try_catch. rewrite Hf, Hid, String.eqb_refl.
  exists w'. unfold ret. auto.
Qed.

Lemma punishUser_owner_aborts_witness :
  exists w',
    punishUser (Samples.env_with Samples.all_ok (Some Samples.owner_member) AuditEmpty)
      Samples.guild1 (mkUser "owner-1" "owner#0001") "CHANNEL_DELETE" 3
      Samples.world_defaults = (Done tt, w')
    /\ trace w' = [].
Proof.
  destruct (punishUser_owner_aborts
              (Samples.env_with Samples.all_ok (Some Samples.owner_member) AuditEmpty)
              Samples.guild1 (mkUser "owner-1" "owner#0001") "CHANNEL_DELETE" 3
              Samples.owner_member Samples.world_defaults eq_refl eq_refl)
    as (w' & H & Ht & _).
  exists w'. split; [exact H|exact Ht].
Defined.

End Punishment.

Section ChannelDelete.

Import AntiNuke.

Lemma try_unit_total (m : M unit) w :
  exists w', try_catch m (ret tt) w = (Done tt, w').
Proof.
  unfold try_catch, ret. destruct (m w) as [[[]|] w']; eauto.
Qed.

Lemma isWhitelisted_loaded env g u s w w0 :
  getSettings env g w = (Done s, w0) ->
  exists b, isWhitelisted env g u w0 = (Done b, w0).
Proof.
  intros Hs. unfold isWhitelisted, try_catch, bind.
  rewrite (getSettings_again env g w s w0 Hs).
  destruct (whitelist s); unfold throw, ret; eauto.
Qed.





Lemma handleCountedAction_total env guild limitType actionType reason eventType
    severity target_matches undo w :
  exists w',
    handleCountedAction env guild limitType actionType reason eventType severity
      target_matches undo w = (Done tt, w').
Proof.
  unfold handleCountedAction. unfold bind at 1.
  destruct (getSettings_total env (guild_id guild) w) as (s & w0 & Hs & _).
  rewrite Hs. destruct (negb (enabled s)); [unfold ret; eauto|].
  apply try_unit_total.
Qed.

(** C6. None of the seven rate-limited handlers throws.  When an action
    triggers punishment and the write of the security event fails, the
    handler still completes, and the state it leaves is the state after
    [punishUser] and the reversal, with the failed write appended to the
    trace: counters, channels and every enforcement call are as the
    enforcement left them. *)
Theorem handleCountedAction_audit_failure_swallowed :
  (forall env guild limitType actionType reason eventType severity target_matches
          undo w,
     exists w',
       handleCountedAction env guild limitType actionType reason eventType severity
         target_matches undo w = (Done tt, w'))
  /\
  (forall env guild limitType actionType reason eventType severity target_matches
          undo executor target w s w0 w1 count w2 w3,
     auditLog env = AuditEntry (Some executor) target ->
     target_matches target = true ->
     getSettings env (guild_id guild) w = (Done s, w0) ->
     enabled s = true ->
     isWhitelisted env (guild_id guild) (user_id executor) w0 = (Done false, w1) ->
     trackAction env (guild_id guild) (user_id executor) actionType w1
     = (Done count, w2) ->
     JS.ge (Some count) (getEffectiveLimit env s limitType) = true ->
     (run punishUser env guild executor reason count ; undo) w2 = (Done tt, w3) ->
     let record :=
       SecurityLog eventType (user_id executor) (severity true) count
         (getEffectiveLimit env s limitType) (isNightMode env s) in
     platform_ok env (trace w3) record = false ->
     handleCountedAction env guild limitType actionType reason eventType severity
       target_matches undo w
     = (Done tt, set_trace (trace w3 ++ [(record, false)]) w3)).
Proof.
  split; [apply handleCountedAction_total|].
  intros env guild limitType actionType reason eventType severity target_matches
    undo executor target w s w0 w1 count w2 w3
    Ha Htg Hs Hen Hw Hc Hlim Henf record Hfail.
  unfold handleCountedAction. unfold bind at 1. rewrite Hs, Hen.
  cbn [negb]. unfold try_catch at 1. rewrite Ha, Htg. cbn [negb].
  unfold bind at 1. rewrite Hw. unfold bind at 1. rewrite Hc.
  rewrite Hlim. unfold bind at 1. rewrite Henf.
  unfold try_catch, logSecurityEvent, perform. fold record. rewrite Hfail.
  reflexivity.
Qed.

Lemma handleCountedAction_audit_failure_swallowed_witness :
  let env := Samples.env_with Samples.audit_write_fails (Some Samples.raider_member)
               (AuditEntry (Some Samples.raider) None) in
  exists w',
    handleChannelDelete env Samples.deleted_general Samples.world_burst = (Done tt, w')
    /\ In (MemberBan "user-7", true) (trace w')
    /\ In (ChannelRestore "general", true) (trace w')
    /\ audit_records w' = [].
Proof.
  intros env.
  pose (w2 := snd (trackAction env "guild-1" "user-7" "CHANNEL_DELETE" Samples.world_burst)).
  pose (w3 := snd ((run punishUser env Samples.guild1 Samples.raider "CHANNEL_DELETE" 3 ;
                    restoreChannel env Samples.deleted_general) w2)).
  assert (H : handleChannelDelete env Samples.deleted_general Samples.world_burst
              = (Done tt,
                 set_trace
                   (trace w3 ++
                    [(SecurityLog "CHANNEL_DELETE" "user-7" "CRITICAL" 3 (Some 3) false,
                      false)])%list w3)).
  { apply (proj2 handleCountedAction_audit_failure_swallowed
             env Samples.guild1 LChannelDelete
             "CHANNEL_DELETE" "CHANNEL_DELETE" "CHANNEL_DELETE"
             (fun reached : bool => if reached then "CRITICAL" else "HIGH")
             any_target (restoreChannel env Samples.deleted_general)
             Samples.raider None
             Samples.world_burst DEFAULT_SETTINGS Samples.world_burst
             Samples.world_burst 3 w2 w3);
      vm_compute; reflexivity. }
  eexists. split; [exact H|].
  vm_compute. intuition.
Defined.

End ChannelDelete.

Section PolicyCache.

Import AntiNuke.

(** Writing the policy to the store leaves the cache of the engine as it
    is, so a cached policy keeps being returned. *)
Lemma getSettings_ignores_update env env' g updates s w :
  settingsCache w !! g = Some s ->
  getSettings env' g (snd (updateAntiNukeSettings env g updates w))
  = (Done s, snd (updateAntiNukeSettings env g updates w)).
Proof.
  intros Hc. apply getSettings_cached.
  unfold updateAntiNukeSettings, bind, getAntiNukeSettings, createDefaultAntiNukeSettings.
  destruct (dbStatus env); [destruct (db w !! g) eqn:Hd| |]; cbn;
    rewrite ?Hd, ?lookup_insert_eq; cbn; exact Hc.
Qed.

(** C4. The engine loads the policy of a guild on a first event; then
    [/antinuke disable] completes and the stored row is disabled; the next
    [getSettings] still returns the policy with [enabled] true, and the
    next channel deletion is still processed (its security event is
    written). *)
Theorem getSettings_stale_after_update :
  let env := Samples.env_with Samples.all_ok None (AuditEntry (Some Samples.raider) None) in
  let w1 := snd (getSettings env "guild-1" Samples.world_booted) in
  let w2 := snd (handleAntiNuke env Samples.guild1 SubDisable w1) in
  fst (handleAntiNuke env Samples.guild1 SubDisable w1) = Done tt
  /\ row_enabled <$> (db w2 !! "guild-1") = Some false
  /\ enabled <$> (settingsCache w2 !! "guild-1") = Some true
  /\ (exists s, getSettings env "guild-1" w2 = (Done s, w2) /\ enabled s = true)
  /\ audit_records (snd (handleChannelDelete env Samples.deleted_general w2))
     = [(SecurityLog "CHANNEL_DELETE" "user-7" "HIGH" 1 None false, true)].
Proof.
  intros env w1 w2. split; [vm_compute; reflexivity|].
  split; [vm_compute; reflexivity|].
  split; [vm_compute; reflexivity|].
  split.
  - exists (row_view DEFAULT_ROW). split; [|reflexivity].
    apply getSettings_cached. vm_compute. reflexivity.
  - vm_compute. reflexivity.
Qed.

End PolicyCache.

Section OwnerBypass.

Import Groq.

(** C9. For an input whose author is the configured owner,
    [analyzeMessageWithGroq] returns the fixed SAFE / ALLOW decision and
    leaves the state as it is: no classifier call is made, whatever the
    content, history, warnings and verification status; the fallback
    classifier has the same bypass, and [handleMessage] returns before
    any moderation step. *)
Theorem analyzeMessageWithGroq_owner_bypass
    (spam scam harassment : list (string -> bool))
    (completion : ModerationInput -> option Decision)
    (env : Env) (input : ModerationInput) (w : World) :
  let owner := Some (input_user_id input) in
  analyzeMessageWithGroq owner spam scam harassment completion env input w
  = (Done OWNER_BYPASS, w)
  /\ risk_score OWNER_BYPASS = Some 0
  /\ risk_level OWNER_BYPASS = Some "SAFE"
  /\ recommended_action OWNER_BYPASS = Some "ALLOW"
  /\ reasoning OWNER_BYPASS = Some "Bot owner - moderation bypassed"
  /\ fallbackAnalysis owner spam scam harassment input = OWNER_BYPASS
  /\ (forall moderate,
        handleMessage owner moderate (input_user_id input) w = (Done tt, w)).
Proof.
  intros owner.
  unfold analyzeMessageWithGroq, fallbackAnalysis, handleMessage, is_owner, owner.
  rewrite String.eqb_refl. repeat split.
Qed.

End OwnerBypass.

Section Unlock.

Import AntiNuke.

Lemma perform_done env e w w' :
  perform env e w = (Done tt, w') ->
  w' = set_trace (trace w ++ [(e, true)])%list (apply_effect e w).
Proof.
  unfold perform. destruct (platform_ok env (trace w) e); intros H; now inversion H.
Qed.

Lemma unlock_each_spec env todo :
  forall w w',
    unlock_each env todo w = (Done tt, w') ->
    (forall c', In c' (channels w') -> exists c, In c (channels w) /\ stems_from c' c)
    /\ (forall c' t, In c' (channels w') -> In t todo -> ch_id t = ch_id c' ->
          is_lockdown_name (ch_name t) = false /\ ch_send c' = None)
    /\ (forall c, In c (channels w) -> (forall t, In t todo -> ch_id t <> ch_id c) ->
          In c (channels w')).
Proof.
  induction todo as [|t todo IH]; intros w w' Hrun.
  - inversion Hrun; subst. split; [|split].
    + intros c' Hc'. exists c'. unfold stems_from. repeat split; auto.
    + intros c' t _ [].
    + auto.
  - cbn [unlock_each] in Hrun. unfold bind in Hrun.
    destruct ((if is_lockdown_name (ch_name t)
               then perform env (ChannelDelete (ch_id t))
               else perform env (PermEdit (ch_id t) None)) w) as [[[]|] w1] eqn:Hstep;
      [|discriminate].
    destruct (IH w1 w' Hrun) as (IHA & IHB & IHC).
    assert (Hch : channels w1 =
                  if is_lockdown_name (ch_name t)
                  then delete_channel (ch_id t) (channels w)
                  else edit_send (ch_id t) None (channels w)).
    { destruct (is_lockdown_name (ch_name t));
        apply perform_done in Hstep; subst w1; reflexivity. }
    assert (HA : forall c1, In c1 (channels w1) ->
                   exists c, In c (channels w) /\ stems_from c1 c
                             /\ (ch_id c1 = ch_id t ->
                                 is_lockdown_name (ch_name t) = false
                                 /\ ch_send c1 = None)).
    { intros c1 H1. rewrite Hch in H1.
      destruct (is_lockdown_name (ch_name t)).
      - unfold delete_channel in H1. apply filter_In in H1 as [H1 Hne].
        exists c1. split; [exact H1|]. split; [unfold stems_from; repeat split; auto|].
        intros Heq. rewrite Heq, Nat.eqb_refl in Hne. discriminate.
      - unfold edit_send in H1. apply in_map_iff in H1 as (c & Hc & Hin).
        exists c. split; [exact Hin|]. subst c1.
        destruct (Nat.eqb (ch_id c) (ch_id t)) eqn:E.
        + split; [unfold stems_from; cbn; repeat split; auto|].
          intros _. split; reflexivity.
        + split; [unfold stems_from; repeat split; auto|].
          intros Heq. rewrite Heq, Nat.eqb_refl in E. discriminate. }
    split; [|split].
    + intros c' Hc'. destruct (IHA c' Hc') as (c1 & H1 & S1).
      destruct (HA c1 H1) as (c & Hc & S & _). exists c. split; [exact Hc|].
      unfold stems_from in *.
      destruct S1 as (E1 & E2 & E3 & E4), S as (F1 & F2 & F3 & F4).
      repeat split; try congruence.
      destruct E4 as [E4|E4]; [|now right].
      destruct F4 as [F4|F4]; [left|right]; congruence.
    + intros c' t0 Hc' Ht0 Hid0.
      destruct Ht0 as [->|Hin]; [|now apply (IHB c' t0)].
      destruct (IHA c' Hc') as (c1 & H1' & S1).
      destruct (HA c1 H1') as (_ & _ & _ & Hid).
      unfold stems_from in S1. destruct S1 as (Hid1 & _ & _ & Hs).
      destruct (Hid ltac:(congruence)) as [Hname Hsend]. split; [exact Hname|].
      destruct Hs as [Hs|Hs]; [congruence|exact Hs].
    + intros c Hc Hfree. apply IHC.
      * rewrite Hch. assert (Hne : Nat.eqb (ch_id c) (ch_id t) = false).
        { apply Nat.eqb_neq. intros Heq. apply (Hfree t); [now left|congruence]. }
        destruct (is_lockdown_name (ch_name t)).
        -- unfold delete_channel. apply filter_In. now rewrite Hne.
        -- unfold edit_send. apply in_map_iff. exists c. now rewrite Hne.
      * intros t0 Ht0. apply Hfree. now right.
Qed.

(** A channel is deleted only when an entry of the loop with its
    identifier bears a lockdown name. *)
Lemma unlock_each_keeps env todo :
  forall w w' c,
    unlock_each env todo w = (Done tt, w') ->
    In c (channels w) ->
    (forall t, In t todo -> ch_id t = ch_id c -> is_lockdown_name (ch_name t) = false) ->
    exists c', In c' (channels w')
               /\ ch_id c' = ch_id c /\ ch_name c' = ch_name c
               /\ ch_textBased c' = ch_textBased c.
Proof.
  induction todo as [|t todo IH]; intros w w' c Hrun Hc Hsafe.
  - inversion Hrun; subst. exists c. auto.
  - cbn [unlock_each] in Hrun. unfold bind in Hrun.
    destruct ((if is_lockdown_name (ch_name t)
               then perform env (ChannelDelete (ch_id t))
               else perform env (PermEdit (ch_id t) None)) w) as [[[]|] w1] eqn:Hstep;
      [|discriminate].
    assert (H1 : exists c1, In c1 (channels w1)
                            /\ ch_id c1 = ch_id c /\ ch_name c1 = ch_name c
                            /\ ch_textBased c1 = ch_textBased c).
    { destruct (Nat.eqb (ch_id c) (ch_id t)) eqn:E.
      - apply Nat.eqb_eq in E.
        rewrite (Hsafe t (or_introl eq_refl) (eq_sym E)) in Hstep.
        apply perform_done in Hstep. subst w1. cbn.
        exists (if Nat.eqb (ch_id c) (ch_id t) then set_send None c else c). split.
        + unfold edit_send. apply in_map_iff. exists c. auto.
        + destruct (Nat.eqb (ch_id c) (ch_id t)); cbn; auto.
      - exists c. split; [|auto].
        destruct (is_lockdown_name (ch_name t));
          apply perform_done in Hstep; subst w1; cbn.
        + unfold delete_channel. apply filter_In. now rewrite E.
        + unfold edit_send. apply in_map_iff. exists c. now rewrite E. }
    destruct H1 as (c1 & Hin1 & Hid1 & Hn1 & Ht1).
    destruct (IH w1 w' c1 Hrun Hin1) as (c' & Hin' & Hid' & Hn' & Ht').
    + intros t0 Ht0 Heq. apply Hsafe; [now right|congruence].
    + exists c'. repeat split; congruence.
Qed.

Lemma NoDup_map_In_inj {A B} (f : A -> B) (l : list A) x y :
  List.NoDup (map f l) -> In x l -> In y l -> f x = f y -> x = y.
Proof.
  induction l as [|a l IH]; cbn; [tauto|].
  intros Hnd Hx Hy Hf. apply NoDup_cons_iff in Hnd as [Hnot Hnd].
  destruct Hx as [->|Hx], Hy as [->|Hy]; auto.
  - exfalso. apply Hnot. rewrite Hf. now apply in_map.
  - exfalso. apply Hnot. rewrite <- Hf. now apply in_map.
Qed.

(** C8 (amended). When [unlockServer] returns true: no text-based
    channel with a lockdown name is left; every remaining text-based
    channel has the send permission of the default role set to neutral,
    whatever it was before; every remaining channel is a former one; and,
    channel identifiers being distinct, the channels that are not
    text-based are untouched and every text-based channel without a
    lockdown name is still there. *)
Theorem unlockServer_resets_send env guild w w' :
  unlockServer env guild w = (Done true, w') ->
  (forall c', In c' (channels w') -> ch_textBased c' = true ->
     is_lockdown_name (ch_name c') = false /\ ch_send c' = None)
  /\ (forall c', In c' (channels w') -> exists c, In c (channels w) /\ stems_from c' c)
  /\ (List.NoDup (map ch_id (channels w)) ->
      (forall c, In c (channels w) -> ch_textBased c = false -> In c (channels w'))
      /\ (forall c, In c (channels w) -> ch_textBased c = true ->
            is_lockdown_name (ch_name c) = false ->
            In (set_send None c) (channels w'))).
Proof.
  intros Hrun. unfold unlockServer, try_catch, bind, get_world, ret in Hrun.
  destruct (unlock_each env (List.filter ch_textBased (channels w)) w)
    as [[[]|] w1] eqn:Hloop; [|discriminate].
  inversion Hrun; subst w1. clear Hrun.
  destruct (unlock_each_spec env _ w w' Hloop) as (HA & HB & HC).
  assert (Htext : forall c', In c' (channels w') -> ch_textBased c' = true ->
                    is_lockdown_name (ch_name c') = false /\ ch_send c' = None).
  { intros c' Hc' Ht. destruct (HA c' Hc') as (c & Hc & Hid & Hn & Htb & _).
    assert (Hin : In c (List.filter ch_textBased (channels w))).
    { apply filter_In. split; [exact Hc|congruence]. }
    destruct (HB c' c Hc' Hin Hid) as [Hname Hsend]. split; [congruence|exact Hsend]. }
  split; [exact Htext|]. split; [exact HA|].
  intros Hnd. split.
  - intros c Hc Ht. apply HC; [exact Hc|].
    intros t Hin Hid. apply filter_In in Hin as [Hin Htt].
    assert (t = c) by (eapply NoDup_map_In_inj; eauto). congruence.
  - intros c Hc Ht Hname.
    destruct (unlock_each_keeps env _ w w' c Hloop Hc) as (c' & Hc' & Hid & Hn & Htb).
    + intros t Hin Heq. apply filter_In in Hin as [Hin _].
      assert (t = c) by (eapply NoDup_map_In_inj; eauto). congruence.
    + destruct (Htext c' Hc' ltac:(congruence)) as [_ Hsend].
      replace (set_send None c) with c'; [exact Hc'|].
      destruct c', c; cbn in *; unfold set_send; cbn; congruence.
Qed.

Lemma unlockServer_resets_send_witness :
  let env := Samples.env_with Samples.all_ok None AuditEmpty in
  exists w',
    unlockServer env Samples.guild1 Samples.world_locked = (Done true, w')
    /\ (forall c', In c' (channels w') -> ch_textBased c' = true ->
          is_lockdown_name (ch_name c') = false /\ ch_send c' = None)
    /\ In Samples.voice (channels w')
    /\ In (set_send None Samples.rules) (channels w').
Proof.
  intros env.
  pose (w' := snd (unlockServer env Samples.guild1 Samples.world_locked)).
  assert (Hrun : unlockServer env Samples.guild1 Samples.world_locked = (Done true, w'))
    by (vm_compute; reflexivity).
  destruct (unlockServer_resets_send env Samples.guild1 Samples.world_locked w' Hrun)
    as (H1 & _ & H3).
  assert (Hnd : List.NoDup (map ch_id (channels Samples.world_locked))).
  { vm_compute. repeat constructor; cbn; intuition discriminate. }
  destruct (H3 Hnd) as [H4 H5].
  exists w'. split; [exact Hrun|]. split; [exact H1|]. split.
  - apply H4; [vm_compute; intuition|reflexivity].
  - apply H5; [vm_compute; intuition|reflexivity|reflexivity].
Defined.

(** C8, as stated, fails: a channel whose send permission was an explicit
    allow, and one whose permission was an explicit deny, are both left
    neutral by lockdown followed by unlock. *)
Lemma unlock_does_not_restore_prior_state :
  let env := Samples.env_with Samples.all_ok None AuditEmpty in
  let unlocked := unlockServer env Samples.guild1 Samples.world_locked in
  map ch_send (channels Samples.world_channels) = [Some true; None; Some false; None]
  /\ map ch_send (channels Samples.world_locked)
     = [Some false; None; Some false; Some false; None]
  /\ fst unlocked = Done true
  /\ map ch_send (channels (snd unlocked)) = [None; None; None; None]
  /\ ~ prior_send_restored (channels Samples.world_channels) (channels (snd unlocked)).
Proof.
  repeat split; try (vm_compute; reflexivity).
  intros H.
  specialize (H Samples.general (set_send None Samples.general)).
  assert (Hc : ch_send (set_send None Samples.general) = ch_send Samples.general).
  { apply H; [vm_compute; intuition|vm_compute; intuition|reflexivity]. }
  discriminate Hc.
Qed.

End Unlock.

Section Fallback.

Import Actions.

(** The delete handler never throws: its [catch] only prints. *)
Lemma handleDelete_total env message reasoning categories w :
  exists w', handleDelete env message reasoning categories w = (Done tt, w').
Proof. apply try_unit_total. Qed.

(** The mute handler never throws: its [catch] runs the delete handler. *)
Lemma handleMute_total env message member reasoning categories w :
  exists w', handleMute env message member reasoning categories w = (Done tt, w').
Proof.
  unfold handleMute, try_catch.
  match goal with |- context [match ?m w with _ => _ end] => destruct (m w) as [[[]|] w1] end;
    [eauto|apply handleDelete_total].
Qed.

(** The kick handler never throws: its [catch] runs the mute handler. *)
Lemma handleKick_total env message member reasoning categories w :
  exists w', handleKick env message member reasoning categories w = (Done tt, w').
Proof.
  unfold handleKick, try_catch.
  match goal with |- context [match ?m w with _ => _ end] => destruct (m w) as [[[]|] w1] end;
    [eauto|apply handleMute_total].
Qed.

(** C7. A kick that the platform refuses is not followed by a mute.
    The message is deletable, the member can be kicked and muted, and the
    platform deletes a message once.  The kick handler notifies the author,
    deletes the message and attempts the kick; the refusal takes it to the
    mute handler, which notifies the author and deletes the message again
    before it mutes: that deletion is refused, and the mute handler hands
    over to the delete handler without a call of [member.timeout]; the
    delete handler fails at the same deletion.  No error leaves the
    handler.  Where the deletion can be repeated, the same refused kick is
    followed by the timeout. *)
Theorem refused_kick_not_followed_by_mute :
  let env := Samples.env_with once_deletable_kick_refused None AuditEmpty in
  let result := handleKick env Samples.flagged_message (Some Samples.kickable_member)
               (Some "Severe spam") (Some ["SPAM"]) Samples.world_defaults in
  fst result = Done tt
  /\ trace (snd result)
     = [(AuthorDM TKick, true); (MessageDelete, true); (ModerationKick, false);
        (AuthorDM TMute, true); (MessageDelete, false);
        (AuthorDM TDelete, true); (MessageDelete, false)]
  /\ Forall (fun x => is_timeout (fst x) = false) (trace (snd result))
  /\ In (MemberTimeout (10 * 60 * 1000), true)
       (trace (snd (handleKick (Samples.env_with Samples.kick_fails None AuditEmpty)
                      Samples.flagged_message (Some Samples.kickable_member)
                      (Some "Severe spam") (Some ["SPAM"]) Samples.world_defaults))).
Proof.
  cbv zeta. split; [vm_compute; reflexivity|]. split; [vm_compute; reflexivity|].
  split; [vm_compute; repeat constructor|]. vm_compute. tauto.
Qed.

End Fallback.

(** * Further properties of the code *)

Section TrackerKeys.

Import AntiNuke.

Lemma split_at_dash s1 s2 r1 r2 :
  no_dash s1 = true -> no_dash s2 = true ->
  (s1 ++ String dash r1)%string = (s2 ++ String dash r2)%string ->
  s1 = s2 /\ r1 = r2.
Proof.
  revert s2. induction s1 as [|c s1 IH]; intros [|d s2] H1 H2 Heq; cbn in *.
  - inversion Heq. auto.
  - inversion Heq; subst d. rewrite Ascii.eqb_refl in H2. discriminate.
  - inversion Heq; subst c. rewrite Ascii.eqb_refl in H1. discriminate.
  - inversion Heq; subst d.
    apply andb_true_iff in H1 as [_ H1]. apply andb_true_iff in H2 as [_ H2].
    destruct (IH s2 H1 H2 H3) as [-> ->]. auto.
Qed.

(** X1. The counter keys of two (guild, user, action) triples whose
    guild and user identifiers hold no ["-"] (snowflakes are digits) are
    equal only if the triples are equal; with a ["-"] in an identifier two
    different triples can share one key. *)
Theorem tracker_key_injective :
  (forall g u a g' u' a',
     no_dash g = true -> no_dash u = true ->
     no_dash g' = true -> no_dash u' = true ->
     tracker_key g u a = tracker_key g' u' a' ->
     g = g' /\ u = u' /\ a = a')
  /\ tracker_key "1-2" "3" "BAN" = tracker_key "1" "2-3" "BAN".
Proof.
  split; [|reflexivity].
  intros g u a g' u' a' Hg Hu Hg' Hu' Heq. unfold tracker_key in Heq.
  change ("-" ++ ?x)%string with (String dash x) in Heq.
  destruct (split_at_dash g g' _ _ Hg Hg' Heq) as [-> Heq'].
  destruct (split_at_dash u u' _ _ Hu Hu' Heq') as [-> ->]. auto.
Qed.

Lemma tracker_key_injective_witness :
  "111" = "111" /\ "222" = "222" /\ "KICK" = "KICK".
Proof.
  apply (proj1 tracker_key_injective "111" "222" "KICK" "111" "222" "KICK");
    reflexivity.
Defined.

End TrackerKeys.

Section CounterInvariant.

Import AntiNuke.

(** X2. With a policy whose window is positive, after every call of
    [trackAction] the timestamps stored for the key all lie inside the
    window that ends now, the newest is the clock reading, and the count
    returned is their number: at least 1, at most one more than was
    stored.  The entries of every other key, the policy cache, the trace
    and the channels are as before. *)
Theorem trackAction_keeps_window env g u a s win w :
  settingsCache w !! g = Some s ->
  timeWindow s = Some win ->
  0 < win ->
  exists count w' stored',
    trackAction env g u a w = (Done count, w')
    /\ actionTracker w' !! tracker_key g u a = Some stored'
    /\ Forall (fun t => now env - t < win) stored'
    /\ last stored' = Some (now env)
    /\ count = Z.of_nat (length stored')
    /\ 1 <= count <= Z.of_nat (length (default [] (actionTracker w !! tracker_key g u a))) + 1
    /\ (forall k, k <> tracker_key g u a -> actionTracker w' !! k = actionTracker w !! k)
    /\ settingsCache w' = settingsCache w
    /\ trace w' = trace w
    /\ channels w' = channels w.
Proof.
  intros Hc Hwin Hpos.
  rewrite (trackAction_cached env g u a s w Hc). cbv zeta. rewrite Hwin.
  set (stored := default [] (actionTracker w !! tracker_key g u a)).
  set (kept := List.filter (fun time => JS.lt (Some (now env - time)) (Some win)) stored).
  exists (Z.of_nat (length (kept ++ [now env]))),
    (set_tracker (<[tracker_key g u a := (kept ++ [now env])%list]> (actionTracker w)) w),
    (kept ++ [now env])%list.
  split; [reflexivity|]. split; [cbn; apply lookup_insert_eq|].
  split.
  { apply Forall_app. split.
    - apply Forall_forall. intros t Ht. apply list_elem_of_In in Ht.
      apply filter_In in Ht as [_ Ht]. cbn in Ht. now apply Z.ltb_lt.
    - repeat constructor. lia. }
  split; [apply last_snoc|]. split; [reflexivity|].
  split.
  { rewrite length_app. cbn [length].
    pose proof (filter_length_le (fun time => JS.lt (Some (now env - time)) (Some win)) stored).
    fold kept in H. lia. }
  split; [intros k Hk; cbn; now apply lookup_insert_ne|].
  auto.
Qed.

Lemma trackAction_keeps_window_witness :
  exists count w' stored',
    trackAction (Samples.env_at 10500 12) "guild-1" "user-7" "CHANNEL_DELETE"
      Samples.world_burst = (Done count, w')
    /\ actionTracker w' !! "guild-1-user-7-CHANNEL_DELETE" = Some stored'
    /\ Forall (fun t => 10500 - t < 10000) stored'
    /\ count = Z.of_nat (length stored').
Proof.
  destruct (trackAction_keeps_window (Samples.env_at 10500 12) "guild-1" "user-7"
              "CHANNEL_DELETE" DEFAULT_SETTINGS 10000 Samples.world_burst
              eq_refl eq_refl ltac:(lia))
    as (count & w' & stored' & H1 & H2 & H3 & _ & H5 & _).
  exists count, w', stored'. auto.
Defined.

End CounterInvariant.

Section StorePolicy.

Import AntiNuke.

(** X3. What a load of the policy does when nothing is cached: with the
    store up, the row of the guild (the default row is inserted when there
    is none) is cached as the engine reads it, that is, with every limit,
    the window and the punishment type undefined; when the store answers
    with an error the default settings are cached; when the store call
    throws the default settings are returned and nothing is cached. *)
Theorem getSettings_first_load env g w :
  settingsCache w !! g = None ->
  match dbStatus env with
  | DbUp =>
      let r := default DEFAULT_ROW (db w !! g) in
      getSettings env g w
      = (Done (row_view r),
         set_cache (<[g := row_view r]> (settingsCache w))
           (match db w !! g with
            | Some _ => w
            | None => set_db (<[g := DEFAULT_ROW]> (db w)) w
            end))
      /\ timeWindow (row_view r) = None
      /\ punishmentType (row_view r) = None
      /\ (forall limitType, limit_of (row_view r) limitType = None)
  | DbError =>
      getSettings env g w
      = (Done DEFAULT_SETTINGS, set_cache (<[g := DEFAULT_SETTINGS]> (settingsCache w)) w)
  | DbThrows => getSettings env g w = (Done DEFAULT_SETTINGS, w)
  end.
Proof.
  intros Hc. unfold getSettings. rewrite Hc.
  unfold try_catch, bind, ret, getAntiNukeSettings, createDefaultAntiNukeSettings.
  destruct (dbStatus env) eqn:Hd.
  - destruct (db w !! g) as [r|] eqn:Hr; cbn; rewrite ?Hd;
      (split; [reflexivity|]); (split; [reflexivity|]); (split; [reflexivity|]);
      intros []; reflexivity.
  - reflexivity.
  - reflexivity.
Qed.

Lemma getSettings_first_load_witness :
  getSettings (Samples.env_at 0 12) "guild-1" Samples.world_booted
  = (Done (row_view DEFAULT_ROW),
     set_cache (<["guild-1" := row_view DEFAULT_ROW]> ∅) Samples.world_booted).
Proof.
  exact (proj1 (getSettings_first_load (Samples.env_at 0 12) "guild-1"
                  Samples.world_booted eq_refl)).
Defined.

Lemma getSettings_store_up env g w :
  settingsCache w !! g = None ->
  dbStatus env = DbUp ->
  let r := default DEFAULT_ROW (db w !! g) in
  getSettings env g w
  = (Done (row_view r),
     set_cache (<[g := row_view r]> (settingsCache w))
       (match db w !! g with
        | Some _ => w
        | None => set_db (<[g := DEFAULT_ROW]> (db w)) w
        end)).
Proof.
  intros Hc Hd. unfold getSettings. rewrite Hc.
  unfold try_catch, bind, ret, getAntiNukeSettings, createDefaultAntiNukeSettings.
  rewrite Hd. destruct (db w !! g) as [r|] eqn:Hr; cbn; rewrite ?Hd; reflexivity.
Qed.

Lemma getSettings_from_store env g w :
  (exists r, settingsCache w !! g = Some (row_view r))
  \/ (settingsCache w !! g = None /\ dbStatus env = DbUp) ->
  exists r w0,
    getSettings env g w = (Done (row_view r), w0)
    /\ settingsCache w0 !! g = Some (row_view r)
    /\ trace w0 = trace w /\ channels w0 = channels w.
Proof.
  intros [[r Hc]|[Hc Hd]].
  - exists r, w. rewrite (getSettings_cached env g _ w Hc). auto.
  - pose proof (getSettings_store_up env g w Hc Hd) as H.
    eexists. eexists. split; [exact H|].
    split; [cbn; apply lookup_insert_eq|].
    destruct (db w !! g); auto.
Qed.

(** X4. With a policy that came from the store, a rate-limited handler
    never punishes and never reverses the action, whatever the number of
    actions: each attributed action counts as 1 against an undefined
    limit.  The handler attempts at most the write of one security event
    (count 1, no limit, day) and leaves the channels as they are. *)
Theorem store_policy_never_escalates env guild limitType actionType reason
    eventType severity target_matches undo w :
  (exists r, settingsCache w !! guild_id guild = Some (row_view r))
  \/ (settingsCache w !! guild_id guild = None /\ dbStatus env = DbUp) ->
  exists w',
    handleCountedAction env guild limitType actionType reason eventType severity
      target_matches undo w = (Done tt, w')
    /\ channels w' = channels w
    /\ (trace w' = trace w
        \/ exists executor ok,
             trace w' = (trace w ++ [(SecurityLog eventType executor (severity false)
                                       1 None false, ok)])%list).
Proof.
  intros Hstore.
  destruct (getSettings_from_store env (guild_id guild) w Hstore)
    as (r & w0 & Hs & Hc0 & Ht0 & Hch0).
  unfold handleCountedAction. unfold bind at 1. rewrite Hs.
  change (enabled (row_view r)) with (row_enabled r).
  destruct (row_enabled r); cbn [negb]; [|exists w0; unfold ret; auto].
  unfold try_catch at 1.
  destruct (auditLog env) as [| |executor target];
    [exists w0; unfold throw, ret; auto|exists w0; unfold ret; auto|].
  destruct (target_matches target); cbn [negb]; [|exists w0; unfold ret; auto].
  destruct executor as [executor|]; [|exists w0; unfold ret; auto].
  unfold bind at 1.
  destruct (isWhitelisted_loaded env (guild_id guild) (user_id executor)
              (row_view r) w w0 Hs) as [b Hb].
  rewrite Hb. destruct b; [exists w0; unfold ret; auto|].
  unfold bind at 1.
  rewrite (trackAction_cached env (guild_id guild) (user_id executor) actionType
             (row_view r) w0 Hc0).
  cbv zeta. change (timeWindow (row_view r)) with (@None Z).
  rewrite filter_none by (apply Forall_forall; intros; reflexivity).
  cbn [app length].
  assert (Hlim : getEffectiveLimit env (row_view r) limitType = None).
  { unfold getEffectiveLimit, isNightMode. cbn. now destruct limitType. }
  rewrite Hlim. cbn [JS.ge]. unfold bind at 1, ret at 1.
  unfold try_catch, logSecurityEvent, perform, ret. cbn [trace set_tracker].
  destruct (platform_ok env (trace w0) _) eqn:Hok; eexists;
    (split; [reflexivity|]); cbn; rewrite Ht0, Hch0;
    (split; [reflexivity|]); right; eauto.
Qed.

Lemma store_policy_never_escalates_witness :
  let env := Samples.env_with Samples.all_ok (Some Samples.raider_member)
               (AuditEntry (Some Samples.raider) None) in
  exists w',
    handleChannelDelete env Samples.deleted_general Samples.world_booted = (Done tt, w')
    /\ channels w' = []
    /\ (trace w' = []
        \/ exists executor ok,
             trace w' = [(SecurityLog "CHANNEL_DELETE" executor "HIGH" 1 None false, ok)]).
Proof.
  intros env.
  exact (store_policy_never_escalates env Samples.guild1 LChannelDelete
           "CHANNEL_DELETE" "CHANNEL_DELETE" "CHANNEL_DELETE"
           (fun reached : bool => if reached then "CRITICAL" else "HIGH")
           any_target (restoreChannel env Samples.deleted_general)
           Samples.world_booted (or_intror (conj eq_refl eq_refl))).
Defined.

End StorePolicy.

Section Limits.

Import AntiNuke.

(** X5. The limit in force: outside night mode, or when the policy opts
    out of stricter night limits, it is the standard limit; in night mode
    it is the night limit when that is a non-zero number, and the standard
    limit when the night limit is 0 or missing (as it always is for the
    member-prune limit).  So the limit in force is never a night limit of
    0. *)
Theorem getEffectiveLimit_cases env settings limitType :
  (isNightMode env settings = false \/ nightmodeStricterLimits settings = false ->
   getEffectiveLimit env settings limitType = limit_of settings limitType)
  /\ (isNightMode env settings = true -> nightmodeStricterLimits settings = true ->
      forall n, night_limit_of settings limitType = Some n -> n <> 0 ->
                getEffectiveLimit env settings limitType = Some n)
  /\ (isNightMode env settings = true -> nightmodeStricterLimits settings = true ->
      night_limit_of settings limitType = Some 0
      \/ night_limit_of settings limitType = None ->
      getEffectiveLimit env settings limitType = limit_of settings limitType)
  /\ getEffectiveLimit env settings LMemberPrune = memberPruneLimit settings
  /\ (getEffectiveLimit env settings limitType = Some 0 ->
      limit_of settings limitType = Some 0).
Proof.
  unfold getEffectiveLimit. split; [|split; [|split; [|split]]].
  - intros [-> | ->]; cbn; [reflexivity|]. now rewrite orb_true_r.
  - intros -> -> n -> Hn. cbn. destruct (n =? 0) eqn:E; [|reflexivity].
    apply Z.eqb_eq in E. contradiction.
  - intros -> -> [-> | ->]; reflexivity.
  - destruct (negb (isNightMode env settings) || negb (nightmodeStricterLimits settings));
      reflexivity.
  - destruct (negb (isNightMode env settings) || negb (nightmodeStricterLimits settings));
      [auto|].
    unfold JS.or_num. destruct (night_limit_of settings limitType) as [n|]; [|auto].
    destruct (n =? 0) eqn:E; [auto|]. intros H. inversion H; subst. discriminate.
Qed.

Lemma getEffectiveLimit_cases_witness :
  let night := set_nightmode true (Some 23) (Some 7) DEFAULT_SETTINGS in
  getEffectiveLimit (Samples.env_at 0 12) night LBan = Some 3
  /\ getEffectiveLimit (Samples.env_at 0 2) night LBan = Some 1.
Proof.
  intros night. split.
  - exact (proj1 (getEffectiveLimit_cases (Samples.env_at 0 12) night LBan)
             (or_introl eq_refl)).
  - exact (proj1 (proj2 (getEffectiveLimit_cases (Samples.env_at 0 2) night LBan))
             eq_refl eq_refl 1 eq_refl ltac:(discriminate)).
Defined.

Lemma land_flag p k :
  0 <= k -> (Z.land p (Z.shiftl 1 k) =? Z.shiftl 1 k) = Z.testbit p k.
Proof.
  intros Hk. rewrite Z.shiftl_1_l.
  destruct (Z.testbit p k) eqn:Hb.
  - apply Z.eqb_eq. apply Z.bits_inj'. intros n Hn.
    rewrite Z.land_spec, Z.pow2_bits_eqb by exact Hk.
    destruct (k =? n) eqn:E; [|now rewrite andb_false_r].
    apply Z.eqb_eq in E. subst n. now rewrite Hb.
  - apply Z.eqb_neq. intros Heq.
    assert (Hk' : Z.testbit (Z.land p (2 ^ k)) k = Z.testbit (2 ^ k) k) by now rewrite Heq.
    rewrite Z.land_spec, Z.pow2_bits_true, Hb in Hk' by exact Hk. discriminate.
Qed.

(** X6. A role counts as dangerous exactly when its permission bit field
    has bit 3 (Administrator), bit 5 (ManageGuild) or bit 28 (ManageRoles)
    set; every other permission, [ManageChannels], [BanMembers] and
    [KickMembers] among them, leaves the role in place. *)
Theorem is_dangerous_role_bits role :
  is_dangerous_role role
  = Z.testbit (role_permissions role) 3
    || Z.testbit (role_permissions role) 5
    || Z.testbit (role_permissions role) 28.
Proof.
  unfold is_dangerous_role, has, Administrator, ManageGuild, ManageRoles.
  rewrite !land_flag by lia.
  destruct (Z.testbit (role_permissions role) 3),
    (Z.testbit (role_permissions role) 5),
    (Z.testbit (role_permissions role) 28); reflexivity.
Qed.

End Limits.

Section Emits.

Lemma emits_ret {A} (a : A) P : emits (ret a) P.
Proof. intros w. exists []. cbn. now rewrite app_nil_r. Qed.

Lemma emits_throw {A} P : emits (@throw A) P.
Proof. intros w. exists []. cbn. now rewrite app_nil_r. Qed.

Lemma emits_silent {A} (m : M A) P :
  (forall w, trace (snd (m w)) = trace w) -> emits m P.
Proof. intros H w. exists []. rewrite H, app_nil_r. auto. Qed.

Lemma emits_perform env e (P : Effect -> Prop) : P e -> emits (perform env e) P.
Proof.
  intros He w. unfold perform.
  destruct (platform_ok env (trace w) e); eexists; (split; [reflexivity|]);
    repeat constructor; exact He.
Qed.

Lemma emits_bind {A B} (m : M A) (k : A -> M B) P :
  emits m P -> (forall a, emits (k a) P) -> emits (bind m k) P.
Proof.
  intros Hm Hk w. unfold bind. destruct (Hm w) as (n1 & H1 & F1).
  destruct (m w) as [[a|] w1]; cbn in H1.
  - destruct (Hk a w1) as (n2 & H2 & F2). exists (n1 ++ n2)%list.
    rewrite H2, H1, app_assoc. split; [reflexivity|]. now apply Forall_app.
  - exists n1. auto.
Qed.

Lemma emits_try {A} (m h : M A) P :
  emits m P -> emits h P -> emits (try_catch m h) P.
Proof.
  intros Hm Hh w. unfold try_catch. destruct (Hm w) as (n1 & H1 & F1).
  destruct (m w) as [[a|] w1]; cbn in H1.
  - exists n1. auto.
  - destruct (Hh w1) as (n2 & H2 & F2). exists (n1 ++ n2)%list.
    rewrite H2, H1, app_assoc. split; [reflexivity|]. now apply Forall_app.
Qed.

Lemma emits_mono {A} (m : M A) (P Q : Effect -> Prop) :
  emits m P -> (forall e, P e -> Q e) -> emits m Q.
Proof.
  intros Hm HPQ w. destruct (Hm w) as (n & H & F). exists n. split; [exact H|].
  eapply Forall_impl; [exact F|]. intros x. apply HPQ.
Qed.

Lemma emits_getSettings env g P : emits (AntiNuke.getSettings env g) P.
Proof.
  apply emits_silent. intros w.
  destruct (getSettings_total env g w) as (s & w' & H & Ht & _). now rewrite H.
Qed.

End Emits.

Section PunishCalls.

Import AntiNuke.

Lemma emits_edit_each env v chans :
  emits (edit_each env v chans) (fun e => exists id, e = PermEdit id v).
Proof.
  induction chans as [|c chans IH]; cbn [edit_each]; [apply emits_ret|].
  apply emits_bind; [apply emits_perform; eauto|intros _; exact IH].
Qed.

Lemma is_lockdown_name_names :
  is_lockdown_name NIGHT_LOCKDOWN_NAME = true
  /\ is_lockdown_name SERVER_LOCKDOWN_NAME = true.
Proof. split; vm_compute; reflexivity. Qed.

Lemma emits_lockdown env guild reason :
  emits (initiateServerLockdown env guild reason) (fun e => lockdown_call e = true).
Proof.
  unfold initiateServerLockdown. apply emits_try; [|apply emits_ret].
  apply emits_bind; [apply emits_getSettings|intros s].
  apply emits_bind; [apply emits_silent; reflexivity|intros w0].
  apply emits_bind.
  { eapply emits_mono; [apply emits_edit_each|]. intros e [id ->]. reflexivity. }
  intros _. apply emits_bind; [apply emits_silent; reflexivity|intros w1].
  apply emits_bind.
  { apply emits_perform. cbn.
    destruct (isNightMode env s); apply is_lockdown_name_names. }
  intros _. apply emits_perform. reflexivity.
Qed.

(** X7. Whatever the platform answers, a lockdown attempts nothing but
    denials of the send permission, the creation of a channel with a
    lockdown name and a message to a channel; and it never throws. *)
Theorem initiateServerLockdown_calls env guild reason w :
  exists w' new,
    initiateServerLockdown env guild reason w = (Done tt, w')
    /\ trace w' = (trace w ++ new)%list
    /\ Forall (fun x => lockdown_call (fst x) = true) new.
Proof.
  destruct (emits_lockdown env guild reason w) as (new & Ht & Hf).
  unfold initiateServerLockdown in *.
  match goal with
  | |- context [try_catch ?m (ret tt) w] =>
      destruct (try_unit_total m w) as [w' Hw']
  end.
  rewrite Hw' in Ht. exists w', new. auto.
Qed.

Lemma emits_remove_each env member roles :
  emits (remove_each env member roles)
    (fun e => exists role, In role roles /\ e = RoleRemove (member_id member) (role_id role)).
Proof.
  induction roles as [|r roles IH]; cbn [remove_each]; [apply emits_ret|].
  apply emits_bind.
  - apply emits_perform. exists r. split; [now left|reflexivity].
  - intros _. eapply emits_mono; [exact IH|].
    intros e (role & Hin & ->). exists role. split; [now right|reflexivity].
Qed.

Lemma emits_punish_body env guild user reason actionCount settings member :
  emits
    (run remove_each env member (List.filter is_dangerous_role (member_roles member)) ;
     run match punishmentType settings with
         | Some "BAN" => perform env (MemberBan (member_id member))
         | Some "KICK" => perform env (MemberKick (member_id member))
         | Some "STRIP_ROLES" => perform env (RolesSet (member_id member))
         | _ => ret tt
         end ;
     run (if notifyOwner settings
          then notifyOwner_method env guild user reason actionCount
                 (isNightMode env settings)
          else ret tt) ;
     if lockdownOnTrigger settings
        || (isNightMode env settings && nightmodeAutoLock settings)
     then initiateServerLockdown env guild reason
     else ret tt)
    (fun e => punish_call settings member e = true).
Proof.
  apply emits_bind.
  { eapply emits_mono; [apply emits_remove_each|].
    intros e (role & Hin & ->). cbn. rewrite String.eqb_refl. cbn.
    apply existsb_exists. exists role. apply filter_In in Hin as [Hin Hd].
    split; [exact Hin|]. now rewrite String.eqb_refl, Hd. }
  intros _. apply emits_bind.
  { destruct (punishmentType settings) as [p|] eqn:Hp; [|apply emits_ret].
    destruct (String.eqb p "BAN") eqn:E1;
      [apply String.eqb_eq in E1; subst p; apply emits_perform; cbn;
       now rewrite String.eqb_refl, Hp|].
    destruct (String.eqb p "KICK") eqn:E2;
      [apply String.eqb_eq in E2; subst p; apply emits_perform; cbn;
       now rewrite String.eqb_refl, Hp|].
    destruct (String.eqb p "STRIP_ROLES") eqn:E3;
      [apply String.eqb_eq in E3; subst p; apply emits_perform; cbn;
       now rewrite String.eqb_refl, Hp|].
    assert (Hret : emits (@ret unit tt) (fun e => punish_call settings member e = true))
      by apply emits_ret.
    revert Hret. clear - E1 E2 E3.
    repeat match goal with
           | |- context [match ?x with _ => _ end] => destruct x; try discriminate
           end; auto. }
  intros _. apply emits_bind.
  { destruct (notifyOwner settings) eqn:Hn; [|apply emits_ret].
    unfold notifyOwner_method. apply emits_try; [|apply emits_ret].
    apply emits_perform. cbn. exact Hn. }
  intros _.
  destruct (lockdownOnTrigger settings
            || (isNightMode env settings && nightmodeAutoLock settings)) eqn:Hl;
    [|apply emits_ret].
  eapply emits_mono; [apply emits_lockdown|].
  intros e He.
  assert (Hflag : lockdownOnTrigger settings || nightmodeAutoLock settings = true).
  { destruct (lockdownOnTrigger settings); [reflexivity|]. cbn in *.
    now apply andb_true_iff in Hl as [_ ->]. }
  destruct e; cbn in He; try discriminate; cbn; rewrite ?He, Hflag; reflexivity.
Qed.

Lemma emits_punish_guarded env guild user reason actionCount settings :
  emits
    (try_catch
       (match fetchMember env (user_id user) with
        | None => ret tt
        | Some member =>
            if String.eqb (member_id member) (ownerId guild) then ret tt
            else
              let isNight := isNightMode env settings in
              let dangerousRoles :=
                List.filter is_dangerous_role (member_roles member) in
              run remove_each env member dangerousRoles ;
              run match punishmentType settings with
                  | Some "BAN" => perform env (MemberBan (member_id member))
                  | Some "KICK" => perform env (MemberKick (member_id member))
                  | Some "STRIP_ROLES" => perform env (RolesSet (member_id member))
                  | _ => ret tt
                  end ;
              run (if notifyOwner settings
                   then notifyOwner_method env guild user reason actionCount isNight
                   else ret tt) ;
              if lockdownOnTrigger settings || (isNight && nightmodeAutoLock settings)
              then initiateServerLockdown env guild reason
              else ret tt
        end)
       (ret tt))
    (fun e => match fetchMember env (user_id user) with
              | None => False
              | Some member => punish_call settings member e = true
              end).
Proof.
  apply emits_try; [|apply emits_ret].
  destruct (fetchMember env (user_id user)) as [member|]; [|apply emits_ret].
  destruct (String.eqb (member_id member) (ownerId guild)); [apply emits_ret|].
  apply emits_punish_body.
Qed.

(** X8. Whatever the platform answers, [punishUser] never throws and
    attempts nothing when the member cannot be fetched; otherwise every
    call it attempts is the removal of a dangerous role of that member,
    the one punishment that the policy names (a ban only under ['BAN'], a
    kick only under ['KICK'], a role strip only under ['STRIP_ROLES'], none
    of them under any other value), the owner notice when the policy asks
    for it, or a lockdown call when the policy has a lockdown flag. *)
Theorem punishUser_calls env guild user reason actionCount w settings w0 :
  getSettings env (guild_id guild) w = (Done settings, w0) ->
  exists w' new,
    punishUser env guild user reason actionCount w = (Done tt, w')
    /\ trace w' = (trace w ++ new)%list
    /\ match fetchMember env (user_id user) with
       | None => new = []
       | Some member => Forall (fun x => punish_call settings member (fst x) = true) new
       end.
Proof.
  intros Hs.
  destruct (getSettings_total env (guild_id guild) w) as (s' & w0' & Hs' & Ht0 & _).
  rewrite Hs in Hs'. inversion Hs'; subst s' w0'. clear Hs'.
  destruct (emits_punish_guarded env guild user reason actionCount settings w0)
    as (new & Ht & Hf).
  unfold punishUser. unfold bind at 1. rewrite Hs.
  match goal with
  | |- context [try_catch ?m (ret tt) w0] =>
      destruct (try_unit_total m w0) as [w' Hw'];
      change (trace (snd (try_catch m (ret tt) w0)) = (trace w0 ++ new)%list) in Ht
  end.
  rewrite Hw' in Ht. cbn in Ht. rewrite Hw'. exists w', new.
  split; [reflexivity|]. split; [now rewrite <- Ht0|].
  destruct (fetchMember env (user_id user)); [exact Hf|].
  destruct new as [|x new]; [reflexivity|]. inversion Hf; contradiction.
Qed.

Lemma punishUser_calls_witness :
  let env := Samples.env_with Samples.all_ok (Some Samples.raider_member) AuditEmpty in
  exists w' new,
    punishUser env Samples.guild1 Samples.raider "MASS_BAN" 3 Samples.world_channels
    = (Done tt, w')
    /\ trace w' = new
    /\ Forall (fun x => punish_call DEFAULT_SETTINGS Samples.raider_member (fst x) = true)
         new.
Proof.
  intros env.
  exact (punishUser_calls env Samples.guild1 Samples.raider "MASS_BAN" 3
           Samples.world_channels DEFAULT_SETTINGS Samples.world_channels eq_refl).
Defined.

Lemma remove_each_cases env member roles :
  forall w,
    (exists w',
       remove_each env member roles w = (Done tt, w')
       /\ trace w' = (trace w ++ map (fun r => (RoleRemove (member_id member) (role_id r),
                                                true)) roles)%list
       /\ channels w' = channels w)
    \/ (exists w' done r,
          remove_each env member roles w = (Thrown, w')
          /\ trace w' = (trace w
                         ++ map (fun r => (RoleRemove (member_id member) (role_id r),
                                           true)) done
                         ++ [(RoleRemove (member_id member) (role_id r), false)])%list
          /\ channels w' = channels w).
Proof.
  induction roles as [|r roles IH]; intros w; cbn [remove_each].
  - left. exists w. unfold ret. cbn. now rewrite app_nil_r.
  - unfold bind, perform.
    destruct (platform_ok env (trace w) (RoleRemove (member_id member) (role_id r))).
    + cbn [apply_effect].
      destruct (IH (set_trace (trace w ++ [(RoleRemove (member_id member) (role_id r),
                                             true)])%list w))
        as [(w' & H & Ht & Hc)|(w' & done & r' & H & Ht & Hc)]; rewrite H.
      * left. exists w'. split; [reflexivity|]. cbn in Ht, Hc.
        rewrite Ht, <- app_assoc. auto.
      * right. exists w', (r :: done), r'. split; [reflexivity|]. cbn in Ht, Hc.
        rewrite Ht, <- app_assoc. auto.
    + right. exists (set_trace (trace w ++ [(RoleRemove (member_id member) (role_id r),
                                              false)])%list w), [], r.
      auto.
Qed.

Lemma punish_body_split env guild user reason actionCount settings member :
  (run remove_each env member (List.filter is_dangerous_role (member_roles member)) ;
   after_role_removal env guild user reason actionCount settings member)
  = (let isNight := isNightMode env settings in
     let dangerousRoles := List.filter is_dangerous_role (member_roles member) in
     run remove_each env member dangerousRoles ;
     run match punishmentType settings with
         | Some "BAN" => perform env (MemberBan (member_id member))
         | Some "KICK" => perform env (MemberKick (member_id member))
         | Some "STRIP_ROLES" => perform env (RolesSet (member_id member))
         | _ => ret tt
         end ;
     run (if notifyOwner settings
          then notifyOwner_method env guild user reason actionCount isNight
          else ret tt) ;
     if lockdownOnTrigger settings || (isNight && nightmodeAutoLock settings)
     then initiateServerLockdown env guild reason
     else ret tt).
Proof. reflexivity. Qed.

Lemma emits_after_role_removal env guild user reason actionCount settings member :
  emits (after_role_removal env guild user reason actionCount settings member)
    (fun e => is_role_removal e = false).
Proof.
  unfold after_role_removal. apply emits_bind.
  { assert (Hret : emits (@ret unit tt) (fun e => is_role_removal e = false))
      by apply emits_ret.
    assert (Hp : forall e, is_role_removal e = false ->
                   emits (perform env e) (fun e => is_role_removal e = false))
      by (intros e He; now apply emits_perform).
    repeat match goal with
           | |- context [match ?x with _ => _ end] => destruct x
           end; auto. }
  intros _. apply emits_bind.
  { destruct (notifyOwner settings); [|apply emits_ret].
    unfold notifyOwner_method. apply emits_try; [|apply emits_ret].
    now apply emits_perform. }
  intros _.
  destruct (lockdownOnTrigger settings
            || (isNightMode env settings && nightmodeAutoLock settings));
    [|apply emits_ret].
  eapply emits_mono; [apply emits_lockdown|].
  intros e He. destruct e; cbn in *; try discriminate; reflexivity.
Qed.

(** X9. When the platform refuses the removal of a dangerous role,
    [punishUser] stops there: the run consists of role removals only (the
    ones before the refusal, then the refused one), so the member is not
    banned, kicked or stripped, the owner is not notified, no lockdown
    starts and the channels are as before. *)
Theorem punishUser_stops_on_failed_removal env guild user reason actionCount w :
  exists w' new,
    punishUser env guild user reason actionCount w = (Done tt, w')
    /\ trace w' = (trace w ++ new)%list
    /\ ((exists m r, In (RoleRemove m r, false) new) ->
        Forall (fun x => is_role_removal (fst x) = true) new
        /\ channels w' = channels w).
Proof.
  destruct (getSettings_total env (guild_id guild) w) as (s & w0 & Hs & Ht0 & Hc0 & _).
  unfold punishUser. unfold bind at 1. rewrite Hs. unfold try_catch.
  destruct (fetchMember env (user_id user)) as [member|].
  2:{ exists w0, []. unfold ret. rewrite app_nil_r. split; [reflexivity|].
      split; [now rewrite Ht0|]. intros (m & r & []). }
  destruct (String.eqb (member_id member) (ownerId guild)).
  { exists w0, []. unfold ret. rewrite app_nil_r. split; [reflexivity|].
    split; [now rewrite Ht0|]. intros (m & r & []). }
  rewrite <- punish_body_split. unfold bind at 1.
  destruct (remove_each_cases env member
              (List.filter is_dangerous_role (member_roles member)) w0)
    as [(w1 & H & Ht & Hc)|(w1 & done & r & H & Ht & Hc)]; rewrite H.
  - destruct (emits_after_role_removal env guild user reason actionCount s member w1)
      as (rest & Hr & Hf).
    destruct (after_role_removal env guild user reason actionCount s member w1)
      as [[[]|] w2]; cbn in Hr; unfold ret;
      (eexists; eexists; split; [reflexivity|];
       split; [rewrite Hr, Ht, Ht0, <- app_assoc; reflexivity|]);
      intros (m & r & Hin); exfalso;
      apply in_app_or in Hin as [Hin|Hin];
      [apply in_map_iff in Hin as (? & Heq & _); discriminate
      |apply list_elem_of_In in Hin; rewrite Forall_forall in Hf;
       specialize (Hf _ Hin); discriminate
      |apply in_map_iff in Hin as (? & Heq & _); discriminate
      |apply list_elem_of_In in Hin; rewrite Forall_forall in Hf;
       specialize (Hf _ Hin); discriminate].
  - unfold ret. eexists. eexists. split; [reflexivity|].
    split; [rewrite Ht, Ht0; reflexivity|]. intros _.
    split; [|now rewrite Hc, Hc0].
    apply Forall_app. split; [|repeat constructor].
    apply Forall_forall. intros x Hx. apply list_elem_of_In in Hx.
    apply in_map_iff in Hx as (? & <- & _). reflexivity.
Qed.

Lemma punishUser_stops_on_failed_removal_witness :
  let env := Samples.env_with
               (fun _ e => match e with RoleRemove _ _ => false | _ => true end)
               (Some Samples.raider_member) AuditEmpty in
  exists w' new,
    punishUser env Samples.guild1 Samples.raider "MASS_BAN" 3 Samples.world_channels
    = (Done tt, w')
    /\ trace w' = new
    /\ Forall (fun x => is_role_removal (fst x) = true) new
    /\ channels w' = channels Samples.world_channels.
Proof.
  intros env.
  destruct (punishUser_stops_on_failed_removal env Samples.guild1 Samples.raider
              "MASS_BAN" 3 Samples.world_channels) as (w' & new & H & Ht & Himp).
  exists w', new. split; [exact H|]. split; [exact Ht|].
  apply Himp. exists "user-7", "role-admin".
  assert (Hw : w' = snd (punishUser env Samples.guild1 Samples.raider "MASS_BAN" 3
                           Samples.world_channels)) by (rewrite H; reflexivity).
  cbn in Ht. rewrite <- Ht, Hw. vm_compute. auto.
Defined.

End PunishCalls.

Section Cooperative.

Import AntiNuke.

Lemma mark_edit_send v id ids chs :
  map (mark v ids) (edit_send id v chs) = map (mark v (id :: ids)) chs.
Proof.
  unfold edit_send. rewrite map_map. apply map_ext. intros c. unfold mark. cbn.
  destruct (Nat.eqb (ch_id c) id); cbn; [|reflexivity].
  destruct (existsb (Nat.eqb (ch_id c)) ids); reflexivity.
Qed.

Lemma mark_nil v chs : map (mark v []) chs = chs.
Proof. unfold mark. cbn. apply map_id. Qed.

Lemma edit_each_cooperative env v :
  cooperative env ->
  forall todo w,
  exists w',
    edit_each env v todo w = (Done tt, w')
    /\ channels w' = map (mark v (map ch_id todo)) (channels w)
    /\ trace w' = (trace w ++ map (fun c => (PermEdit (ch_id c) v, true)) todo)%list
    /\ settingsCache w' = settingsCache w
    /\ actionTracker w' = actionTracker w
    /\ db w' = db w.
Proof.
  intros Hco. induction todo as [|c todo IH]; intros w.
  - exists w. cbn. rewrite mark_nil, app_nil_r. repeat split; reflexivity.
  - cbn [edit_each]. unfold bind, perform. rewrite Hco. cbn [apply_effect].
    destruct (IH (set_trace (trace w ++ [(PermEdit (ch_id c) v, true)])%list
                    (set_channels (edit_send (ch_id c) v (channels w)) w)))
      as (w' & H & Hc & Ht & Hs & Hk & Hd).
    rewrite H. exists w'. split; [reflexivity|]. cbn in *.
    rewrite Hc, Ht, mark_edit_send, <- app_assoc. auto.
Qed.

Lemma fresh_id_mark v ids chs : fresh_id (map (mark v ids) chs) = fresh_id chs.
Proof.
  unfold fresh_id. f_equal. f_equal. rewrite map_map. apply map_ext.
  intros c. unfold mark. now destruct (existsb (Nat.eqb (ch_id c)) ids).
Qed.

Lemma mark_text v chs :
  List.NoDup (map ch_id chs) ->
  map (mark v (map ch_id (List.filter ch_textBased chs))) chs
  = map (fun c => if ch_textBased c then set_send v c else c) chs.
Proof.
  intros Hnd. apply map_ext_in. intros c Hc. unfold mark.
  destruct (ch_textBased c) eqn:Ht.
  - assert (H : existsb (Nat.eqb (ch_id c))
                  (map ch_id (List.filter ch_textBased chs)) = true).
    { apply existsb_exists. exists (ch_id c). split; [|apply Nat.eqb_refl].
      apply in_map. apply filter_In. auto. }
    now rewrite H.
  - destruct (existsb (Nat.eqb (ch_id c))
                (map ch_id (List.filter ch_textBased chs))) eqn:H; [|reflexivity].
    apply existsb_exists in H as (i & Hi & Heq). apply Nat.eqb_eq in Heq. subst i.
    apply in_map_iff in Hi as (c' & Hid & Hc'). apply filter_In in Hc' as [Hc' Ht'].
    assert (c' = c) by (eapply NoDup_map_In_inj; eauto). congruence.
Qed.

Lemma lockdown_cooperative env guild reason w settings w0 :
  cooperative env ->
  List.NoDup (map ch_id (channels w)) ->
  getSettings env (guild_id guild) w = (Done settings, w0) ->
  exists w',
    initiateServerLockdown env guild reason w = (Done tt, w')
    /\ channels w'
       = (map (fun c => if ch_textBased c then set_send (Some false) c else c)
            (channels w)
          ++ [mkChannel (fresh_id (channels w))
                (if isNightMode env settings
                 then NIGHT_LOCKDOWN_NAME else SERVER_LOCKDOWN_NAME)
                true None])%list
    /\ trace w'
       = (trace w
          ++ map (fun c => (PermEdit (ch_id c) (Some false), true))
               (List.filter ch_textBased (channels w))
          ++ [(ChannelCreate (if isNightMode env settings
                              then NIGHT_LOCKDOWN_NAME else SERVER_LOCKDOWN_NAME), true);
              (ChannelSend (fresh_id (channels w)), true)])%list.
Proof.
  intros Hco Hnd Hs.
  destruct (getSettings_total env (guild_id guild) w) as (s' & w0' & Hs' & Ht0 & Hc0 & _).
  rewrite Hs in Hs'. inversion Hs'; subst s' w0'. clear Hs'.
  unfold initiateServerLockdown, try_catch. unfold bind at 1. rewrite Hs.
  unfold bind at 1, get_world at 1. unfold bind at 1.
  destruct (edit_each_cooperative env (Some false) Hco
              (List.filter ch_textBased (channels w0)) w0)
    as (w1 & H1 & Hc1 & Ht1 & _).
  rewrite H1. unfold bind at 1, get_world at 1. unfold bind, perform.
  rewrite Hco. cbn [apply_effect trace set_trace]. rewrite Hco.
  eexists. split; [reflexivity|]. cbn [channels trace set_trace set_channels apply_effect].
  rewrite Hc1, Ht1, Hc0, Ht0, fresh_id_mark, (mark_text _ _ Hnd), <- !app_assoc.
  split; reflexivity.
Qed.

(** X10. On a platform that carries out every call, with distinct
    channel identifiers, a lockdown leaves every text-based channel with
    the send permission of the default role denied, leaves the other
    channels as they are, and appends one text channel with the lockdown
    name of the hour (night or day) and a neutral send permission. *)
Theorem initiateServerLockdown_cooperative env guild reason w settings w0 :
  cooperative env ->
  List.NoDup (map ch_id (channels w)) ->
  getSettings env (guild_id guild) w = (Done settings, w0) ->
  exists w',
    initiateServerLockdown env guild reason w = (Done tt, w')
    /\ channels w'
       = (map (fun c => if ch_textBased c then set_send (Some false) c else c)
            (channels w)
          ++ [mkChannel (fresh_id (channels w))
                (if isNightMode env settings
                 then NIGHT_LOCKDOWN_NAME else SERVER_LOCKDOWN_NAME)
                true None])%list
    /\ trace w'
       = (trace w
          ++ map (fun c => (PermEdit (ch_id c) (Some false), true))
               (List.filter ch_textBased (channels w))
          ++ [(ChannelCreate (if isNightMode env settings
                              then NIGHT_LOCKDOWN_NAME else SERVER_LOCKDOWN_NAME), true);
              (ChannelSend (fresh_id (channels w)), true)])%list.
Proof. apply lockdown_cooperative. Qed.

Lemma initiateServerLockdown_cooperative_witness :
  let env := Samples.env_with Samples.all_ok None AuditEmpty in
  exists w',
    initiateServerLockdown env Samples.guild1 "MASS_BAN" Samples.world_channels
    = (Done tt, w')
    /\ map ch_send (channels w') = [Some false; None; Some false; Some false; None].
Proof.
  intros env.
  destruct (initiateServerLockdown_cooperative env Samples.guild1 "MASS_BAN"
              Samples.world_channels DEFAULT_SETTINGS Samples.world_channels)
    as (w' & H & Hc & _).
  - intros history e. reflexivity.
  - vm_compute. repeat constructor; cbn; intuition discriminate.
  - reflexivity.
  - exists w'. split; [exact H|]. rewrite Hc. reflexivity.
Defined.

End Cooperative.

Section StopsAtFailure.

Import AntiNuke.

Lemma stops_ret {A} (a : A) : stops_at_failure (ret a).
Proof. intros w. exists []. cbn. rewrite app_nil_r. auto. Qed.

Lemma stops_perform env e : stops_at_failure (perform env e).
Proof.
  intros w. unfold perform. destruct (platform_ok env (trace w) e); cbn.
  - exists [(e, true)]. split; [reflexivity|]. repeat constructor.
  - exists [(e, false)]. split; [reflexivity|]. exists [], e. auto.
Qed.

Lemma stops_bind {A B} (m : M A) (k : A -> M B) :
  stops_at_failure m -> (forall a, stops_at_failure (k a)) ->
  stops_at_failure (bind m k).
Proof.
  intros Hm Hk w. unfold bind. destruct (Hm w) as (n1 & H1 & F1).
  destruct (m w) as [[a|] w1]; cbn in H1, F1.
  - destruct (Hk a w1) as (n2 & H2 & F2). exists (n1 ++ n2)%list.
    rewrite H2, H1, app_assoc. split; [reflexivity|].
    destruct (fst (k a w1)).
    + now apply Forall_app.
    + destruct F2 as (done & e & -> & Fd). exists (n1 ++ done)%list, e.
      rewrite app_assoc. split; [reflexivity|]. now apply Forall_app.
  - exists n1. auto.
Qed.

Lemma stops_get_world : stops_at_failure get_world.
Proof. intros w. exists []. cbn. rewrite app_nil_r. auto. Qed.

Lemma stops_edit_each env v chans : stops_at_failure (edit_each env v chans).
Proof.
  induction chans as [|c chans IH]; cbn [edit_each]; [apply stops_ret|].
  apply stops_bind; [apply stops_perform|intros _; exact IH].
Qed.

Lemma stops_unlock_each env chans : stops_at_failure (unlock_each env chans).
Proof.
  induction chans as [|c chans IH]; cbn [unlock_each]; [apply stops_ret|].
  apply stops_bind; [|intros _; exact IH].
  destruct (is_lockdown_name (ch_name c)); apply stops_perform.
Qed.

(** X11. [unlockServer] never throws.  It returns true exactly when
    every call it attempted was carried out; when a deletion or a
    permission edit is refused it stops at that call and returns false, so
    the channels that come after it stay locked. *)
Theorem unlockServer_stops_at_failure env guild w :
  exists b w' new,
    unlockServer env guild w = (Done b, w')
    /\ trace w' = (trace w ++ new)%list
    /\ (b = true -> Forall (fun x => snd x = true) new)
    /\ (b = false ->
        exists done e,
          new = (done ++ [(e, false)])%list /\ Forall (fun x => snd x = true) done).
Proof.
  unfold unlockServer, try_catch. unfold bind at 1, get_world at 1. unfold bind.
  destruct (stops_unlock_each env (List.filter ch_textBased (channels w)) w)
    as (new & Ht & Hf).
  destruct (unlock_each env (List.filter ch_textBased (channels w)) w) as [[[]|] w'];
    cbn in Ht, Hf; unfold ret.
  - exists true, w', new. repeat split; auto. discriminate.
  - exists false, w', new. repeat split; auto. discriminate.
Qed.

Lemma unlockServer_stops_at_failure_witness :
  let env := Samples.env_with
               (fun _ e => match e with PermEdit 3 _ => false | _ => true end)
               None AuditEmpty in
  exists w' done e,
    unlockServer env Samples.guild1 Samples.world_locked = (Done false, w')
    /\ trace w' = (trace Samples.world_locked ++ done ++ [(e, false)])%list.
Proof.
  intros env.
  destruct (unlockServer_stops_at_failure env Samples.guild1 Samples.world_locked)
    as (b & w' & new & H & Ht & _ & Hfalse).
  assert (Hb : b = false).
  { assert (Hv : fst (unlockServer env Samples.guild1 Samples.world_locked) = Done false)
      by (vm_compute; reflexivity).
    rewrite H in Hv. cbn in Hv. now inversion Hv. }
  destruct (Hfalse Hb) as (done & e & -> & _).
  exists w', done, e. subst b. auto.
Defined.

End StopsAtFailure.

Section LockdownFailure.

Import AntiNuke.

Lemma edit_each_length env v chans :
  forall w, length (channels (snd (edit_each env v chans w))) = length (channels w).
Proof.
  induction chans as [|c chans IH]; intros w; cbn [edit_each]; [reflexivity|].
  unfold bind, perform. destruct (platform_ok env (trace w) (PermEdit (ch_id c) v)).
  - rewrite IH. cbn. unfold edit_send. apply length_map.
  - reflexivity.
Qed.

(** X12. When the platform refuses one of the permission edits of a
    lockdown, the lockdown ends there without an error: the run consists
    of permission edits only, so no announcement channel is created, no
    message is sent and the guild has as many channels as before. *)
Theorem initiateServerLockdown_refused_edit env guild reason w :
  exists w' new,
    initiateServerLockdown env guild reason w = (Done tt, w')
    /\ trace w' = (trace w ++ new)%list
    /\ ((exists id v, In (PermEdit id v, false) new) ->
        Forall (fun x => is_perm_edit (fst x) = true) new
        /\ length (channels w') = length (channels w)).
Proof.
  destruct (getSettings_total env (guild_id guild) w) as (s & w0 & Hs & Ht0 & Hc0 & _).
  unfold initiateServerLockdown, try_catch. unfold bind at 1. rewrite Hs.
  unfold bind at 1, get_world at 1. unfold bind at 1.
  pose proof (edit_each_length env (Some false)
                (List.filter ch_textBased (channels w0)) w0) as Hlen.
  destruct (stops_edit_each env (Some false)
              (List.filter ch_textBased (channels w0)) w0) as (n1 & Ht1 & Hf1).
  destruct (emits_edit_each env (Some false)
              (List.filter ch_textBased (channels w0)) w0) as (n1' & Ht1' & He1).
  rewrite Ht1 in Ht1'. apply app_inv_head in Ht1'. subst n1'.
  destruct (edit_each env (Some false) (List.filter ch_textBased (channels w0)) w0)
    as [[[]|] w1]; cbn in Ht1, Hf1, Hlen.
  - unfold bind at 1, get_world at 1. unfold bind, perform.
    assert (Hno : forall rest,
               Forall (fun x => is_perm_edit (fst x) = false) rest ->
               ~ exists id v, In (PermEdit id v, false) (n1 ++ rest)).
    { intros rest Hr (id & v & Hin). apply in_app_or in Hin as [Hin|Hin].
      - apply list_elem_of_In in Hin. rewrite Forall_forall in Hf1.
        specialize (Hf1 _ Hin). discriminate.
      - apply list_elem_of_In in Hin. rewrite Forall_forall in Hr.
        specialize (Hr _ Hin). discriminate. }
    match goal with
    | |- context [platform_ok env (trace w1) ?e] =>
        destruct (platform_ok env (trace w1) e) eqn:Hok1
    end; cbn [trace set_trace apply_effect].
    + match goal with
      | |- context [platform_ok env ?t (ChannelSend ?i)] =>
          destruct (platform_ok env t (ChannelSend i)) eqn:Hok2
      end;
        unfold ret; (eexists; eexists; split; [reflexivity|]);
        cbn [trace set_trace]; rewrite Ht1, Ht0, <- ?app_assoc;
        (split; [reflexivity|]); intros Hbad; exfalso;
        (eapply Hno; [|exact Hbad]); repeat constructor.
    + unfold ret; (eexists; eexists; split; [reflexivity|]);
        cbn [trace set_trace]; rewrite Ht1, Ht0, <- ?app_assoc;
        (split; [reflexivity|]); intros Hbad; exfalso;
        (eapply Hno; [|exact Hbad]); repeat constructor.
  - unfold ret. exists w1, n1. split; [reflexivity|].
    split; [now rewrite Ht1, Ht0|]. intros _. split; [|now rewrite Hlen, Hc0].
    eapply Forall_impl; [exact He1|]. intros x [id ->]. reflexivity.
Qed.

Lemma initiateServerLockdown_refused_edit_witness :
  let env := Samples.env_with
               (fun _ e => match e with PermEdit 3 _ => false | _ => true end)
               None AuditEmpty in
  exists w' new,
    initiateServerLockdown env Samples.guild1 "MASS_BAN" Samples.world_channels
    = (Done tt, w')
    /\ trace w' = new
    /\ Forall (fun x => is_perm_edit (fst x) = true) new
    /\ length (channels w') = 4%nat.
Proof.
  intros env.
  destruct (initiateServerLockdown_refused_edit env Samples.guild1 "MASS_BAN"
              Samples.world_channels) as (w' & new & H & Ht & Himp).
  exists w', new. split; [exact H|]. split; [exact Ht|].
  apply Himp. exists 3%nat, (Some false).
  assert (Hw : w' = snd (initiateServerLockdown env Samples.guild1 "MASS_BAN"
                           Samples.world_channels)) by (rewrite H; reflexivity).
  cbn in Ht. rewrite <- Ht, Hw. vm_compute. auto.
Defined.

End LockdownFailure.

Section RoundTrip.

Import AntiNuke.

Lemma filter_delete ids id chs :
  List.filter (not_among ids) (delete_channel id chs)
  = List.filter (not_among (id :: ids)) chs.
Proof.
  unfold delete_channel, not_among.
  induction chs as [|c chs IH]; cbn; [reflexivity|].
  destruct (Nat.eqb (ch_id c) id); cbn; [exact IH|].
  destruct (existsb (Nat.eqb (ch_id c)) ids); cbn; now rewrite IH.
Qed.

Lemma filter_edit ids id v chs :
  List.filter (not_among ids) (edit_send id v chs)
  = edit_send id v (List.filter (not_among ids) chs).
Proof.
  unfold edit_send, not_among.
  induction chs as [|c chs IH]; cbn; [reflexivity|].
  assert (Hid : ch_id (if Nat.eqb (ch_id c) id then set_send v c else c) = ch_id c)
    by (destruct (Nat.eqb (ch_id c) id); reflexivity).
  rewrite Hid. destruct (existsb (Nat.eqb (ch_id c)) ids); cbn; now rewrite IH.
Qed.

Lemma unlock_each_cooperative env :
  cooperative env ->
  forall todo w,
  exists w',
    unlock_each env todo w = (Done tt, w')
    /\ channels w'
       = map (mark None
                (map ch_id (List.filter (fun c => negb (is_lockdown_name (ch_name c)))
                              todo)))
           (List.filter
              (not_among
                 (map ch_id (List.filter (fun c => is_lockdown_name (ch_name c)) todo)))
              (channels w)).
Proof.
  intros Hco. induction todo as [|t todo IH]; intros w.
  - exists w. cbn. split; [reflexivity|].
    rewrite mark_nil. symmetry. apply forallb_filter_id.
    apply forallb_forall. intros; reflexivity.
  - cbn [unlock_each]. unfold bind.
    destruct (is_lockdown_name (ch_name t)) eqn:Hn; unfold perform; rewrite Hco;
      cbn [apply_effect List.filter negb]; rewrite Hn; cbn [negb map].
    + destruct (IH (set_trace (trace w ++ [(ChannelDelete (ch_id t), true)])%list
                      (set_channels (delete_channel (ch_id t) (channels w)) w)))
        as (w' & H & Hc).
      rewrite H. exists w'. split; [reflexivity|]. rewrite Hc. cbn [channels set_trace
        set_channels]. now rewrite filter_delete.
    + destruct (IH (set_trace (trace w ++ [(PermEdit (ch_id t) None, true)])%list
                      (set_channels (edit_send (ch_id t) None (channels w)) w)))
        as (w' & H & Hc).
      rewrite H. exists w'. split; [reflexivity|]. rewrite Hc. cbn [channels set_trace
        set_channels]. now rewrite filter_edit, mark_edit_send.
Qed.

Lemma id_lt_fresh chs c : In c chs -> (ch_id c < fresh_id chs)%nat.
Proof.
  unfold fresh_id. induction chs as [|d chs IH]; cbn; [tauto|].
  intros [->|Hin]; [lia|]. specialize (IH Hin). lia.
Qed.

Lemma filter_not_among_fresh chs ann :
  ch_id ann = fresh_id chs ->
  forall f, (forall c, ch_id (f c) = ch_id c) ->
  List.filter (not_among [fresh_id chs]) (map f chs ++ [ann]) = map f chs.
Proof.
  intros Hann f Hf. rewrite List.filter_app. cbn. unfold not_among at 2. cbn.
  rewrite Hann, Nat.eqb_refl. cbn. rewrite app_nil_r.
  apply forallb_filter_id. apply forallb_forall. intros x Hx.
  apply in_map_iff in Hx as (c & <- & Hc). unfold not_among. cbn.
  rewrite Hf. pose proof (id_lt_fresh chs c Hc) as Hlt.
  destruct (Nat.eqb (ch_id c) (fresh_id chs)) eqn:E; [|reflexivity].
  apply Nat.eqb_eq in E. lia.
Qed.

(** X13. Lockdown followed by unlock, on a platform that carries out
    every call, in a guild with distinct channel identifiers and no
    text-based channel that already bears a lockdown name: the unlock
    returns true, the announcement channel is gone, every text-based
    channel ends with a neutral send permission (whatever it was before the
    lockdown) and every other channel is unchanged. *)
Theorem lockdown_unlock_roundtrip env env' guild reason w :
  cooperative env -> cooperative env' ->
  List.NoDup (map ch_id (channels w)) ->
  (forall c, In c (channels w) -> ch_textBased c = true ->
             is_lockdown_name (ch_name c) = false) ->
  exists w1 w2,
    initiateServerLockdown env guild reason w = (Done tt, w1)
    /\ unlockServer env' guild w1 = (Done true, w2)
    /\ channels w2 = map unlocked (channels w).
Proof.
  intros Hco Hco' Hnd Hnames.
  destruct (getSettings_total env (guild_id guild) w) as (s & w0 & Hs & _).
  destruct (lockdown_cooperative env guild reason w s w0 Hco Hnd Hs)
    as (w1 & H1 & Hc1 & _).
  fold locked in Hc1. change (fun c => locked c) with locked in Hc1.
  set (name := if isNightMode env s then NIGHT_LOCKDOWN_NAME else SERVER_LOCKDOWN_NAME)
    in Hc1.
  set (ann := mkChannel (fresh_id (channels w)) name true None) in Hc1.
  assert (Hname : is_lockdown_name name = true)
    by (unfold name; destruct (isNightMode env s); apply is_lockdown_name_names).
  exists w1. unfold unlockServer, try_catch. unfold bind at 1, get_world at 1.
  unfold bind.
  destruct (unlock_each_cooperative env' Hco'
              (List.filter ch_textBased (channels w1)) w1) as (w2 & H2 & Hc2).
  rewrite H2. exists w2. split; [exact H1|]. split; [reflexivity|].
  rewrite Hc2, Hc1. clear Hc2 H2 H1.
  assert (Htodo : List.filter ch_textBased (map locked (channels w) ++ [ann])
                  = (List.filter ch_textBased (map locked (channels w)) ++ [ann])%list)
    by (rewrite List.filter_app; reflexivity).
  rewrite Htodo, !List.filter_app. cbn [List.filter ch_name ann]. rewrite Hname.
  cbn [negb app].
  assert (Hnone : List.filter (fun c => is_lockdown_name (ch_name c))
                    (List.filter ch_textBased (map locked (channels w))) = []).
  { apply filter_none. apply Forall_forall. intros x Hx. apply list_elem_of_In in Hx.
    apply filter_In in Hx as [Hx Ht]. apply in_map_iff in Hx as (c & <- & Hc).
    unfold locked in *. destruct (ch_textBased c) eqn:E; cbn in *;
      [now apply Hnames|congruence]. }
  rewrite Hnone. cbn [app map ch_id ann]. rewrite app_nil_r.
  assert (Hall : List.filter (fun c => negb (is_lockdown_name (ch_name c)))
                   (List.filter ch_textBased (map locked (channels w)))
                 = List.filter ch_textBased (map locked (channels w))).
  { apply forallb_filter_id. apply forallb_forall. intros x Hx.
    apply filter_In in Hx as [Hx Ht]. apply in_map_iff in Hx as (c & <- & Hc).
    unfold locked in *. destruct (ch_textBased c) eqn:E; cbn in *;
      [now rewrite (Hnames c Hc E)|congruence]. }
  rewrite Hall.
  assert (Hf : List.filter (not_among [fresh_id (channels w)])
                 (map locked (channels w) ++ [ann]) = map locked (channels w)).
  { apply (filter_not_among_fresh (channels w) ann eq_refl locked).
    intros c. unfold locked. now destruct (ch_textBased c). }
  rewrite List.filter_app in Hf. cbn [List.filter] in Hf. rewrite Hf.
  rewrite map_map. apply map_ext_in. intros c Hc. unfold mark, unlocked.
  destruct (ch_textBased c) eqn:Ht.
  - assert (Hin : existsb (Nat.eqb (ch_id (locked c)))
                    (map ch_id (List.filter ch_textBased (map locked (channels w))))
                  = true).
    { apply existsb_exists. exists (ch_id (locked c)). split; [|apply Nat.eqb_refl].
      apply in_map. apply filter_In. split; [now apply in_map|].
      unfold locked. now rewrite Ht. }
    rewrite Hin. unfold locked. now rewrite Ht.
  - assert (Hout : existsb (Nat.eqb (ch_id (locked c)))
                     (map ch_id (List.filter ch_textBased (map locked (channels w))))
                   = false).
    { destruct (existsb _ _) eqn:E; [|reflexivity].
      apply existsb_exists in E as (i & Hi & Heq). apply Nat.eqb_eq in Heq.
      apply in_map_iff in Hi as (x & Hid & Hx). apply filter_In in Hx as [Hx Hxt].
      apply in_map_iff in Hx as (c' & <- & Hc').
      assert (Hid' : ch_id c' = ch_id c).
      { unfold locked in Hid, Heq. destruct (ch_textBased c'), (ch_textBased c);
          cbn in *; congruence. }
      assert (c' = c) by (eapply NoDup_map_In_inj; eauto). subst c'.
      unfold locked in Hxt. rewrite Ht in Hxt. congruence. }
    rewrite Hout. unfold locked. now rewrite Ht.
Qed.

Lemma lockdown_unlock_roundtrip_witness :
  let env := Samples.env_with Samples.all_ok None AuditEmpty in
  exists w1 w2,
    initiateServerLockdown env Samples.guild1 "MASS_BAN" Samples.world_channels
    = (Done tt, w1)
    /\ unlockServer env Samples.guild1 w1 = (Done true, w2)
    /\ map ch_send (channels w2) = [None; None; None; None].
Proof.
  intros env.
  destruct (lockdown_unlock_roundtrip env env Samples.guild1 "MASS_BAN"
              Samples.world_channels) as (w1 & w2 & H1 & H2 & Hc).
  - intros history e. reflexivity.
  - intros history e. reflexivity.
  - vm_compute. repeat constructor; cbn; intuition discriminate.
  - vm_compute. intros c Hc Ht. intuition (subst; try discriminate; reflexivity).
  - exists w1, w2. split; [exact H1|]. split; [exact H2|]. rewrite Hc. reflexivity.
Defined.

End RoundTrip.

Section CountedPaths.

Import AntiNuke.

Lemma trackAction_silent env g u a w :
  trace (snd (trackAction env g u a w)) = trace w
  /\ channels (snd (trackAction env g u a w)) = channels w.
Proof.
  unfold trackAction, bind, get_world, ret.
  destruct (actionTracker w !! tracker_key g u a); cbn.
  - destruct (getSettings_total env g w) as (s & w' & H & Ht & Hc & _).
    rewrite H. cbn. auto.
  - match goal with
    | |- context [getSettings env g ?w1] =>
        destruct (getSettings_total env g w1) as (s & w' & H & Ht & Hc & _)
    end.
    rewrite H. cbn. cbn in Ht, Hc. auto.
Qed.

(** X14. A rate-limited handler drops an event it cannot use: with a
    disabled policy, when the audit log cannot be fetched, has no entry or
    names no executor, or when the entry is about another target, the
    handler returns after the load of the policy; no counter changes and
    no call is attempted. *)
Theorem handleCountedAction_drops env guild limitType actionType reason eventType
    severity target_matches undo w s w0 :
  getSettings env (guild_id guild) w = (Done s, w0) ->
  enabled s = false
  \/ auditLog env = AuditThrows
  \/ auditLog env = AuditEmpty
  \/ (exists executor target,
        auditLog env = AuditEntry executor target
        /\ (target_matches target = false \/ executor = None)) ->
  handleCountedAction env guild limitType actionType reason eventType severity
    target_matches undo w = (Done tt, w0)
  /\ actionTracker w0 = actionTracker w
  /\ trace w0 = trace w
  /\ channels w0 = channels w.
Proof.
  intros Hs Hdrop.
  destruct (getSettings_total env (guild_id guild) w) as (s' & w0' & Hs' & Ht & Hc & Hk).
  rewrite Hs in Hs'. inversion Hs'; subst s' w0'. clear Hs'.
  split; [|auto].
  unfold handleCountedAction. unfold bind at 1. rewrite Hs.
  destruct (enabled s) eqn:Hen; cbn [negb]; [|reflexivity].
  destruct Hdrop as [Hd|[Hd|[Hd|(executor & target & Hd & Hwhy)]]];
    [discriminate| | |]; unfold try_catch; rewrite Hd; try reflexivity.
  destruct Hwhy as [-> | ->]; cbn [negb]; [reflexivity|].
  destruct (target_matches target); reflexivity.
Qed.

Lemma handleCountedAction_drops_witness :
  let env := Samples.env_with Samples.all_ok (Some Samples.raider_member)
               (AuditEntry (Some Samples.raider) (Some "someone-else")) in
  handleMemberRemove env (mkGuildMemberRemove Samples.guild1 Samples.raider_member)
    Samples.world_burst = (Done tt, Samples.world_burst).
Proof.
  intros env.
  refine (proj1 (handleCountedAction_drops env Samples.guild1 LKick
                   "KICK" "MASS_KICK" "MASS_KICK" (fun _ => "HIGH") _ (ret tt)
                   Samples.world_burst DEFAULT_SETTINGS Samples.world_burst
                   eq_refl _)).
  right. right. right. exists (Some Samples.raider), (Some "someone-else").
  split; [reflexivity|]. left. reflexivity.
Defined.

(** X15. While the count of an actor stays below the limit in force, a
    rate-limited handler only counts the action and attempts the write of
    one security event that carries the count, the limit and the night
    flag: nothing is punished, nothing is reversed and the channels are as
    before. *)
Theorem handleCountedAction_below_limit env guild limitType actionType reason
    eventType severity target_matches undo executor target w s w0 w1 count w2 :
  auditLog env = AuditEntry (Some executor) target ->
  target_matches target = true ->
  getSettings env (guild_id guild) w = (Done s, w0) ->
  enabled s = true ->
  isWhitelisted env (guild_id guild) (user_id executor) w0 = (Done false, w1) ->
  trackAction env (guild_id guild) (user_id executor) actionType w1 = (Done count, w2) ->
  JS.ge (Some count) (getEffectiveLimit env s limitType) = false ->
  let record :=
    SecurityLog eventType (user_id executor) (severity false) count
      (getEffectiveLimit env s limitType) (isNightMode env s) in
  handleCountedAction env guild limitType actionType reason eventType severity
    target_matches undo w
  = (Done tt,
     set_trace (trace w2 ++ [(record, platform_ok env (trace w2) record)]) w2)
  /\ trace w2 = trace w
  /\ channels w2 = channels w.
Proof.
  intros Ha Htg Hs Hen Hw Hc Hlim record.
  destruct (getSettings_total env (guild_id guild) w) as (s' & w0' & Hs' & Ht0 & Hc0 & _).
  rewrite Hs in Hs'. inversion Hs'; subst s' w0'. clear Hs'.
  destruct (isWhitelisted_loaded env (guild_id guild) (user_id executor) s w w0 Hs)
    as [b Hb].
  rewrite Hb in Hw. inversion Hw; subst b w1. clear Hw.
  assert (Htr : trace w2 = trace w0 /\ channels w2 = channels w0).
  { pose proof (trackAction_silent env (guild_id guild) (user_id executor)
                  actionType w0) as Hsil.
    rewrite Hc in Hsil. exact Hsil. }
  split.
  - unfold handleCountedAction. unfold bind at 1. rewrite Hs, Hen.
    cbn [negb]. unfold try_catch at 1. rewrite Ha, Htg. cbn [negb].
    unfold bind at 1. rewrite Hb. unfold bind at 1. rewrite Hc, Hlim.
    unfold bind at 1, ret at 1.
    unfold try_catch, logSecurityEvent, perform. fold record.
    destruct (platform_ok env (trace w2) record); reflexivity.
  - destruct Htr as [-> ->]. auto.
Qed.

Lemma handleCountedAction_below_limit_witness :
  let env := Samples.env_with Samples.all_ok (Some Samples.raider_member)
               (AuditEntry (Some Samples.raider) None) in
  exists w',
    handleBan env (mkGuildBan Samples.guild1 (mkUser "user-9" "victim#0009"))
      Samples.world_defaults = (Done tt, w')
    /\ trace w' = [(SecurityLog "MASS_BAN" "user-7" "CRITICAL" 1 (Some 3) false, true)].
Proof.
  intros env.
  pose (w2 := snd (trackAction env "guild-1" "user-7" "BAN" Samples.world_defaults)).
  assert (H : handleBan env (mkGuildBan Samples.guild1 (mkUser "user-9" "victim#0009"))
                Samples.world_defaults
              = (Done tt,
                 set_trace
                   (trace w2 ++
                    [(SecurityLog "MASS_BAN" "user-7" "CRITICAL" 1 (Some 3) false,
                      true)])%list w2)).
  { apply (proj1 (handleCountedAction_below_limit env Samples.guild1 LBan
                    "BAN" "MASS_BAN" "MASS_BAN" (fun _ => "CRITICAL") any_target
                    (perform env (MemberUnban "user-9")) Samples.raider None
                    Samples.world_defaults DEFAULT_SETTINGS Samples.world_defaults
                    Samples.world_defaults 1 w2
                    eq_refl eq_refl eq_refl eq_refl
                    ltac:(vm_compute; reflexivity) ltac:(vm_compute; reflexivity)
                    eq_refl)). }
  eexists. split; [exact H|]. vm_compute. reflexivity.
Defined.

Lemma punishUser_total env guild user reason actionCount w :
  exists w', punishUser env guild user reason actionCount w = (Done tt, w').
Proof.
  unfold punishUser. unfold bind.
  destruct (getSettings_total env (guild_id guild) w) as (s & w0 & Hs & _).
  rewrite Hs. apply try_unit_total.
Qed.

(** X16. When an action triggers punishment and the reversal that
    follows throws (the deletion of the created channel or role, the
    unban, the deletion of a webhook), the handler completes without
    writing a security event: the state it leaves is the state at the
    throw, with the punishment applied and no audit record of it. *)
Theorem handleCountedAction_failed_reversal_unlogged env guild limitType actionType
    reason eventType severity target_matches undo executor target
    w s w0 w1 count w2 w3 w4 :
  auditLog env = AuditEntry (Some executor) target ->
  target_matches target = true ->
  getSettings env (guild_id guild) w = (Done s, w0) ->
  enabled s = true ->
  isWhitelisted env (guild_id guild) (user_id executor) w0 = (Done false, w1) ->
  trackAction env (guild_id guild) (user_id executor) actionType w1 = (Done count, w2) ->
  JS.ge (Some count) (getEffectiveLimit env s limitType) = true ->
  punishUser env guild executor reason count w2 = (Done tt, w3) ->
  undo w3 = (Thrown, w4) ->
  handleCountedAction env guild limitType actionType reason eventType severity
    target_matches undo w = (Done tt, w4).
Proof.
  intros Ha Htg Hs Hen Hw Hc Hlim Hp Hu.
  unfold handleCountedAction. unfold bind at 1. rewrite Hs, Hen.
  cbn [negb]. unfold try_catch at 1. rewrite Ha, Htg. cbn [negb].
  unfold bind at 1. rewrite Hw. unfold bind at 1. rewrite Hc, Hlim.
  unfold bind at 1. unfold bind at 1. rewrite Hp, Hu. reflexivity.
Qed.

Lemma handleCountedAction_failed_reversal_unlogged_witness :
  let env := Samples.env_with
               (fun _ e => match e with ChannelDelete _ => false | _ => true end)
               (Some Samples.raider_member) (AuditEntry (Some Samples.raider) None) in
  let w := mkWorld {[ "guild-1-user-7-CHANNEL_CREATE" := [100; 200; 300; 400] ]}
             {[ "guild-1" := DEFAULT_SETTINGS ]} ∅ [Samples.lounge] [] in
  exists w',
    handleChannelCreate env (mkGuildChannel (Some Samples.guild1) Samples.lounge) w
    = (Done tt, w')
    /\ In (MemberBan "user-7", true) (trace w')
    /\ In (ChannelDelete 4, false) (trace w')
    /\ audit_records w' = []
    /\ Forall (fun x => match fst x with SecurityLog _ _ _ _ _ _ => False | _ => True end)
         (trace w').
Proof.
  intros env w.
  pose (w2 := snd (trackAction env "guild-1" "user-7" "CHANNEL_CREATE" w)).
  pose (w3 := snd (punishUser env Samples.guild1 Samples.raider "CHANNEL_CREATE" 5 w2)).
  pose (w4 := snd (perform env (ChannelDelete 4) w3)).
  assert (H : handleChannelCreate env (mkGuildChannel (Some Samples.guild1)
                                         Samples.lounge) w = (Done tt, w4)).
  { apply (handleCountedAction_failed_reversal_unlogged env Samples.guild1
             LChannelCreate "CHANNEL_CREATE" "CHANNEL_CREATE" "CHANNEL_CREATE"
             (fun reached : bool => if reached then "CRITICAL" else "MEDIUM")
             any_target (perform env (ChannelDelete 4)) Samples.raider None
             w DEFAULT_SETTINGS w w 5 w2 w3 w4);
      vm_compute; reflexivity. }
  exists w4. split; [exact H|]. vm_compute. intuition. repeat constructor.
Defined.

End CountedPaths.

Section Store.

(** X17. Writing and reading the stored policy: with the store up, an
    update returns the row of the guild (the default row when there was
    none) with the updates applied from left to right, a read that follows
    returns that row, the rows of other guilds and the cache of the engine
    are untouched; when the store is not up the update throws and the rows
    are as before. *)
Theorem updateAntiNukeSettings_then_get env env' g updates w :
  (dbStatus env = DbUp ->
   dbStatus env' = DbUp ->
   let r' := foldl apply_update (default DEFAULT_ROW (db w !! g)) updates in
   exists w1,
     updateAntiNukeSettings env g updates w = (Done r', w1)
     /\ getAntiNukeSettings env' g w1 = (Done (Some r'), w1)
     /\ (forall g', g' <> g -> db w1 !! g' = db w !! g')
     /\ settingsCache w1 = settingsCache w)
  /\ (dbStatus env <> DbUp ->
      exists w1, updateAntiNukeSettings env g updates w = (Thrown, w1) /\ db w1 = db w).
Proof.
  unfold updateAntiNukeSettings, bind, getAntiNukeSettings, createDefaultAntiNukeSettings.
  split.
  - cbv zeta. intros Hd Hd'. rewrite Hd.
    destruct (db w !! g) as [r|] eqn:Hr; cbn; rewrite ?Hr, ?lookup_insert_eq, ?Hd';
      cbn; eexists; (split; [reflexivity|]); cbn; rewrite ?lookup_insert_eq;
      (split; [reflexivity|]); (split; [|reflexivity]); intros g' Hg';
      rewrite ?lookup_insert_ne by congruence; reflexivity.
  - intros Hd. destruct (dbStatus env); [contradiction| |]; cbn; eauto.
Qed.

Lemma updateAntiNukeSettings_then_get_witness :
  exists w1,
    updateAntiNukeSettings (Samples.env_at 0 12) "guild-1"
      [SetBanLimit 1; SetPunishmentType "KICK"] Samples.world_booted
    = (Done (foldl apply_update DEFAULT_ROW [SetBanLimit 1; SetPunishmentType "KICK"]), w1)
    /\ getAntiNukeSettings (Samples.env_at 5 12) "guild-1" w1
       = (Done (Some (foldl apply_update DEFAULT_ROW
                        [SetBanLimit 1; SetPunishmentType "KICK"])), w1).
Proof.
  destruct (proj1 (updateAntiNukeSettings_then_get (Samples.env_at 0 12)
                     (Samples.env_at 5 12) "guild-1"
                     [SetBanLimit 1; SetPunishmentType "KICK"] Samples.world_booted)
              eq_refl eq_refl) as (w1 & H1 & H2 & _).
  exists w1. split; [exact H1|exact H2].
Defined.

End Store.

Section ActionCalls.

Import Actions.

#[local] Arguments handleDelete : simpl never.
#[local] Arguments handleMute : simpl never.
#[local] Arguments handleKick : simpl never.
#[local] Arguments handleWarn : simpl never.
#[local] Arguments handleCaptchaRequired : simpl never.

(** The [switch] of [executeAction], as a chain of comparisons. *)
Lemma executeAction_dispatch env message member recommended_action reasoning
    detected_categories :
  executeAction env message member recommended_action reasoning detected_categories
  = try_catch
      (match recommended_action with
       | None => ret "ALLOW"
       | Some a =>
           if String.eqb a "ALLOW" then ret "ALLOW"
           else if String.eqb a "CAPTCHA"
           then run handleCaptchaRequired env message member reasoning ; ret "CAPTCHA"
           else if String.eqb a "WARN"
           then run handleWarn env message reasoning detected_categories ; ret "WARN"
           else if String.eqb a "DELETE"
           then run handleDelete env message reasoning detected_categories ; ret "DELETE"
           else if String.eqb a "MUTE"
           then run handleMute env message member reasoning detected_categories ;
                ret "MUTE"
           else if String.eqb a "KICK"
           then run handleKick env message member reasoning detected_categories ;
                ret "KICK"
           else ret "ALLOW"
       end)
      (ret "ERROR").
Proof.
  unfold executeAction. f_equal. destruct recommended_action as [a|]; [|reflexivity].
  repeat (match goal with
          | |- context [match ?x with _ => _ end] => is_var x; destruct x
          end; cbn [String.eqb Ascii.eqb Bool.eqb]; try reflexivity).
Qed.

Lemma run_unit_total (m : M unit) (a : string) w :
  (exists w', m w = (Done tt, w')) ->
  exists w', try_catch (run m ; ret a) (ret "ERROR") w = (Done a, w').
Proof.
  intros (w' & H). unfold try_catch, bind, ret. rewrite H. eauto.
Qed.

(** X18. [executeAction] never returns ["ERROR"]: for one of the six
    action names it runs the handler and returns the name, for anything
    else (also a missing action) it returns ["ALLOW"] and leaves the state
    as it is. *)
Theorem executeAction_result env message member recommended_action reasoning
    detected_categories w :
  exists w',
    executeAction env message member recommended_action reasoning detected_categories w
    = (Done (executed_action recommended_action), w')
    /\ executed_action recommended_action <> "ERROR"
    /\ (executed_action recommended_action = "ALLOW" -> w' = w).
Proof.
  rewrite executeAction_dispatch.
  destruct recommended_action as [a|]; [|exists w; repeat split; discriminate].
  unfold executed_action, action_names. cbn [existsb].
  destruct (String.eqb a "ALLOW") eqn:E0.
  { apply String.eqb_eq in E0. subst a. exists w. repeat split. discriminate. }
  destruct (String.eqb a "CAPTCHA") eqn:E1.
  { apply String.eqb_eq in E1. subst a. cbn [orb].
    destruct (run_unit_total (handleCaptchaRequired env message member reasoning)
                "CAPTCHA" w) as (w' & H); [apply try_unit_total|].
    exists w'. split; [exact H|]. split; discriminate. }
  destruct (String.eqb a "WARN") eqn:E2.
  { apply String.eqb_eq in E2. subst a. cbn [orb].
    destruct (run_unit_total (handleWarn env message reasoning detected_categories)
                "WARN" w) as (w' & H); [apply try_unit_total|].
    exists w'. split; [exact H|]. split; discriminate. }
  destruct (String.eqb a "DELETE") eqn:E3.
  { apply String.eqb_eq in E3. subst a. cbn [orb].
    destruct (run_unit_total (handleDelete env message reasoning detected_categories)
                "DELETE" w) as (w' & H); [apply handleDelete_total|].
    exists w'. split; [exact H|]. split; discriminate. }
  destruct (String.eqb a "MUTE") eqn:E4.
  { apply String.eqb_eq in E4. subst a. cbn [orb].
    destruct (run_unit_total
                (handleMute env message member reasoning detected_categories) "MUTE" w)
      as (w' & H); [apply handleMute_total|].
    exists w'. split; [exact H|]. split; discriminate. }
  destruct (String.eqb a "KICK") eqn:E5.
  { apply String.eqb_eq in E5. subst a. cbn [orb].
    destruct (run_unit_total
                (handleKick env message member reasoning detected_categories) "KICK" w)
      as (w' & H); [apply handleKick_total|].
    exists w'. split; [exact H|]. split; discriminate. }
  cbn [orb]. exists w. repeat split. discriminate.
Qed.

Lemma emits_dm env tier reasoning categories (P : Effect -> Prop) :
  P (AuthorDM tier) -> emits (dm env tier reasoning categories) P.
Proof.
  intros H. apply emits_try; [|apply emits_ret].
  destruct (_ && _); [now apply emits_perform|apply emits_throw].
Qed.

Lemma emits_dm_captcha env reasoning (P : Effect -> Prop) :
  P (AuthorDM TCaptcha) -> emits (dm_captcha env reasoning) P.
Proof.
  intros H. apply emits_try; [|apply emits_ret].
  destruct (embedValid _ _ _ _); [now apply emits_perform|apply emits_throw].
Qed.

Lemma emits_delete_if env message (P : Effect -> Prop) :
  (deletable message = true -> P MessageDelete) ->
  emits (delete_if_deletable env message) P.
Proof.
  intros H. unfold delete_if_deletable.
  destruct (deletable message); [apply emits_perform; auto|apply emits_ret].
Qed.

Lemma emits_notice env tier categories (P : Effect -> Prop) :
  P (ChannelNotice tier) -> emits (notice env tier categories) P.
Proof.
  intros H. unfold notice.
  destruct (given categories); [now apply emits_perform|apply emits_throw].
Qed.

Lemma emits_notifyModLog env message action reasoning categories (P : Effect -> Prop) :
  (hasModLogChannel message = true -> P (ModLogSend action)) ->
  emits (notifyModLog env message action reasoning categories) P.
Proof.
  intros H. unfold notifyModLog. destruct (hasModLogChannel message); [|apply emits_ret].
  destruct (embedValid _ _ _ _); [|apply emits_throw].
  apply emits_try; [apply emits_perform; auto|apply emits_ret].
Qed.

Ltac call_ok :=
  intros;
  unfold kick_call, mute_call, delete_call, captcha_call, warn_call, notice_call;
  cbn;
  repeat match goal with H : _ = true |- _ => rewrite H end;
  cbn; rewrite ?orb_true_r; reflexivity.

Lemma emits_handleWarn env message reasoning categories :
  emits (handleWarn env message reasoning categories)
    (fun e => warn_call message e = true).
Proof.
  unfold handleWarn. apply emits_try; [|apply emits_ret].
  apply emits_bind; [apply emits_dm; call_ok|intros _].
  apply emits_bind; [apply emits_notice; call_ok|intros _].
  apply emits_notifyModLog; call_ok.
Qed.

Lemma emits_handleCaptchaRequired env message member reasoning :
  emits (handleCaptchaRequired env message member reasoning)
    (fun e => captcha_call message member e = true).
Proof.
  unfold handleCaptchaRequired. apply emits_try; [|apply emits_ret].
  apply emits_bind; [apply emits_delete_if; call_ok|intros _].
  apply emits_bind; [apply emits_dm_captcha; call_ok|intros _].
  apply emits_bind; [apply emits_perform; call_ok|intros _].
  apply emits_bind; [|intros _; apply emits_notifyModLog; call_ok].
  destruct member as [m|]; [|apply emits_ret].
  destruct (moderatable m) eqn:Hm; [|apply emits_ret].
  apply emits_perform. unfold captcha_call, can_mute. cbn. now rewrite Hm.
Qed.

Lemma emits_handleDelete env message reasoning categories :
  emits (handleDelete env message reasoning categories)
    (fun e => delete_call message e = true).
Proof.
  unfold handleDelete. apply emits_try; [|apply emits_ret].
  apply emits_bind; [apply emits_dm; call_ok|intros _].
  apply emits_bind; [apply emits_delete_if; call_ok|intros _].
  apply emits_bind; [apply emits_notice; call_ok|intros _].
  apply emits_notifyModLog; call_ok.
Qed.

Lemma emits_handleMute env message member reasoning categories :
  emits (handleMute env message member reasoning categories)
    (fun e => mute_call message member e = true).
Proof.
  assert (Hd : emits (handleDelete env message reasoning categories)
                 (fun e => mute_call message member e = true)).
  { eapply emits_mono; [apply emits_handleDelete|].
    intros e He. unfold mute_call. now rewrite He. }
  unfold handleMute. apply emits_try; [|exact Hd].
  apply emits_bind; [apply emits_dm; call_ok|intros _].
  apply emits_bind; [apply emits_delete_if; call_ok|intros _].
  destruct (can_mute member) eqn:Hm; cbn [negb]; [|exact Hd].
  apply emits_bind; [apply emits_perform; call_ok|intros _].
  apply emits_bind; [apply emits_notice; call_ok|intros _].
  apply emits_notifyModLog; call_ok.
Qed.

Lemma emits_handleKick env message member reasoning categories :
  emits (handleKick env message member reasoning categories)
    (fun e => kick_call message member e = true).
Proof.
  assert (Hd : emits (handleMute env message member reasoning categories)
                 (fun e => kick_call message member e = true)).
  { eapply emits_mono; [apply emits_handleMute|].
    intros e He. unfold kick_call. now rewrite He. }
  unfold handleKick. apply emits_try; [|exact Hd].
  apply emits_bind; [apply emits_dm; call_ok|intros _].
  apply emits_bind; [apply emits_delete_if; call_ok|intros _].
  destruct (can_kick member) eqn:Hm; cbn [negb]; [|exact Hd].
  apply emits_bind; [apply emits_perform; call_ok|intros _].
  apply emits_bind; [apply emits_notice; call_ok|intros _].
  apply emits_notifyModLog; call_ok.
Qed.

(** X19. Whatever the platform answers, [executeAction] attempts only
    the calls of the action it carries out: a warning sends messages and
    neither deletes, times out nor kicks; a deletion adds the deletion of a
    deletable message; a mute adds a timeout of ten minutes, for a member
    that can be moderated; only a kick attempts a kick, of a member that can
    be kicked; the verification request deletes, sends its messages and
    times out for five minutes; ["ALLOW"] and unknown actions attempt
    nothing. *)
Theorem executeAction_calls env message member recommended_action reasoning
    detected_categories w :
  exists new,
    trace (snd (executeAction env message member recommended_action reasoning
                  detected_categories w))
    = (trace w ++ new)%list
    /\ Forall (fun x => action_call message member
                          (executed_action recommended_action) (fst x) = true) new.
Proof.
  revert w. change (emits (executeAction env message member recommended_action
                             reasoning detected_categories)
                      (fun e => action_call message member
                                  (executed_action recommended_action) e = true)).
  rewrite executeAction_dispatch. apply emits_try; [|apply emits_ret].
  destruct recommended_action as [a|]; [|apply emits_ret].
  unfold executed_action, action_names. cbn [existsb].
  destruct (String.eqb a "ALLOW") eqn:E0; [apply emits_ret|].
  destruct (String.eqb a "CAPTCHA") eqn:E1.
  { apply String.eqb_eq in E1. subst a.
    apply emits_bind; [apply emits_handleCaptchaRequired|intros _; apply emits_ret]. }
  destruct (String.eqb a "WARN") eqn:E2.
  { apply String.eqb_eq in E2. subst a.
    apply emits_bind; [apply emits_handleWarn|intros _; apply emits_ret]. }
  destruct (String.eqb a "DELETE") eqn:E3.
  { apply String.eqb_eq in E3. subst a.
    apply emits_bind; [apply emits_handleDelete|intros _; apply emits_ret]. }
  destruct (String.eqb a "MUTE") eqn:E4.
  { apply String.eqb_eq in E4. subst a.
    apply emits_bind; [apply emits_handleMute|intros _; apply emits_ret]. }
  destruct (String.eqb a "KICK") eqn:E5.
  { apply String.eqb_eq in E5. subst a.
    apply emits_bind; [apply emits_handleKick|intros _; apply emits_ret]. }
  apply emits_ret.
Qed.

(** After a successful deletion, on a platform where the message can be
    deleted once, the delete handler and the mute handler attempt no
    timeout: the mute handler fails at its own deletion. *)
Lemma handleMute_after_deletion env message member reasoning categories w :
  delete_once env ->
  deletable message = true ->
  existsb is_deleted (trace w) = true ->
  exists w' new,
    handleMute env message member reasoning categories w = (Done tt, w')
    /\ trace w' = (trace w ++ new)%list
    /\ Forall (fun x => is_timeout (fst x) = false) new.
Proof.
  intros Hdel Hdeletable Hw.
  assert (Hd : forall w0, exists w' new,
                 handleDelete env message reasoning categories w0 = (Done tt, w')
                 /\ trace w' = (trace w0 ++ new)%list
                 /\ Forall (fun x => is_timeout (fst x) = false) new).
  { intros w0. destruct (handleDelete_total env message reasoning categories w0)
      as (w' & Hrun).
    destruct (emits_handleDelete env message reasoning categories w0) as (new & Ht & Hf).
    rewrite Hrun in Ht. exists w', new. split; [exact Hrun|]. split; [exact Ht|].
    eapply Forall_impl; [exact Hf|]. intros [e ok]. cbn. destruct e; cbn; congruence. }
  unfold handleMute. unfold try_catch at 1. unfold bind at 1.
  assert (Hdm : exists w1 n1,
             dm env TMute reasoning categories w = (Done tt, w1)
             /\ trace w1 = (trace w ++ n1)%list
             /\ Forall (fun x => is_timeout (fst x) = false) n1).
  { unfold dm, try_catch, perform, throw, ret.
    destruct (_ && _); [destruct (platform_ok _ _ _)|];
      eexists; eexists; (split; [reflexivity|]); cbn;
      (split; [try reflexivity; now rewrite app_nil_r|repeat constructor]). }
  destruct Hdm as (w1 & n1 & Hrun1 & Ht1 & Hf1). rewrite Hrun1.
  unfold bind at 1. unfold delete_if_deletable. rewrite Hdeletable.
  unfold perform at 1. rewrite Hdel, Ht1, existsb_app, Hw. cbn [orb negb].
  destruct (Hd (set_trace (trace w ++ n1 ++ [(MessageDelete, false)])%list w1))
    as (w' & n2 & Hrun2 & Ht2 & Hf2).
  rewrite <- app_assoc. rewrite Hrun2. exists w', (n1 ++ [(MessageDelete, false)] ++ n2)%list.
  split; [reflexivity|]. split.
  - rewrite Ht2. cbn [trace set_trace]. now rewrite <- !app_assoc.
  - apply Forall_app. split; [exact Hf1|]. constructor; [reflexivity|exact Hf2].
Qed.

Lemma quiet_of_emits {A} (m : M A) :
  emits m (fun e => is_timeout e = false) -> no_timeout_after_deletion m.
Proof. intros H w _. apply H. Qed.

Lemma quiet_bind {A B} (m : M A) (k : A -> M B) :
  no_timeout_after_deletion m -> (forall a, no_timeout_after_deletion (k a)) ->
  no_timeout_after_deletion (bind m k).
Proof.
  intros Hm Hk w Hw. unfold bind. destruct (Hm w Hw) as (n1 & H1 & F1).
  destruct (m w) as [[a|] w1]; cbn in H1; [|exists n1; auto].
  destruct (Hk a w1) as (n2 & H2 & F2).
  { rewrite H1, existsb_app, Hw. reflexivity. }
  exists (n1 ++ n2)%list. rewrite H2, H1, app_assoc. split; [reflexivity|].
  now apply Forall_app.
Qed.

Lemma quiet_try {A} (m h : M A) :
  no_timeout_after_deletion m -> no_timeout_after_deletion h ->
  no_timeout_after_deletion (try_catch m h).
Proof.
  intros Hm Hh w Hw. unfold try_catch. destruct (Hm w Hw) as (n1 & H1 & F1).
  destruct (m w) as [[a|] w1]; cbn in H1; [exists n1; auto|].
  destruct (Hh w1) as (n2 & H2 & F2).
  { rewrite H1, existsb_app, Hw. reflexivity. }
  exists (n1 ++ n2)%list. rewrite H2, H1, app_assoc. split; [reflexivity|].
  now apply Forall_app.
Qed.

Lemma quiet_handleMute env message member reasoning categories :
  delete_once env ->
  deletable message = true ->
  no_timeout_after_deletion (handleMute env message member reasoning categories).
Proof.
  intros Hdel Hdeletable w Hw.
  destruct (handleMute_after_deletion env message member reasoning categories w
              Hdel Hdeletable Hw) as (w' & new & Hrun & Ht & Hf).
  exists new. rewrite Hrun. auto.
Qed.

Lemma try_bind_done {A B} (m : M A) (k : A -> M B) (h : M B) w a w1 :
  m w = (Done a, w1) -> try_catch (bind m k) h w = try_catch (k a) h w1.
Proof. intros H. unfold try_catch, bind. now rewrite H. Qed.

(** X20. On a platform where a message can be deleted once, the kick
    handler never mutes: it deletes the deletable message itself, and every
    way into the mute handler (a member that cannot be kicked, a refused
    kick, a refused notice, a log entry that cannot be built) runs after
    that deletion, so that the mute handler fails at its own deletion and
    hands over to the delete handler.  No timeout is attempted, whatever
    the member allows. *)
Theorem handleKick_never_mutes env message member reasoning categories w :
  delete_once env ->
  deletable message = true ->
  existsb is_deleted (trace w) = false ->
  exists w' new,
    handleKick env message member reasoning categories w = (Done tt, w')
    /\ trace w' = (trace w ++ new)%list
    /\ In (MessageDelete, true) new
    /\ Forall (fun x => is_timeout (fst x) = false) new.
Proof.
  intros Hdel Hdeletable Hw.
  assert (H1 : exists w1 n1,
             dm env TKick reasoning categories w = (Done tt, w1)
             /\ trace w1 = (trace w ++ n1)%list
             /\ Forall (fun x => is_timeout (fst x) = false) n1
             /\ existsb is_deleted n1 = false).
  { unfold dm, try_catch, perform, throw, ret.
    destruct (_ && _); [destruct (platform_ok _ _ _)|];
      eexists; eexists; (split; [reflexivity|]); cbn;
      (split; [try reflexivity; now rewrite app_nil_r|]);
      split; repeat constructor. }
  destruct H1 as (w1 & n1 & Hrun1 & Ht1 & Hf1 & He1).
  set (w2 := set_trace (trace w1 ++ [(MessageDelete, true)])%list w1).
  assert (Hrun2 : delete_if_deletable env message w1 = (Done tt, w2)).
  { assert (Hok : platform_ok env (trace w1) MessageDelete = true)
      by (rewrite Hdel, Ht1, existsb_app, Hw, He1; reflexivity).
    unfold delete_if_deletable, perform. rewrite Hdeletable, Hok. reflexivity. }
  assert (Hw2 : existsb is_deleted (trace w2) = true).
  { unfold w2. cbn [trace set_trace]. rewrite existsb_app. cbn. apply orb_true_r. }
  unfold handleKick.
  rewrite (try_bind_done _ _ _ w tt w1 Hrun1), (try_bind_done _ _ _ w1 tt w2 Hrun2).
  pose proof (quiet_handleMute env message member reasoning categories Hdel Hdeletable)
    as Hmute.
  match goal with
  | |- context [try_catch ?rest ?h w2] =>
      assert (HQ : no_timeout_after_deletion (try_catch rest h));
      [|assert (Hdone : exists w', try_catch rest h w2 = (Done tt, w'))]
  end.
  - apply quiet_try; [|exact Hmute].
    destruct (can_kick member); cbn [negb]; [|exact Hmute].
    apply quiet_of_emits.
    apply emits_bind; [now apply emits_perform|intros _].
    apply emits_bind; [now apply emits_notice|intros _].
    now apply emits_notifyModLog.
  - unfold try_catch.
    match goal with
    | |- context [match ?m w2 with _ => _ end] => destruct (m w2) as [[[]|] w3]
    end; [eauto|apply handleMute_total].
  - destruct Hdone as (w' & Hrun). destruct (HQ w2 Hw2) as (n2 & Ht2 & Hf2).
    rewrite Hrun in Ht2. cbn [snd] in Ht2.
    exists w', (n1 ++ [(MessageDelete, true)] ++ n2)%list.
    split; [exact Hrun|]. split.
    + rewrite Ht2. unfold w2. cbn [trace set_trace]. rewrite Ht1.
      now rewrite <- !app_assoc.
    + split; [apply in_or_app; right; now left|].
      apply Forall_app. split; [exact Hf1|]. constructor; [reflexivity|exact Hf2].
Qed.

Lemma handleKick_never_mutes_witness :
  let env := Samples.env_with
               (fun history e =>
                  match e with
                  | MessageDelete => negb (existsb is_deleted history)
                  | ModerationKick => false
                  | _ => true
                  end) None AuditEmpty in
  exists w',
    handleKick env Samples.flagged_message (Some Samples.kickable_member)
      (Some "Severe spam") (Some ["SPAM"]) Samples.world_defaults = (Done tt, w')
    /\ In (ModerationKick, false) (trace w')
    /\ In (MessageDelete, true) (trace w')
    /\ Forall (fun x => is_timeout (fst x) = false) (trace w').
Proof.
  intros env.
  destruct (handleKick_never_mutes env Samples.flagged_message
              (Some Samples.kickable_member) (Some "Severe spam") (Some ["SPAM"])
              Samples.world_defaults)
    as (w' & new & Hrun & Ht & Hin & Hno).
  - intros history. reflexivity.
  - reflexivity.
  - reflexivity.
  - exists w'. cbn in Ht. rewrite Ht. split; [exact Hrun|].
    split; [|split; [exact Hin|exact Hno]].
    assert (Hw : w' = snd (handleKick env Samples.flagged_message
                             (Some Samples.kickable_member) (Some "Severe spam")
                             (Some ["SPAM"]) Samples.world_defaults))
      by (rewrite Hrun; reflexivity).
    rewrite <- Ht, Hw. vm_compute. tauto.
Defined.

End ActionCalls.

Section FallbackClassifier.

Import Groq.

Variable owner : option string.
Variables spam scam harassment : list (string -> bool).

Lemma scan_score patterns label weight content acc :
  0 <= weight -> (5 | weight) ->
  0 <= snd acc /\ (5 | snd acc) ->
  0 <= snd (scan patterns label weight content acc)
  /\ (5 | snd (scan patterns label weight content acc)).
Proof.
  intros Hw Hd. unfold scan. revert acc.
  induction patterns as [|p ps IH]; intros acc [H0 H5]; cbn [foldl]; [auto|].
  apply IH. destruct (p content); cbn [snd]; [|auto].
  split; [lia|now apply Z.divide_add_r].
Qed.

Lemma flag_score cond label weight acc :
  0 <= weight -> (5 | weight) ->
  0 <= snd acc /\ (5 | snd acc) ->
  0 <= snd (flag cond label weight acc) /\ (5 | snd (flag cond label weight acc)).
Proof.
  intros Hw Hd [H0 H5]. unfold flag. destruct cond; cbn [snd]; [|auto].
  split; [lia|now apply Z.divide_add_r].
Qed.

Lemma determineAction_level score warnings :
  determineAction score (level_of (Some score)) warnings
  = if score <=? 30 then "ALLOW"
    else if score <=? 65
         then if warnings =? 0 then "WARN"
              else if warnings =? 1 then "DELETE" else "MUTE"
         else if (score >=? 85) && (warnings >=? 2) then "KICK"
              else if score >=? 70 then "MUTE" else "DELETE".
Proof.
  unfold determineAction, level_of.
  destruct (score <=? 30); [reflexivity|]. destruct (score <=? 65); reflexivity.
Qed.

(** The score and the action of the fallback classifier, as functions of
    the number of warnings: the rest of the input contributes a base that
    is a non-negative multiple of 5. *)
Lemma fallbackAnalysis_score input :
  is_owner owner (input_user_id input) = false ->
  exists base,
    0 <= base /\ (5 | base)
    /\ forall n,
         let d := fallbackAnalysis owner spam scam harassment (set_warnings n input) in
         let score := Z.min (base + (if n >? 0 then n * 10 else 0)) 100 in
         risk_score d = Some score
         /\ risk_level d = Some (level_of (Some score))
         /\ recommended_action d
            = Some (determineAction score (level_of (Some score)) n).
Proof.
  intros Ho.
  pose (acc := flag (links_present input) "CONTAINS_LINKS" 10
                 (flag (server_join_age_minutes input <? 5) "IMMEDIATE_POST_JOIN" 15
                    (flag (user_account_age_days input <? 7) "NEW_ACCOUNT" 10
                       (scan harassment "HARASSMENT" 25 (message_content input)
                          (scan scam "SCAM" 30 (message_content input)
                             (scan spam "SPAM" 20 (message_content input) ([], 0))))))).
  assert (Hacc : 0 <= snd acc /\ (5 | snd acc)).
  { unfold acc.
    apply flag_score; [lia|now exists 2|].
    apply flag_score; [lia|now exists 3|].
    apply flag_score; [lia|now exists 2|].
    apply scan_score; [lia|now exists 5|].
    apply scan_score; [lia|now exists 6|].
    apply scan_score; [lia|now exists 4|].
    cbn. split; [lia|now exists 0]. }
  exists (snd acc). split; [tauto|]. split; [tauto|].
  intros n. unfold fallbackAnalysis. cbn [input_user_id set_warnings]. rewrite Ho.
  cbn [message_content user_account_age_days server_join_age_minutes links_present
       previous_warnings_count set_warnings].
  fold acc. unfold flag at 1. unfold flag at 1. unfold flag at 1.
  destruct (n >? 0); cbn [snd risk_score risk_level recommended_action];
    rewrite ?Z.add_0_r; repeat split.
Qed.

(** X21. The decision of the fallback classifier, for an author who is
    not the owner: the score lies between 0 and 100, the level is the band
    of the score, the action is ALLOW exactly when the score is at most 30,
    a warning is recommended only for a first offence in the middle band, a
    kick only from a score of 85 with at least two warnings, and the action
    is always one of ALLOW, WARN, DELETE, MUTE and KICK. *)
Theorem fallbackAnalysis_bands input :
  is_owner owner (input_user_id input) = false ->
  exists score action,
    let d := fallbackAnalysis owner spam scam harassment input in
    risk_score d = Some score
    /\ recommended_action d = Some action
    /\ 0 <= score <= 100
    /\ risk_level d = Some (level_of (Some score))
    /\ (action = "ALLOW" <-> score <= 30)
    /\ (action = "WARN" -> 30 < score <= 65 /\ previous_warnings_count input = 0)
    /\ (action = "KICK" -> 85 <= score /\ 2 <= previous_warnings_count input)
    /\ In action ["ALLOW"; "WARN"; "DELETE"; "MUTE"; "KICK"].
Proof.
  intros Ho. destruct (fallbackAnalysis_score input Ho) as (base & H0 & _ & H).
  specialize (H (previous_warnings_count input)).
  replace (set_warnings (previous_warnings_count input) input) with input in H
    by (destruct input; reflexivity).
  cbv zeta in H. destruct H as (Hs & Hl & Ha).
  rewrite determineAction_level in Ha.
  set (n := previous_warnings_count input) in *.
  set (score := Z.min (base + (if n >? 0 then n * 10 else 0)) 100) in *.
  assert (Hr : 0 <= score <= 100).
  { unfold score. destruct (n >? 0) eqn:E; lia. }
  eexists; eexists. cbv zeta.
  split; [exact Hs|]. split; [exact Ha|]. split; [exact Hr|]. split; [exact Hl|].
  destruct (score <=? 30) eqn:E1;
    [|destruct (score <=? 65) eqn:E2;
      [destruct (n =? 0) eqn:E3; [|destruct (n =? 1) eqn:E4]
      |destruct (score >=? 85) eqn:E5, (n >=? 2) eqn:E6; cbn [andb];
       try destruct (score >=? 70) eqn:E7]];
    (split; [split; [try discriminate; lia | try reflexivity; lia]|]);
    (split; [try discriminate; intros _; lia|]);
    (split; [try discriminate; intros _; lia|]);
    cbn; tauto.
Qed.

(** X22. More warnings never make the fallback classifier milder:
    with the rest of the input unchanged, neither the score nor the
    severity of the recommended action decreases when the number of
    warnings grows. *)
Theorem fallbackAnalysis_monotone input n n' :
  is_owner owner (input_user_id input) = false ->
  0 <= n <= n' ->
  let d := fallbackAnalysis owner spam scam harassment (set_warnings n input) in
  let d' := fallbackAnalysis owner spam scam harassment (set_warnings n' input) in
  (exists score score',
     risk_score d = Some score /\ risk_score d' = Some score' /\ score <= score')
  /\ action_rank (recommended_action d) <= action_rank (recommended_action d').
Proof.
  intros Ho Hn. destruct (fallbackAnalysis_score input Ho) as (base & H0 & [k Hk] & H).
  destruct (H n) as (Hs & _ & Ha). destruct (H n') as (Hs' & _ & Ha').
  cbv zeta in *. rewrite determineAction_level in Ha, Ha'.
  split.
  - eexists; eexists. split; [exact Hs|]. split; [exact Hs'|].
    destruct (n >? 0) eqn:E, (n' >? 0) eqn:E'; lia.
  - rewrite Ha, Ha'. clear Hs Hs' Ha Ha' H.
    set (s := Z.min (base + (if n >? 0 then n * 10 else 0)) 100).
    set (s' := Z.min (base + (if n' >? 0 then n' * 10 else 0)) 100).
    assert (Hss : s <= s').
    { unfold s, s'. destruct (n >? 0) eqn:E, (n' >? 0) eqn:E'; lia. }
    assert (Hgap : 65 < s' -> s' < 70 -> 65 < s).
    { unfold s, s'. destruct (n >? 0) eqn:E, (n' >? 0) eqn:E'; lia. }
    clearbody s s'.
    repeat match goal with
           | |- context [if ?b then _ else _] => destruct b eqn:?; cbn [andb]
           end; cbn; lia.
Qed.

End FallbackClassifier.

Section FallbackClassifierExamples.

Import Groq.

Lemma fallbackAnalysis_bands_witness :
  exists score action,
    let input := mkInput "hello" [] 400 5000 false true false 2 true "user-2" in
    let d := fallbackAnalysis (Some "owner-1") [] [] [] input in
    risk_score d = Some score
    /\ recommended_action d = Some action
    /\ 0 <= score <= 100
    /\ (action = "ALLOW" <-> score <= 30).
Proof.
  destruct (fallbackAnalysis_bands (Some "owner-1") [] [] []
              (mkInput "hello" [] 400 5000 false true false 2 true "user-2") eq_refl)
    as (score & action & Hs & Ha & Hr & _ & Hallow & _).
  exists score, action. cbv zeta. tauto.
Defined.

Lemma fallbackAnalysis_monotone_witness :
  let input := mkInput "hello" [] 400 5000 false true false 0 true "user-2" in
  action_rank (recommended_action
                 (fallbackAnalysis (Some "owner-1") [] [] [] (set_warnings 1 input)))
  <= action_rank (recommended_action
                    (fallbackAnalysis (Some "owner-1") [] [] [] (set_warnings 6 input))).
Proof.
  intros input.
  apply (fallbackAnalysis_monotone (Some "owner-1") [] [] [] input 1 6 eq_refl).
  lia.
Defined.

End FallbackClassifierExamples.

Section Classifier.

Import Groq.

Lemma is_action_eq action name :
  is_action action name = true -> action = Some name.
Proof.
  destruct action as [a|]; cbn; [|discriminate].
  intros H. apply String.eqb_eq in H. now subst.
Qed.

(** X23. The adjustment of the classifier's decision for the author's
    history only escalates: the severity of the action never goes down, the
    level is always recomputed from the adjusted score (a missing score
    gives DANGEROUS), categories and reasoning are kept; an author without
    warnings keeps score and action; with warnings a score of at most 100
    does not decrease and stays at most 100. *)
Theorem adjustForUserHistory_escalates aiResponse input :
  let d := adjustForUserHistory aiResponse input in
  action_rank (recommended_action aiResponse) <= action_rank (recommended_action d)
  /\ risk_level d = Some (level_of (risk_score d))
  /\ (risk_score aiResponse = None -> risk_level d = Some "DANGEROUS")
  /\ detected_categories d = detected_categories aiResponse
  /\ reasoning d = reasoning aiResponse
  /\ (previous_warnings_count input <= 0 ->
      risk_score d = risk_score aiResponse
      /\ recommended_action d = recommended_action aiResponse)
  /\ (forall n, risk_score aiResponse = Some n -> n <= 100 ->
      0 <= previous_warnings_count input ->
      exists n', risk_score d = Some n' /\ n <= n' <= 100).
Proof.
  cbv zeta. unfold adjustForUserHistory.
  cbn [risk_score risk_level detected_categories recommended_action reasoning].
  split.
  { destruct (previous_warnings_count input >? 0); [|lia].
    destruct (_ && is_action _ "WARN") eqn:E1.
    { apply andb_prop in E1 as [_ E]. apply is_action_eq in E. rewrite E. cbn. lia. }
    destruct (_ && is_action _ "DELETE") eqn:E2.
    { apply andb_prop in E2 as [_ E]. apply is_action_eq in E. rewrite E. cbn. lia. }
    destruct (_ && is_action _ "MUTE") eqn:E3.
    { apply andb_prop in E3 as [_ E]. apply is_action_eq in E. rewrite E. cbn. lia. }
    lia. }
  split; [reflexivity|].
  split.
  { intros ->. destruct (previous_warnings_count input >? 0); reflexivity. }
  split; [reflexivity|]. split; [reflexivity|].
  split.
  { intros Hp. assert (E : (previous_warnings_count input >? 0) = false) by lia.
    rewrite E. split; reflexivity. }
  intros n Hn H100 Hp. rewrite Hn.
  destruct (previous_warnings_count input >? 0) eqn:E; eexists; (split; [reflexivity|]); lia.
Qed.

(** X24. For an author who is not the owner, [analyzeMessageWithGroq]
    never throws.  An author who has to pass the verification gets the
    verification decision without any call to the classifier.  Otherwise
    the classifier is called once, and the decision is its reply adjusted
    for the author's history when the call succeeds and the reply parses,
    and the decision of the fallback classifier when not. *)
Theorem analyzeMessageWithGroq_gate owner spam scam harassment completion env input w :
  is_owner owner (input_user_id input) = false ->
  (shouldRequireCaptcha input = true ->
   analyzeMessageWithGroq owner spam scam harassment completion env input w
   = (Done CAPTCHA_DECISION, w))
  /\ (shouldRequireCaptcha input = false ->
      let ok := platform_ok env (trace w) GroqCompletion in
      analyzeMessageWithGroq owner spam scam harassment completion env input w
      = (Done (match (if ok then completion input else None) with
               | Some aiResponse => adjustForUserHistory aiResponse input
               | None => fallbackAnalysis owner spam scam harassment input
               end),
         set_trace (trace w ++ [(GroqCompletion, ok)])%list w)).
Proof.
  intros Ho. unfold analyzeMessageWithGroq. rewrite Ho. split; intros ->; [reflexivity|].
  cbv zeta. unfold try_catch, bind, perform, ret, throw.
  destruct (platform_ok env (trace w) GroqCompletion); cbn; [|reflexivity].
  destruct (completion input); cbn; destruct w; reflexivity.
Qed.

Lemma analyzeMessageWithGroq_gate_witness :
  let input := mkInput "free nitro" [] 2 5000 false true false 0 false "user-2" in
  let env := Samples.env_with Samples.all_ok None AuditEmpty in
  analyzeMessageWithGroq (Some "owner-1") [] [] [] (fun _ => None) env input
    Samples.world_defaults
  = (Done CAPTCHA_DECISION, Samples.world_defaults).
Proof.
  intros input env.
  apply (proj1 (analyzeMessageWithGroq_gate (Some "owner-1") [] [] [] (fun _ => None)
                  env input Samples.world_defaults eq_refl)).
  reflexivity.
Defined.

End Classifier.

Section TrustedUsers.

Import AntiNuke.

(** X30. [isWhitelisted] never throws, and it returns true only for a
    user on the whitelist of the policy: the rows of trusted users never
    match, whatever they hold, because the comparison reads a property
    [discord_user_id] of the row while the Discord identifier is nested
    under [discord_users]. *)
Theorem isWhitelisted_only_whitelist env g u w :
  exists b w',
    isWhitelisted env g u w = (Done b, w')
    /\ (b = true ->
        exists s allowed,
          getSettings env g w = (Done s, w')
          /\ whitelist s = Some allowed
          /\ In u allowed).
Proof.
  unfold isWhitelisted, try_catch, bind.
  destruct (getSettings_total env g w) as (s & w0 & Hs & _). rewrite Hs.
  destruct (whitelist s) as [allowed|] eqn:Hwl; unfold throw, ret.
  - eexists; eexists. split; [reflexivity|]. intros Hb.
    exists s, allowed. split; [reflexivity|]. split; [exact Hwl|].
    apply orb_prop in Hb as [Hb|Hb].
    + apply existsb_exists in Hb as (x & Hin & Hx).
      apply String.eqb_eq in Hx. now subst x.
    + apply existsb_exists in Hb as (x & _ & Hx). discriminate Hx.
  - exists false, w0. split; [reflexivity|discriminate].
Qed.

End TrustedUsers.

Section ModLogChannel.

Lemma find_by_names_spec names cache :
  match find_by_names names cache with
  | Some channel =>
      In channel cache /\ ch_textBased channel = true
      /\ exists before after,
           names = (before ++ ch_name channel :: after)%list
           /\ forall other, In other cache -> ch_textBased other = true ->
                ~ In (ch_name other) before
  | None =>
      forall other, In other cache -> ch_textBased other = true ->
        ~ In (ch_name other) names
  end.
Proof.
  induction names as [|name rest IH]; cbn [find_by_names]; [intros ? _ _ []|].
  destruct (List.find _ cache) as [channel|] eqn:Hf.
  - apply find_some in Hf as [Hin Hc]. apply andb_prop in Hc as [Hn Ht].
    apply String.eqb_eq in Hn. split; [exact Hin|]. split; [exact Ht|].
    exists [], rest. cbn. split; [now rewrite Hn|]. intros ? _ _ [].
  - assert (Hnone : forall other, In other cache -> ch_textBased other = true ->
                      ch_name other <> name).
    { intros other Hin Ht Heq.
      pose proof (find_none _ _ Hf other Hin) as Hc. cbn in Hc.
      rewrite Ht, andb_true_r in Hc. apply String.eqb_neq in Hc. contradiction. }
    destruct (find_by_names rest cache) as [channel|].
    + destruct IH as (Hin & Ht & before & after & Hn & Hb).
      split; [exact Hin|]. split; [exact Ht|].
      exists (name :: before), after. split; [cbn; now rewrite Hn|].
      intros other Ho Hto [Heq|Hi]; [now apply (Hnone other Ho Hto)|].
      now apply (Hb other Ho Hto).
    + intros other Ho Hto [Heq|Hi]; [now apply (Hnone other Ho Hto)|].
      now apply (IH other Ho Hto).
Qed.

(** X25. The moderation log channel is searched by name, in the order
    of the list of names: the channel found is a text-based channel of the
    guild with one of the names, no text-based channel of the guild has a
    name that comes earlier in the list, and nothing is found only when no
    text-based channel has any of the names. *)
Theorem findModLogChannel_priority cache :
  match findModLogChannel cache with
  | Some channel =>
      In channel cache /\ ch_textBased channel = true
      /\ exists before after,
           possibleNames = (before ++ ch_name channel :: after)%list
           /\ forall other, In other cache -> ch_textBased other = true ->
                ~ In (ch_name other) before
  | None =>
      forall other, In other cache -> ch_textBased other = true ->
        ~ In (ch_name other) possibleNames
  end.
Proof. apply find_by_names_spec. Qed.

End ModLogChannel.

Section RateLimit.

Import Helpers.

Variables (userId action : string) (limit windowMs : Z).

Let key : string := (userId ++ ":" ++ action)%string.
Let within (now : Z) : list Z -> list Z := List.filter (fun t => now - t <? windowMs).

Lemma checkRateLimit_step now rateLimitMap :
  let stored := default [] (rateLimitMap !! key) in
  let r := checkRateLimit now userId action limit windowMs rateLimitMap in
  allowed (fst r) = (Z.of_nat (length (within now stored)) <? limit)
  /\ default [] (snd r !! key)
     = (if allowed (fst r) then (within now stored ++ [now])%list else stored)
  /\ forall other, other <> key -> snd r !! other = rateLimitMap !! other.
Proof.
  cbv zeta. unfold checkRateLimit. fold key.
  assert (Hs : default [] ((match rateLimitMap !! key with
                            | Some _ => rateLimitMap
                            | None => <[key := []]> rateLimitMap
                            end) !! key) = default [] (rateLimitMap !! key)).
  { destruct (rateLimitMap !! key) eqn:E; [now rewrite E|].
    now rewrite lookup_insert_eq. }
  assert (Ho : forall other, other <> key ->
                 (match rateLimitMap !! key with
                  | Some _ => rateLimitMap
                  | None => <[key := []]> rateLimitMap
                  end) !! other = rateLimitMap !! other).
  { intros other Hne. destruct (rateLimitMap !! key); [reflexivity|].
    now rewrite lookup_insert_ne. }
  rewrite Hs. fold (within now (default [] (rateLimitMap !! key))).
  destruct (Z.of_nat (length (within now (default [] (rateLimitMap !! key)))) >=? limit)
    eqn:E; cbn [fst snd allowed].
  - split; [symmetry; lia|]. split; [exact Hs|exact Ho].
  - split; [symmetry; lia|]. split; [now rewrite lookup_insert_eq|].
    intros other Hne. rewrite lookup_insert_ne by congruence. now apply Ho.
Qed.

Lemma within_within now later l :
  now <= later -> within later (within now l) = within later l.
Proof.
  intros Hle. unfold within. induction l as [|s l IH]; cbn; [reflexivity|].
  destruct (now - s <? windowMs) eqn:E1; cbn; destruct (later - s <? windowMs) eqn:E2;
    rewrite ?IH; try reflexivity; lia.
Qed.

Lemma checkRateLimits_invariant times :
  forall rateLimitMap past first h1 t ok h2,
    (forall later, first <= later ->
       within later (default [] (rateLimitMap !! key)) = within later past) ->
    ascending first times ->
    checkRateLimits userId action limit windowMs times rateLimitMap
    = (h1 ++ (t, ok) :: h2)%list ->
    ok = (Z.of_nat (length (within t (past ++ map fst (List.filter
                                                        (fun x : Z * bool => snd x) h1))))
          <? limit).
Proof.
  induction times as [|now rest IH]; intros m past first h1 t ok h2 Hinv Hasc Hrun.
  - destruct h1; discriminate.
  - cbn [checkRateLimits] in Hrun. destruct Hasc as [Hfirst Hasc].
    destruct (checkRateLimit_step now m) as (Ha & Hst & _). cbv zeta in Ha, Hst.
    destruct h1 as [|x h1]; cbn [app] in Hrun.
    + injection Hrun as Ht Hok Hrest. subst t ok.
      cbn. rewrite app_nil_r, Ha. now rewrite (Hinv now Hfirst).
    + injection Hrun as Hx Hrest. subst x. cbn [List.filter snd map].
      set (a := allowed (fst (checkRateLimit now userId action limit windowMs m))) in *.
      replace (past ++ map fst (if a then (now, a) :: List.filter (fun x : Z * bool => snd x) h1
                                else List.filter (fun x : Z * bool => snd x) h1))%list
        with ((past ++ (if a then [now] else [])) ++
              map fst (List.filter (fun x : Z * bool => snd x) h1))%list
        by (destruct a; cbn; now rewrite <- ?app_assoc, ?app_nil_r).
      refine (IH _ _ now h1 t ok h2 _ Hasc Hrest).
      intros later Hlater. rewrite Hst. destruct a.
      * unfold within at 1 3. rewrite !List.filter_app.
        fold (within later (within now (default [] (m !! key)))).
        fold (within later past). rewrite within_within by exact Hlater.
        rewrite (Hinv later) by lia. reflexivity.
      * rewrite app_nil_r. apply Hinv. lia.
Qed.

(** X26. The rate limiter of the helpers keeps its promise: in a run of
    calls for one user and action, at times that do not decrease and from a
    map without an entry for them, a call is allowed exactly when fewer
    than [limit] of the calls allowed before it lie within the window that
    ends at its time. *)
Theorem checkRateLimits_window rateLimitMap first times h1 t ok h2 :
  rateLimitMap !! key = None ->
  ascending first times ->
  checkRateLimits userId action limit windowMs times rateLimitMap
  = (h1 ++ (t, ok) :: h2)%list ->
  ok = (Z.of_nat (length (allowed_within windowMs t h1)) <? limit).
Proof.
  intros Hnone Hasc Hrun.
  apply (checkRateLimits_invariant times rateLimitMap [] first h1 t ok h2);
    [|exact Hasc|exact Hrun].
  intros later _. now rewrite Hnone.
Qed.

(** X27. One call of the rate limiter: an allowed call stores the
    timestamps of the window followed by its own time and reports what is
    left of the limit, a number from 0 to [limit - 1]; a denied call leaves
    the stored timestamps of the key as they are, reports nothing left and,
    for a positive limit, a reset time that lies in the future; entries of
    other keys are never touched. *)
Theorem checkRateLimit_result now rateLimitMap :
  let stored := default [] (rateLimitMap !! key) in
  let valid := List.filter (fun t => now - t <? windowMs) stored in
  let r := checkRateLimit now userId action limit windowMs rateLimitMap in
  (allowed (fst r) = true ->
   snd r !! key = Some (valid ++ [now])%list
   /\ 0 <= remaining (fst r) < limit
   /\ resetAt (fst r) = Some (now + windowMs))
  /\ (allowed (fst r) = false ->
      default [] (snd r !! key) = stored
      /\ remaining (fst r) = 0
      /\ (0 < limit -> exists t, resetAt (fst r) = Some t /\ now < t))
  /\ (forall other, other <> key -> snd r !! other = rateLimitMap !! other).
Proof.
  cbv zeta. destruct (checkRateLimit_step now rateLimitMap) as (_ & _ & Ho).
  cbv zeta in Ho. split; [|split; [|exact Ho]]; clear Ho.
  - unfold checkRateLimit. fold key.
    assert (Hs : default [] ((match rateLimitMap !! key with
                              | Some _ => rateLimitMap
                              | None => <[key := []]> rateLimitMap
                              end) !! key) = default [] (rateLimitMap !! key)).
    { destruct (rateLimitMap !! key) eqn:E; [now rewrite E|].
      now rewrite lookup_insert_eq. }
    rewrite Hs.
    destruct (_ >=? limit) eqn:E; cbn [fst snd allowed remaining resetAt];
      [discriminate|].
    intros _. rewrite lookup_insert_eq. split; [reflexivity|]. split; [|reflexivity].
    rewrite length_app. cbn [length]. lia.
  - unfold checkRateLimit. fold key.
    assert (Hs : default [] ((match rateLimitMap !! key with
                              | Some _ => rateLimitMap
                              | None => <[key := []]> rateLimitMap
                              end) !! key) = default [] (rateLimitMap !! key)).
    { destruct (rateLimitMap !! key) eqn:E; [now rewrite E|].
      now rewrite lookup_insert_eq. }
    rewrite Hs.
    destruct (_ >=? limit) eqn:E; cbn [fst snd allowed remaining resetAt];
      [|discriminate].
    intros _. split; [exact Hs|]. split; [reflexivity|].
    intros Hpos.
    destruct (List.filter (fun t => now - t <? windowMs)
                (default [] (rateLimitMap !! key))) as [|s l] eqn:Hf;
      [cbn [length] in E; rewrite Z.geb_leb in E; apply Z.leb_le in E; cbn in E; lia|].
    exists (s + windowMs). split; [reflexivity|].
    assert (Hin : In s (List.filter (fun t => now - t <? windowMs)
                          (default [] (rateLimitMap !! key))))
      by (rewrite Hf; now left).
    apply filter_In in Hin as [_ Hin]. lia.
Qed.

End RateLimit.

Section RateLimitExamples.

Import Helpers.

Lemma checkRateLimits_window_witness :
  checkRateLimits "user-7" "verify" 5 60000 [0; 10; 20; 30; 40; 50; 60020] ∅
  = [(0, true); (10, true); (20, true); (30, true); (40, true); (50, false);
     (60020, true)]
  /\ false = (Z.of_nat (length (allowed_within 60000 50
                                  [(0, true); (10, true); (20, true); (30, true);
                                   (40, true)])) <? 5).
Proof.
  split; [vm_compute; reflexivity|].
  apply (checkRateLimits_window "user-7" "verify" 5 60000 ∅ 0
           [0; 10; 20; 30; 40; 50; 60020]
           [(0, true); (10, true); (20, true); (30, true); (40, true)] 50 false
           [(60020, true)]).
  - reflexivity.
  - cbn. lia.
  - vm_compute. reflexivity.
Defined.

End RateLimitExamples.

Section CommandMemory.

Lemma keeps_ret {A} (a : A) : keeps_memory (ret a).
Proof. intros w. split; reflexivity. Qed.

Lemma keeps_perform env e : keeps_memory (perform env e).
Proof.
  intros w. unfold perform.
  destruct (platform_ok env (trace w) e); [|split; reflexivity].
  destruct e; split; reflexivity.
Qed.

Lemma keeps_bind {A B} (m : M A) (k : A -> M B) :
  keeps_memory m -> (forall a, keeps_memory (k a)) -> keeps_memory (bind m k).
Proof.
  intros Hm Hk w. unfold bind. destruct (Hm w) as [H1 H2].
  destruct (m w) as [[a|] w1]; cbn in *; [|auto].
  destruct (Hk a w1) as [H3 H4]. split; congruence.
Qed.

Lemma keeps_try {A} (m h : M A) :
  keeps_memory m -> keeps_memory h -> keeps_memory (try_catch m h).
Proof.
  intros Hm Hh w. unfold try_catch. destruct (Hm w) as [H1 H2].
  destruct (m w) as [[a|] w1]; cbn in *; [auto|].
  destruct (Hh w1) as [H3 H4]. split; congruence.
Qed.

Lemma keeps_getAntiNukeSettings env g : keeps_memory (getAntiNukeSettings env g).
Proof.
  intros w. unfold getAntiNukeSettings, createDefaultAntiNukeSettings.
  destruct (dbStatus env); [destruct (db w !! g)| |]; split; reflexivity.
Qed.

Lemma keeps_updateAntiNukeSettings env g updates :
  keeps_memory (updateAntiNukeSettings env g updates).
Proof.
  unfold updateAntiNukeSettings.
  apply keeps_bind; [apply keeps_getAntiNukeSettings|intros _ w].
  destruct (dbStatus env); [destruct (db w !! g)| |]; split; reflexivity.
Qed.

Lemma keeps_unlock_each env chans : keeps_memory (AntiNuke.unlock_each env chans).
Proof.
  induction chans as [|c chans IH]; cbn [AntiNuke.unlock_each]; [apply keeps_ret|].
  apply keeps_bind; [|intros _; exact IH].
  destruct (AntiNuke.is_lockdown_name (ch_name c)); apply keeps_perform.
Qed.

Lemma keeps_handleAntiNuke env guild subcommand :
  keeps_memory (handleAntiNuke env guild subcommand).
Proof.
  unfold handleAntiNuke.
  apply keeps_bind; [apply keeps_perform|intros _].
  apply keeps_try; [|apply keeps_perform].
  apply keeps_bind; [apply keeps_getAntiNukeSettings|intros _].
  destruct subcommand.
  - apply keeps_bind; [apply keeps_updateAntiNukeSettings|intros _; apply keeps_perform].
  - apply keeps_bind; [apply keeps_updateAntiNukeSettings|intros _; apply keeps_perform].
  - apply keeps_bind; [apply keeps_updateAntiNukeSettings|intros _; apply keeps_perform].
  - apply keeps_bind; [|intros success; apply keeps_perform].
    unfold AntiNuke.unlockServer. apply keeps_try; [|apply keeps_ret].
    apply keeps_bind; [intros w; split; reflexivity|intros w0].
    apply keeps_bind; [apply keeps_unlock_each|intros _; apply keeps_ret].
Qed.

(** The command completes when the platform accepts the deferral and
    every reply. *)
Lemma handleAntiNuke_replies env guild subcommand w :
  (forall history, platform_ok env history InteractionDefer = true) ->
  (forall history content, platform_ok env history (InteractionReply content) = true) ->
  fst (handleAntiNuke env guild subcommand w) = Done tt.
Proof.
  intros Hdefer Hreply. unfold handleAntiNuke, bind at 1, perform at 1.
  rewrite Hdefer. unfold try_catch.
  match goal with
  | |- context [match ?m ?w1 with _ => _ end] => destruct (m w1) as [[[]|] w2]
  end; [reflexivity|].
  unfold perform. now rewrite Hreply.
Qed.

(** X28. No subcommand of [/antinuke] that writes the policy or lifts a
    lockdown reaches the memory of the engine: whether the command
    completes or is rejected (a refused deferral or reply), it leaves the
    cache of policies and the counters as they are, so that a policy the
    engine has loaded is the one it keeps using after the command, whatever
    the command wrote to the store.  The command completes when the
    platform accepts the deferral and the replies. *)
Theorem handleAntiNuke_keeps_memory env env' guild subcommand g s w :
  settingsCache w !! g = Some s ->
  let w' := snd (handleAntiNuke env guild subcommand w) in
  settingsCache w' = settingsCache w
  /\ actionTracker w' = actionTracker w
  /\ AntiNuke.getSettings env' g w' = (Done s, w')
  /\ ((forall history, platform_ok env history InteractionDefer = true) ->
      (forall history content,
         platform_ok env history (InteractionReply content) = true) ->
      fst (handleAntiNuke env guild subcommand w) = Done tt).
Proof.
  intros Hc w'.
  destruct (keeps_handleAntiNuke env guild subcommand w) as [H1 H2]. fold w' in H1, H2.
  split; [exact H1|]. split; [exact H2|]. split.
  - apply getSettings_cached. now rewrite H1.
  - apply handleAntiNuke_replies.
Qed.

Lemma handleAntiNuke_keeps_memory_witness :
  let env := Samples.env_with Samples.all_ok None AuditEmpty in
  let w' := snd (handleAntiNuke env Samples.guild1 (SubConfig [SetBanLimit 1])
                   Samples.world_defaults) in
  AntiNuke.getSettings env "guild-1" w' = (Done DEFAULT_SETTINGS, w').
Proof.
  intros env w'.
  destruct (handleAntiNuke_keeps_memory env env Samples.guild1 (SubConfig [SetBanLimit 1])
              "guild-1" DEFAULT_SETTINGS Samples.world_defaults)
    as (_ & _ & Hget & _).
  - vm_compute. reflexivity.
  - exact Hget.
Defined.

End CommandMemory.

Section VerificationGate.

Import Groq Helpers.

Lemma div_lt_iff a d q : 0 < d -> (a / d < q <-> a < d * q).
Proof.
  intros Hd. pose proof (Z.div_mod a d ltac:(lia)) as Hdm.
  pose proof (Z.mod_pos_bound a d Hd) as Hm. split; intros H; nia.
Qed.

(** X29. Who has to pass the verification: with the ages that
    [handleMessage] computes, an author is sent to the verification exactly
    when the verification has not been passed and the account was created
    less than seven days ago, or the author joined less than ten minutes
    ago, or has a warning; an author who is not a member, or a member
    without a join date, counts as having joined long ago. *)
Theorem shouldRequireCaptcha_ages now createdAt member input :
  (user_account_age_days input, server_join_age_minutes input)
  = input_ages now createdAt member ->
  shouldRequireCaptcha input = true
  <-> captcha_verified input = false
      /\ (now - createdAt < 7 * 24 * 60 * 60 * 1000
          \/ (exists joined, member = Some (Some joined) /\ now - joined < 10 * 60 * 1000)
          \/ 0 < previous_warnings_count input).
Proof.
  unfold input_ages, calculateAccountAge, calculateJoinAge, shouldRequireCaptcha.
  intros H. injection H as Hage Hjoin. rewrite Hage, Hjoin.
  destruct (captcha_verified input); [split; [discriminate|intros [? _]; discriminate]|].
  rewrite !orb_true_iff, !Z.ltb_lt, Z.gtb_lt.
  rewrite (div_lt_iff (now - createdAt) (1000 * 60 * 60 * 24) 7) by lia.
  split.
  - intros [[Ha|Hj]|Hw]; (split; [reflexivity|]); [left; lia| |right; right; exact Hw].
    destruct member as [[joined|]|]; [|lia|lia].
    apply div_lt_iff in Hj; [|lia]. right; left. exists joined. split; [reflexivity|lia].
  - intros [_ [Ha|[(joined & -> & Hj)|Hw]]]; [left; left; lia| |right; exact Hw].
    left; right. apply div_lt_iff; lia.
Qed.

Lemma shouldRequireCaptcha_ages_witness :
  let input := mkInput "hi" [] 3 999 false false false 0 false "user-2" in
  shouldRequireCaptcha input = true
  <-> captcha_verified input = false
      /\ (1000000000 - 700000000 < 7 * 24 * 60 * 60 * 1000
          \/ (exists joined, @None (option Z) = Some (Some joined)
                             /\ 1000000000 - joined < 10 * 60 * 1000)
          \/ 0 < previous_warnings_count input).
Proof.
  intros input.
  apply (shouldRequireCaptcha_ages 1000000000 700000000 None input).
  vm_compute. reflexivity.
Defined.

End VerificationGate.
